(** * RailBooker: seat inventory, revenue ledger and the booking service

    A shallow embedding of the database functions of the repository
    (the PL/pgSQL functions [decrement], [increment],
    [update_revenue_on_payment], [update_revenue_on_refund] and
    [update_train_seats]) and of the service functions of
    [src/services/trainService.ts] that write through them
    ([createBooking], [cancelBooking], [getAdminData]).

    Conventions of the embedding.
    - A PostgreSQL [integer] is a [Z] together with the range check the
      server performs: arithmetic that leaves the 32-bit range raises
      "integer out of range" and aborts the statement.
    - Money ([amount], [refund_amount], [total_revenue]) is rational
      ([Q]), and a finite JavaScript [number] is the rational it denotes.
      The product [amount * 0.9] of [cancelBooking] is the binary64
      product, rounded to nearest-even as IEEE 754 and JavaScript do
      ([Binary64.times]), so the refund of 13 is
      11.700000000000001065..., not 117/10.  The database receives the
      value of the number; how a column of a decimal type would shorten
      it is below the model, the table definitions not being part of the
      sources.  The arithmetic of the booking form is taken exactly.
    - A nullable column is an [option]; SQL comparison and arithmetic on
      NULL yield NULL, and a NULL condition does not select a row.
    - The [train] table is a finite map keyed by its primary key
      [train_id]; the other tables are lists of rows in insertion order,
      which is also the order a SELECT without ORDER BY returns them in.
    - The table definitions are not part of the sources: no foreign key,
      CHECK or uniqueness constraint is assumed, and columns have the
      types the functions and [src/types/railBooker.ts] give them.
    - [console.error] and [console.log] are not modelled; toasts are.
    - The pure functions of [src/types/railBooker.ts] ([formatTimeString],
      [calculateDuration], [mapTrainDataToTrain]) and of the booking form
      ([getFareMultiplier], [calculateFare], [calculateTotalAmount]) are
      embedded as well.  The numbers the time functions compute with and
      the built-ins [parseInt], [Number] and [toString] are parameters
      ([JsNumbers]); what is assumed of them is spelled out in
      [JsNumbersLaws].  Strings are sequences of bytes (UTF-8). *)

From Stdlib Require Import ZArith QArith Qround Lqa Ascii String List Lia.
From Stdlib Require SpecFloat.
From stdpp Require Import base option list strings pretty gmap fin_maps.

Local Open Scope string_scope.
Local Open Scope Z_scope.

(** ** Results of a database statement *)

Inductive pg_result (A : Type) : Type :=
| PgOk (a : A)
| PgError (msg : string).
Arguments PgOk {A} a.
Arguments PgError {A} msg.

Definition pg_bind {A B} (m : pg_result A) (k : A -> pg_result B) : pg_result B :=
  match m with
  | PgOk a => k a
  | PgError msg => PgError msg
  end.

Notation "'let?' x ':=' m 'in' k" := (pg_bind m (fun x => k))
  (at level 10, x name, m at level 100, k at level 200).

(** ** PostgreSQL [integer] *)

Module Int4.

Definition min : Z := - 2 ^ 31.
Definition max : Z := 2 ^ 31 - 1.

Definition in_range (z : Z) : Prop := min <= z <= max.

Definition in_rangeb (z : Z) : bool := (min <=? z) && (z <=? max).

Definition check (z : Z) : pg_result Z :=
  if in_rangeb z then PgOk z else PgError "integer out of range".

Definition add (a b : Z) : pg_result Z := check (a + b).
Definition sub (a b : Z) : pg_result Z := check (a - b).

End Int4.

(** ** JavaScript numbers

    A [number] is an IEEE 754 binary64 value: 53 bits of precision,
    exponents below 1024.  [SpecFloat] is the reference implementation of
    the format over [Z]; its [SFmul] and [SFdiv] round to nearest, ties to
    even. *)

Module Binary64.

Definition prec : Z := 53.
Definition emax : Z := 1024.

(** The number a decimal literal or a rational value denotes: the
    quotient of numerator and denominator, rounded once. *)
Definition of_Q (q : Q) : SpecFloat.spec_float :=
  match Qnum q with
  | Z0 => SpecFloat.S754_zero false
  | Z.pos n =>
      SpecFloat.SFdiv prec emax
        (SpecFloat.S754_finite false n 0) (SpecFloat.S754_finite false (Qden q) 0)
  | Z.neg n =>
      SpecFloat.SFdiv prec emax
        (SpecFloat.S754_finite true n 0) (SpecFloat.S754_finite false (Qden q) 0)
  end.

(** The rational a finite number is, in lowest terms.  An infinity or a
    NaN is no rational and is given 0 here: the product of a finite
    number and 0.9 is finite, so this is reached only from a rational
    beyond the range of the format, which is no number a caller can
    pass. *)
Definition to_Q (x : SpecFloat.spec_float) : Q :=
  match x with
  | SpecFloat.S754_finite s m e =>
      let n := if s then Z.neg m else Z.pos m in
      Qred match e with
           | Z.neg k => Qmake n (2 ^ k)%positive
           | _ => inject_Z (n * 2 ^ e)
           end
  | _ => 0%Q
  end.

(** [x * y] of two numbers. *)
Definition times (x y : Q) : Q :=
  to_Q (SpecFloat.SFmul prec emax (of_Q x) (of_Q y)).

End Binary64.

Arguments Binary64.times : simpl never.

(** ** Rows *)

Record train := mkTrain {
  total_seats : Z;
  available_seats : Z
}.

Record booking := mkBooking {
  pnr : string;
  passenger_id : string;
  train_id : string;
  fare_id : string;
  class : string;
  seat_no : string;
  booking_status : string
}.

Record payment := mkPayment {
  payment_pnr : string;
  amount : Q;
  payment_method : string;
  status : string
}.

Record cancellation := mkCancellation {
  cancellation_pnr : string;
  refund_amount : Q;
  cancellation_status : string
}.

Record admin := mkAdmin {
  username : string;
  password : string;
  total_revenue : option Q
}.

Record passenger := mkPassenger {
  p_passenger_id : string;
  name : string;
  age : Q;
  gender : string;
  contact : string
}.

Record fare := mkFare {
  f_fare_id : string;
  f_train_id : string;
  f_class : string;
  fare_amount : Q
}.

(** The trigger context: [TG_OP] with the row images it comes with. *)
Inductive tg (R : Type) : Type :=
| TG_INSERT (NEW : R)
| TG_UPDATE (OLD NEW : R).
Arguments TG_INSERT {R} NEW.
Arguments TG_UPDATE {R} OLD NEW.

(** ** Inventory ledger: [decrement] and [increment] *)

Definition set_available (v : Z) (t : train) : train :=
  mkTrain (total_seats t) v.

(** [public.decrement(row_id uuid, value integer)].  A missing row makes
    [current_value] NULL, the test NULL and the ELSE branch run: its
    UPDATE touches nothing and the function returns 0. *)
Definition decrement (row_id : string) (value : Z) (trains : gmap string train)
  : pg_result (gmap string train * Z) :=
  match trains !! row_id with
  | Some t =>
      let current_value := available_seats t in
      if current_value >=? value then
        let? v := Int4.sub (available_seats t) value in
        let? r := Int4.sub current_value value in
        PgOk (<[row_id := set_available v t]> trains, r)
      else
        PgOk (<[row_id := set_available 0 t]> trains, 0)
  | None => PgOk (trains, 0)
  end.

(** [public.increment(row_id uuid, value integer)].  With no row both
    variables are NULL and the function returns NULL ([None]). *)
Definition increment (row_id : string) (value : Z) (trains : gmap string train)
  : pg_result (gmap string train * option Z) :=
  match trains !! row_id with
  | Some t =>
      let current_value := available_seats t in
      let max_value := total_seats t in
      let? s := Int4.add current_value value in
      if s <=? max_value then
        let? v := Int4.add (available_seats t) value in
        let? r := Int4.add current_value value in
        PgOk (<[row_id := set_available v t]> trains, Some r)
      else
        PgOk (<[row_id := set_available max_value t]> trains, Some max_value)
  | None => PgOk (trains, None)
  end.

(** ** Booking state machine: [update_train_seats] *)

(** [UPDATE train SET available_seats = available_seats + d
     WHERE train_id = id]. *)
Definition shift_available (id : string) (d : Z) (trains : gmap string train)
  : pg_result (gmap string train) :=
  match trains !! id with
  | Some t =>
      let? v := Int4.add (available_seats t) d in
      PgOk (<[id := set_available v t]> trains)
  | None => PgOk trains
  end.

Definition is_Confirmed (s : string) : bool := bool_decide (s = "Confirmed").
Definition is_Cancelled (s : string) : bool := bool_decide (s = "Cancelled").

Definition update_train_seats (op : tg booking) (trains : gmap string train)
  : pg_result (gmap string train) :=
  match op with
  | TG_INSERT NEW =>
      if is_Confirmed (booking_status NEW) then
        shift_available (train_id NEW) (-1) trains
      else PgOk trains
  | TG_UPDATE OLD NEW =>
      if negb (is_Confirmed (booking_status OLD)) && is_Confirmed (booking_status NEW) then
        shift_available (train_id NEW) (-1) trains
      else if is_Confirmed (booking_status OLD) && is_Cancelled (booking_status NEW) then
        shift_available (train_id NEW) 1 trains
      else PgOk trains
  end.

(** ** Revenue ledger: [update_revenue_on_payment], [update_revenue_on_refund] *)

Definition is_Successful (s : string) : bool := bool_decide (s = "Successful").
Definition is_Processed (s : string) : bool := bool_decide (s = "Processed").

(** [UPDATE admin SET total_revenue = total_revenue + a]: every row. *)
Definition accrue_revenue (a : Q) (r : admin) : admin :=
  mkAdmin (username r) (password r) (option_map (fun v => Qplus v a) (total_revenue r)).

(** [UPDATE admin SET total_revenue = total_revenue - a
     WHERE total_revenue >= a]. *)
Definition reverse_revenue (a : Q) (r : admin) : admin :=
  match total_revenue r with
  | Some v =>
      if Qle_bool a v then mkAdmin (username r) (password r) (Some (Qminus v a)) else r
  | None => r
  end.

Definition update_revenue_on_payment (op : tg payment) (admins : list admin) : list admin :=
  match op with
  | TG_INSERT NEW =>
      if is_Successful (status NEW) then
        match admins with
        | _ :: _ => map (accrue_revenue (amount NEW)) admins
        | [] => [mkAdmin "admin" "admin123" (Some (amount NEW))]
        end
      else admins
  | TG_UPDATE OLD NEW =>
      if is_Successful (status NEW) && negb (is_Successful (status OLD)) then
        match admins with
        | _ :: _ => map (accrue_revenue (amount NEW)) admins
        | [] => [mkAdmin "admin" "admin123" (Some (amount NEW))]
        end
      else if is_Successful (status OLD) && negb (is_Successful (status NEW)) then
        map (reverse_revenue (amount OLD)) admins
      else admins
  end.

Definition update_revenue_on_refund (op : tg cancellation) (admins : list admin) : list admin :=
  match op with
  | TG_INSERT NEW =>
      if is_Processed (cancellation_status NEW) then
        map (reverse_revenue (refund_amount NEW)) admins
      else admins
  | TG_UPDATE _ _ => admins
  end.

(** ** Histories of writes *)

(** The row-level trigger runs once per write, in order; an error aborts. *)
Fixpoint fire_booking_writes (ops : list (tg booking)) (trains : gmap string train)
  : pg_result (gmap string train) :=
  match ops with
  | [] => PgOk trains
  | op :: rest =>
      let? trains' := update_train_seats op trains in
      fire_booking_writes rest trains'
  end.

(** The writes one booking row goes through: its INSERT, then one UPDATE
    per later row image, each with the previous image as OLD. *)
Fixpoint row_updates (OLD : booking) (images : list booking) : list (tg booking) :=
  match images with
  | [] => []
  | NEW :: rest => TG_UPDATE OLD NEW :: row_updates NEW rest
  end.

Definition row_history (inserted : booking) (images : list booking) : list (tg booking) :=
  TG_INSERT inserted :: row_updates inserted images.

Inductive revenue_write :=
| PaymentWrite (op : tg payment)
| CancellationWrite (op : tg cancellation).

Definition fire_revenue_write (admins : list admin) (w : revenue_write) : list admin :=
  match w with
  | PaymentWrite op => update_revenue_on_payment op admins
  | CancellationWrite op => update_revenue_on_refund op admins
  end.

Definition fire_revenue_writes (ws : list revenue_write) (admins : list admin) : list admin :=
  fold_left fire_revenue_write ws admins.

(** ** Properties the ledgers are expected to keep *)

Definition seats_within_bounds (t : train) : Prop :=
  0 <= available_seats t <= total_seats t.

Definition balance_nonneg (r : admin) : Prop :=
  match total_revenue r with
  | Some v => (0 <= v)%Q
  | None => True
  end.

Definition balance_below (a : Q) (r : admin) : Prop :=
  match total_revenue r with
  | Some v => (v < a)%Q
  | None => True
  end.

Definition tg_amounts_nonneg {R} (amt : R -> Q) (op : tg R) : Prop :=
  match op with
  | TG_INSERT NEW => (0 <= amt NEW)%Q
  | TG_UPDATE OLD NEW => (0 <= amt OLD)%Q /\ (0 <= amt NEW)%Q
  end.

Definition write_amounts_nonneg (w : revenue_write) : Prop :=
  match w with
  | PaymentWrite op => tg_amounts_nonneg amount op
  | CancellationWrite op => tg_amounts_nonneg refund_amount op
  end.

(** Edges of a status history, counted from the statuses alone.  [prev] is
    the status before the write, [None] for the INSERT. *)
Definition edge_into_Confirmed (prev : option string) (next : string) : bool :=
  match prev with
  | None => is_Confirmed next
  | Some p => negb (is_Confirmed p) && is_Confirmed next
  end.

Definition edge_Confirmed_to_Cancelled (prev : option string) (next : string) : bool :=
  match prev with
  | None => false
  | Some p => is_Confirmed p && is_Cancelled next
  end.

Fixpoint count_edges (edge : option string -> string -> bool)
    (prev : option string) (statuses : list string) : Z :=
  match statuses with
  | [] => 0
  | s :: rest => (if edge prev s then 1 else 0) + count_edges edge (Some s) rest
  end.

Definition confirmed_entries (inserted : booking) (images : list booking) : Z :=
  count_edges edge_into_Confirmed None (map booking_status (inserted :: images)).

Definition cancelled_after_confirmed (inserted : booking) (images : list booking) : Z :=
  count_edges edge_Confirmed_to_Cancelled None (map booking_status (inserted :: images)).

(** ** The database behind the service *)

Record db := mkDb {
  train_tbl : gmap string train;
  fare_tbl : list fare;
  passenger_tbl : list passenger;
  booking_tbl : list booking;
  payment_tbl : list payment;
  cancellation_tbl : list cancellation;
  admin_tbl : list admin
}.

Definition set_status (s : string) (b : booking) : booking :=
  mkBooking (pnr b) (passenger_id b) (train_id b) (fare_id b) (class b) (seat_no b) s.

(** Modelled from the spec: the CREATE TRIGGER statement that binds
    [update_train_seats] to [booking] is not part of the sources; as the
    spec has it ("transition handler fires on every booking row write")
    the function runs for each inserted row. *)
Definition insert_booking (r : booking) (d : db) : pg_result db :=
  let? trains := update_train_seats (TG_INSERT r) (train_tbl d) in
  PgOk (mkDb trains (fare_tbl d) (passenger_tbl d) (booking_tbl d ++ [r])
             (payment_tbl d) (cancellation_tbl d) (admin_tbl d)).

(** Modelled from the spec: the same missing CREATE TRIGGER; the function
    runs for each row that [UPDATE booking SET booking_status = s WHERE
    pnr = p] rewrites, changed or not. *)
Fixpoint update_status_rows (p s : string) (rows : list booking)
    (trains : gmap string train) : pg_result (list booking * gmap string train) :=
  match rows with
  | [] => PgOk ([], trains)
  | OLD :: rest =>
      if bool_decide (pnr OLD = p) then
        let NEW := set_status s OLD in
        let? trains' := update_train_seats (TG_UPDATE OLD NEW) trains in
        let? out := update_status_rows p s rest trains' in
        PgOk (NEW :: fst out, snd out)
      else
        let? out := update_status_rows p s rest trains in
        PgOk (OLD :: fst out, snd out)
  end.

Definition update_booking_status (p s : string) (d : db) : pg_result db :=
  let? out := update_status_rows p s (booking_tbl d) (train_tbl d) in
  PgOk (mkDb (snd out) (fare_tbl d) (passenger_tbl d) (fst out)
             (payment_tbl d) (cancellation_tbl d) (admin_tbl d)).

Definition insert_passenger (r : passenger) (d : db) : pg_result db :=
  PgOk (mkDb (train_tbl d) (fare_tbl d) (passenger_tbl d ++ [r]) (booking_tbl d)
             (payment_tbl d) (cancellation_tbl d) (admin_tbl d)).

(** Modelled from the spec: the CREATE TRIGGER statement that binds
    [update_revenue_on_payment] to [payment] is not part of the sources;
    the "transition handler fires on Payment writes". *)
Definition insert_payment (r : payment) (d : db) : pg_result db :=
  PgOk (mkDb (train_tbl d) (fare_tbl d) (passenger_tbl d) (booking_tbl d)
             (payment_tbl d ++ [r]) (cancellation_tbl d)
             (update_revenue_on_payment (TG_INSERT r) (admin_tbl d))).

(** Modelled from the spec: the CREATE TRIGGER statement that binds
    [update_revenue_on_refund] to [cancellation] is not part of the
    sources; the "transition handler fires on ... Cancellation writes". *)
Definition insert_cancellation (r : cancellation) (d : db) : pg_result db :=
  PgOk (mkDb (train_tbl d) (fare_tbl d) (passenger_tbl d) (booking_tbl d)
             (payment_tbl d) (cancellation_tbl d ++ [r])
             (update_revenue_on_refund (TG_INSERT r) (admin_tbl d))).

(** What [.single()] answers unless exactly one row is selected. *)
Definition single_row_error : string :=
  "JSON object requested, multiple (or no) rows returned".

Definition single {A} (rows : list A) : pg_result A :=
  match rows with
  | [r] => PgOk r
  | _ => PgError single_row_error
  end.

(** [from('fare').select('fare_id').eq('train_id', t).eq('class', c).single()] *)
Definition select_fare_of_class (t c : string) (d : db) : pg_result string :=
  single (map f_fare_id
    (filter (fun f => f_train_id f = t /\ f_class f = c) (fare_tbl d))).

(** [from('fare').select('fare_id').eq('train_id', t).limit(1).single()] *)
Definition select_any_fare (t : string) (d : db) : pg_result string :=
  single (map f_fare_id
    (take 1 (filter (fun f => f_train_id f = t) (fare_tbl d)))).

(** [from('admin').select('total_revenue').single()] *)
Definition select_total_revenue (d : db) : pg_result (option Q) :=
  single (map total_revenue (admin_tbl d)).

(** ** The service: requests, promises and toasts *)

(** The error object of a failed request or a thrown [Error]. *)
Record js_error := mkError { message : string }.

(** What a request resolves to: [{ data, error }]. *)
Inductive response (A : Type) : Type :=
| Data (data : A)
| Error (error : js_error).
Arguments Data {A} data.
Arguments Error {A} error.

Inductive toast :=
| toast_error (text : string)
| toast_refund (refundAmount : Q).

(** What the service cannot decide: whether the [n]-th request fails before
    its statement runs (network, permissions), the key the server
    generates for the row the [n]-th request inserts, and the value
    [Math.random()] has when it is called before the [n]-th request. *)
Record env := mkEnv {
  fault_at : nat -> option js_error;
  key_at : nat -> string;
  random_at : nat -> Q
}.

Record state := mkState {
  store : db;
  requests : nat;
  toasts : list toast
}.

(** The settled promise of an async function. *)
Inductive outcome (A : Type) : Type :=
| Resolved (a : A)
| Rejected (e : js_error).
Arguments Resolved {A} a.
Arguments Rejected {A} e.

Definition M (A : Type) : Type := env -> state -> outcome A * state.

Definition ret {A} (a : A) : M A := fun _ st => (Resolved a, st).

Definition throw {A} (e : js_error) : M A := fun _ st => (Rejected e, st).

Definition bind {A B} (m : M A) (k : A -> M B) : M B :=
  fun rho st =>
    match m rho st with
    | (Resolved a, st') => k a rho st'
    | (Rejected e, st') => (Rejected e, st')
    end.

Definition try_catch {A} (m : M A) (handler : js_error -> M A) : M A :=
  fun rho st =>
    match m rho st with
    | (Resolved a, st') => (Resolved a, st')
    | (Rejected e, st') => handler e rho st'
    end.

Notation "x <- m ;; k" := (bind m (fun x => k))
  (at level 100, m at next level, right associativity).
Notation "m ;;; k" := (bind m (fun _ => k))
  (at level 100, right associativity).

Definition show_toast (t : toast) : M unit :=
  fun _ st => (Resolved tt, mkState (store st) (requests st) (toasts st ++ [t])%list).

(** One awaited request.  It always resolves; a failure comes back in the
    [error] field and leaves the database as it was. *)
Definition request {A} (stmt : string -> db -> pg_result (db * A)) : M (response A) :=
  fun rho st =>
    let n := requests st in
    match fault_at rho n with
    | Some e => (Resolved (Error e), mkState (store st) (S n) (toasts st))
    | None =>
        match stmt (key_at rho n) (store st) with
        | PgOk (d, a) => (Resolved (Data a), mkState d (S n) (toasts st))
        | PgError msg => (Resolved (Error (mkError msg)), mkState (store st) (S n) (toasts st))
        end
    end.

Definition writing (w : db -> pg_result db) : string -> db -> pg_result (db * unit) :=
  fun _ d => let? d' := w d in PgOk (d', tt).

Definition reading {A} (q : db -> pg_result A) : string -> db -> pg_result (db * A) :=
  fun _ d => let? a := q d in PgOk (d, a).

Definition random : M Q :=
  fun rho st => (Resolved (random_at rho (requests st)), st).

(** ** [createBooking] *)

Record passenger_details := mkDetails {
  d_name : string;
  d_age : Q;
  d_gender : string;
  d_contact : string
}.

Record bookingData := mkBookingData {
  passengerData : list passenger_details;
  trainId : string;
  fareClass : string;
  paymentMethod : string;
  totalAmount : Q
}.

(** [fareClass[0]] inside a template literal: the first character, or the
    text of [undefined] for the empty string. *)
Definition first_char (s : string) : string :=
  match s with
  | String c _ => String c EmptyString
  | EmptyString => "undefined"
  end.

(** [`${fareClass[0]}${Math.floor(Math.random() * 90) + 10}`] *)
Definition seat_label (fareClass : string) (rnd : Q) : string :=
  first_char fareClass +:+ pretty (Qfloor (rnd * 90) + 10).

Definition returning_key (w : db -> pg_result db) : string -> db -> pg_result (db * string) :=
  fun key d => let? d' := w d in PgOk (d', key).

(** Step 1: one INSERT per passenger, collecting [passenger_id]s. *)
Fixpoint insert_passengers (ps : list passenger_details) (passengerIds : list string)
  : M (list string) :=
  match ps with
  | [] => ret passengerIds
  | p :: rest =>
      resp <- request (fun key =>
                returning_key
                  (insert_passenger (mkPassenger key (d_name p) (d_age p) (d_gender p) (d_contact p)))
                  key) ;;
      match resp with
      | Error passengerError => throw passengerError
      | Data id => insert_passengers rest (passengerIds ++ [id])%list
      end
  end.

(** Step 2: the fare of the class, else any fare of the train. *)
Definition resolve_fare (bd : bookingData) : M string :=
  resp <- request (reading (select_fare_of_class (trainId bd) (fareClass bd))) ;;
  match resp with
  | Error fareError =>
      resp' <- request (reading (select_any_fare (trainId bd))) ;;
      match resp' with
      | Error anyFareError => throw anyFareError
      | Data anyFare => ret anyFare
      end
  | Data fareData => ret fareData
  end.

(** Step 3: the loop over [passengerIds] from index [i] on; the pair is
    [(bookings, firstPnr)]. *)
Fixpoint insert_bookings (bd : bookingData) (fareId : string) (passengerIds : list string)
    (i : nat) (acc : list string * string) : M (list string * string) :=
  match passengerIds with
  | [] => ret acc
  | id :: rest =>
      rnd <- random ;;
      let seatNo := seat_label (fareClass bd) rnd in
      resp <- request (fun key =>
                returning_key
                  (insert_booking
                     (mkBooking key id (trainId bd) fareId (fareClass bd) seatNo "Confirmed"))
                  key) ;;
      match resp with
      | Error bookingError => throw bookingError
      | Data p =>
          insert_bookings bd fareId rest (S i)
            ((fst acc ++ [p])%list, if Nat.eqb i 0 then p else snd acc)
      end
  end.

Definition createBooking (bd : bookingData) : M string :=
  try_catch
    (passengerIds <- insert_passengers (passengerData bd) [] ;;
     fareId <- resolve_fare bd ;;
     out <- insert_bookings bd fareId passengerIds 0 ([], "") ;;
     let firstPnr := snd out in
     resp <- request (writing
               (insert_payment
                  (mkPayment firstPnr (totalAmount bd) (paymentMethod bd) "Successful"))) ;;
     match resp with
     | Error paymentError => throw paymentError
     | Data _ => ret firstPnr
     end)
    (fun error =>
       show_toast (toast_error ("Failed to create booking: " +:+ message error)) ;;;
       throw error).

(** ** [cancelBooking] *)

Definition cancelBooking (p : string) (amt : Q) : M unit :=
  try_catch
    (resp <- request (writing (update_booking_status p "Cancelled")) ;;
     match resp with
     | Error bookingError => throw bookingError
     | Data _ =>
         let refundAmount := Binary64.times amt (9 # 10) in
         resp' <- request (writing
                    (insert_cancellation (mkCancellation p refundAmount "Processed"))) ;;
         match resp' with
         | Error cancellationError => throw cancellationError
         | Data _ => show_toast (toast_refund refundAmount)
         end
     end)
    (fun error =>
       show_toast (toast_error ("Failed to cancel booking: " +:+ message error)) ;;;
       throw error).

(** ** [getAdminData] *)

Record admin_data := mkAdminData { totalRevenue : Q }.

(** [data.total_revenue || 0]: null and zero are falsy. *)
Definition or_zero (v : option Q) : Q :=
  match v with
  | Some q => if Qeq_bool q 0 then 0%Q else q
  | None => 0%Q
  end.

Definition getAdminData : M admin_data :=
  resp <- request (reading select_total_revenue) ;;
  match resp with
  | Error error => throw (mkError ("Failed to fetch admin data: " +:+ message error))
  | Data data => ret (mkAdminData (or_zero data))
  end.

(** [Math.round]: to the nearest integer, ties towards plus infinity. *)
Definition Math_round (x : Q) : Z := Qfloor (x + (1 # 2)).

(** ** Calls of the inventory functions *)

Inductive ledger_call :=
| Decrement (row_id : string) (value : Z)
| Increment (row_id : string) (value : Z).

Definition call_value (c : ledger_call) : Z :=
  match c with
  | Decrement _ value => value
  | Increment _ value => value
  end.

(** [SELECT decrement(row_id, value)] or [SELECT increment(row_id, value)],
    keeping the table the call leaves. *)
Definition call_ledger (c : ledger_call) (trains : gmap string train)
  : pg_result (gmap string train) :=
  match c with
  | Decrement row_id value => let? out := decrement row_id value trains in PgOk (fst out)
  | Increment row_id value => let? out := increment row_id value trains in PgOk (fst out)
  end.

Fixpoint call_ledger_all (cs : list ledger_call) (trains : gmap string train)
  : pg_result (gmap string train) :=
  match cs with
  | [] => PgOk trains
  | c :: rest => let? trains' := call_ledger c trains in call_ledger_all rest trains'
  end.

(** The only change a ledger function or the booking trigger makes to the
    train table: at most the [available_seats] of the row [id]. *)
Definition only_available_of (id : string) (trains trains' : gmap string train) : Prop :=
  trains' = trains
  \/ exists t v, trains !! id = Some t /\ trains' = <[id := set_available v t]> trains.

(** Same train ids, same [total_seats]. *)
Definition same_capacity (trains trains' : gmap string train) : Prop :=
  forall id, total_seats <$> trains' !! id = total_seats <$> trains !! id.

Definition tg_new {R} (op : tg R) : R :=
  match op with
  | TG_INSERT NEW => NEW
  | TG_UPDATE _ NEW => NEW
  end.

(** The writes one row of any table goes through: its INSERT, then one
    UPDATE per later row image. *)
Fixpoint updates_of {R} (OLD : R) (images : list R) : list (tg R) :=
  match images with
  | [] => []
  | NEW :: rest => TG_UPDATE OLD NEW :: updates_of NEW rest
  end.

Definition history_of {R} (inserted : R) (images : list R) : list (tg R) :=
  TG_INSERT inserted :: updates_of inserted images.

(** The admin table is one row whose balance equals [v]. *)
Definition one_balance (admins : list admin) (v : Q) : Prop :=
  exists r w, admins = [r] /\ total_revenue r = Some w /\ (w == v)%Q.

(** What a payment of amount [a] contributes while in status [p]. *)
Definition counted (a : Q) (p : payment) : Q :=
  if is_Successful (status p) then a else 0%Q.

(** ** Shapes of the states the service leaves *)

(** What a failed [cancelBooking] returns: the rejection and the toast. *)
Definition cancel_failed (e : js_error) (d : db) (n : nat) (ts : list toast)
  : outcome unit * state :=
  (Rejected e,
   mkState d n (ts ++ [toast_error ("Failed to cancel booking: " +:+ message e)])).

(** The row image [UPDATE booking SET booking_status = s WHERE pnr = p]
    leaves for row [b]. *)
Definition restatus (p s : string) (b : booking) : booking :=
  if bool_decide (pnr b = p) then set_status s b else b.

Definition details_of (r : passenger) : passenger_details :=
  mkDetails (name r) (age r) (gender r) (contact r).

Definition with_passengers (d : db) (rows : list passenger) : db :=
  mkDb (train_tbl d) (fare_tbl d) (passenger_tbl d ++ rows) (booking_tbl d)
       (payment_tbl d) (cancellation_tbl d) (admin_tbl d).

Definition with_bookings (d : db) (trains : gmap string train) (rows : list booking) : db :=
  mkDb trains (fare_tbl d) (passenger_tbl d) (booking_tbl d ++ rows)
       (payment_tbl d) (cancellation_tbl d) (admin_tbl d).

(** A booking row as step 3 writes it for this request and fare. *)
Definition booked_for (bd : bookingData) (fareId : string) (b : booking) : Prop :=
  fare_id b = fareId /\ train_id b = trainId bd /\ class b = fareClass bd
  /\ booking_status b = "Confirmed".

(** The cancellation claim with a rounded refund, as a property of one
    call: the call leaves exactly one more cancellation row, marked
    Processed, whose refund is [Math.round (0.9 * A)]. *)
Definition records_rounded_refund (p : string) (A : Q) (rho : env) (st : state) : Prop :=
  exists r,
    cancellation_tbl (store (snd (cancelBooking p A rho st)))
      = (cancellation_tbl (store st) ++ [r])%list
    /\ cancellation_status r = "Processed"
    /\ (refund_amount r == inject_Z (Math_round (A * (9 # 10))))%Q.

(** Both writes of [cancelBooking] go through. *)
Definition both_writes_succeed (p : string) (rho : env) (st : state) : Prop :=
  fault_at rho (requests st) = None
  /\ (exists d, update_booking_status p "Cancelled" (store st) = PgOk d)
  /\ fault_at rho (S (requests st)) = None.

(** ** [src/types/railBooker.ts]: time strings and the frontend train *)

(** The regular expressions the file uses are matched against the whole
    string (they are anchored with [^] and [$] and carry no flag), so
    [test] is membership in the language of the expression.  A character
    class is a predicate on characters. *)
Inductive regex :=
| re_never
| re_empty
| re_class (p : ascii -> bool)
| re_seq (r1 r2 : regex)
| re_alt (r1 r2 : regex).

Definition re_opt (r : regex) : regex := re_alt r re_empty.

Fixpoint nullable (r : regex) : bool :=
  match r with
  | re_never => false
  | re_empty => true
  | re_class _ => false
  | re_seq r1 r2 => nullable r1 && nullable r2
  | re_alt r1 r2 => nullable r1 || nullable r2
  end.

Fixpoint derive (c : ascii) (r : regex) : regex :=
  match r with
  | re_never => re_never
  | re_empty => re_never
  | re_class p => if p c then re_empty else re_never
  | re_seq r1 r2 =>
      re_alt (re_seq (derive c r1) r2) (if nullable r1 then derive c r2 else re_never)
  | re_alt r1 r2 => re_alt (derive c r1) (derive c r2)
  end.

Fixpoint test (r : regex) (s : string) : bool :=
  match s with
  | EmptyString => nullable r
  | String c rest => test (derive c r) rest
  end.

(** [[lo-hi]] *)
Definition between (lo hi : ascii) : regex :=
  re_class (fun c => (nat_of_ascii lo <=? nat_of_ascii c)%nat
                     && (nat_of_ascii c <=? nat_of_ascii hi)%nat).

(** A literal character. *)
Definition lit (a : ascii) : regex := re_class (fun c => Ascii.eqb c a).

(** [/^([01]?[0-9]|2[0-3]):[0-5][0-9]$/] *)
Definition HH_MM : regex :=
  re_seq
    (re_alt (re_seq (re_opt (between "0"%char "1"%char)) (between "0"%char "9"%char))
            (re_seq (lit "2"%char) (between "0"%char "3"%char)))
    (re_seq (lit ":"%char) (re_seq (between "0"%char "5"%char) (between "0"%char "9"%char))).

(** [s.split(sep)] for a one-character separator. *)
Fixpoint split (sep : ascii) (s : string) : list string :=
  match s with
  | EmptyString => [EmptyString]
  | String c rest =>
      if Ascii.eqb c sep then EmptyString :: split sep rest
      else match split sep rest with
           | w :: ws => String c w :: ws
           | [] => [String c EmptyString]
           end
  end.

Fixpoint repeat_char (c : ascii) (n : nat) : string :=
  match n with
  | O => EmptyString
  | S n' => String c (repeat_char c n')
  end.

(** [s.padStart(targetLength, pad)] for a one-character pad string. *)
Definition padStart (targetLength : nat) (pad : ascii) (s : string) : string :=
  repeat_char pad (targetLength - String.length s) +:+ s.

(** The numbers of JavaScript and the built-in functions the file calls on
    them are parameters of the embedding: [parseInt] and [Number] read a
    string, [toString] is the conversion [Number.prototype.toString] and a
    template literal apply, [NaN] is what [undefined] becomes in
    arithmetic. *)
Class JsNumbers := {
  number : Type;
  num : Z -> number;
  NaN : number;
  parseInt : string -> number;
  Number : string -> number;
  toString : number -> string;
  minus : number -> number -> number;
  plus : number -> number -> number;
  lt : number -> number -> bool
}.

(** What the theorems use of the built-ins, on the integers and strings
    they meet: two decimal digits are read as their value, an integer
    below 100 prints as its decimal digits, and sums, differences and
    comparisons of integers below [2^31] in size are exact. *)
Definition two_digits (n : Z) : string := padStart 2 "0"%char (pretty n).

Record JsNumbersLaws (J : JsNumbers) : Prop := {
  parseInt_two_digits : forall n, 0 <= n < 100 -> parseInt (two_digits n) = num n;
  Number_two_digits : forall n, 0 <= n < 100 -> Number (two_digits n) = num n;
  toString_small : forall n, 0 <= n < 100 -> toString (num n) = pretty n;
  minus_exact : forall a b, Z.abs a < 2 ^ 31 -> Z.abs b < 2 ^ 31 ->
                            minus (num a) (num b) = num (a - b);
  plus_exact : forall a b, Z.abs a < 2 ^ 31 -> Z.abs b < 2 ^ 31 ->
                           plus (num a) (num b) = num (a + b);
  lt_exact : forall a b, Z.abs a < 2 ^ 31 -> Z.abs b < 2 ^ 31 ->
                         lt (num a) (num b) = (a <? b)
}.

Section RailBookerTypes.

Context {J : JsNumbers}.

(** [formatTimeString] *)
Definition formatTimeString (timeStr : string) : string :=
  if String.eqb timeStr "" then ""
  else if test HH_MM timeStr then timeStr
  else
    let timeParts := split ":"%char timeStr in
    match timeParts with
    | part0 :: part1 :: _ =>
        let hours := padStart 2 "0"%char (toString (parseInt part0)) in
        let minutes := padStart 2 "0"%char (toString (parseInt part1)) in
        hours +:+ ":" +:+ minutes
    | _ => timeStr
    end.

(** An array element that may be missing, used in arithmetic. *)
Definition to_number (x : option number) : number :=
  match x with
  | Some v => v
  | None => NaN
  end.

(** [calculateDuration], the inner function of [mapTrainDataToTrain]; no
    call in its [try] block throws, so its [catch] is never entered. *)
Definition calculateDuration (depTime arrTime : string) : string :=
  let dep := map Number (split ":"%char depTime) in
  let arr := map Number (split ":"%char arrTime) in
  let depHours := to_number (dep !! 0%nat) in
  let depMinutes := to_number (dep !! 1%nat) in
  let arrHours := to_number (arr !! 0%nat) in
  let arrMinutes := to_number (arr !! 1%nat) in
  let hourDiff := minus arrHours depHours in
  let minuteDiff := minus arrMinutes depMinutes in
  let '(hourDiff, minuteDiff) :=
    if lt minuteDiff (num 0)
    then (minus hourDiff (num 1), plus minuteDiff (num 60))
    else (hourDiff, minuteDiff) in
  let hourDiff := if lt hourDiff (num 0) then plus hourDiff (num 24) else hourDiff in
  toString hourDiff +:+ "h " +:+ toString minuteDiff +:+ "m".

Record TrainData := mkTrainData {
  td_train_id : string;
  td_train_name : string;
  td_train_number : string;
  td_source : string;
  td_destination : string;
  td_departure_time : string;
  td_arrival_time : string;
  td_schedule : string;
  td_total_seats : Z;
  td_available_seats : Z;
  td_fares : option (list fare)
}.

Record TrainFare := mkTrainFare {
  tf_id : string;
  tf_class : string;
  tf_amount : Q
}.

Record Train := mkFrontTrain {
  t_id : string;
  t_name : string;
  t_number : string;
  t_origin : string;
  t_destination : string;
  t_departureTime : string;
  t_arrivalTime : string;
  t_date : string;
  t_price : Q;
  t_availableSeats : Z;
  t_totalSeats : Z;
  t_duration : option string;
  t_fares : option (list TrainFare)
}.

(** [mapTrainDataToTrain] *)
Definition mapTrainDataToTrain (trainData : TrainData) : Train :=
  let departureTime := formatTimeString (td_departure_time trainData) in
  let arrivalTime := formatTimeString (td_arrival_time trainData) in
  let train price fares :=
    mkFrontTrain (td_train_id trainData) (td_train_name trainData)
      (td_train_number trainData) (td_source trainData) (td_destination trainData)
      departureTime arrivalTime (td_schedule trainData) price
      (td_available_seats trainData) (td_total_seats trainData)
      (Some (calculateDuration departureTime arrivalTime)) fares in
  match td_fares trainData with
  | Some (f :: fs) =>
      let acFirstFare := List.find (fun x => String.eqb (f_class x) "AC First Class") (f :: fs) in
      train (match acFirstFare with
             | Some x => fare_amount x
             | None => 1500%Q
             end)
            (Some (map (fun x => mkTrainFare (f_fare_id x) (f_class x) (fare_amount x))
                       (f :: fs)))
  | _ => train 1500%Q None
  end.

End RailBookerTypes.

(** ** [src/components/train/BookingForm.tsx]: the amount the form charges *)

(** [getFareMultiplier], with the selected class as its argument. *)
Definition getFareMultiplier (fareClass : string) : Q :=
  if String.eqb fareClass "AC First Class" then 1
  else if String.eqb fareClass "AC 2 Tier" then 8 # 10
  else if String.eqb fareClass "AC 3 Tier" then 6 # 10
  else if String.eqb fareClass "Sleeper" then 4 # 10
  else 1.

(** [calculateFare], for the [train] prop and the selected class. *)
Definition calculateFare (train : Train) (fareClass : string) : Q :=
  let fallback := inject_Z (Math_round (t_price train * getFareMultiplier fareClass)) in
  match t_fares train with
  | Some (f :: fs) =>
      match List.find (fun fare => String.eqb (tf_class fare) fareClass) (f :: fs) with
      | Some selectedFare => tf_amount selectedFare
      | None => fallback
      end
  | _ => fallback
  end.

(** [calculateTotalAmount]; [passengers] is the numeric prop. *)
Definition calculateTotalAmount (train : Train) (fareClass : string) (passengers : Q) : Q :=
  (calculateFare train fareClass * passengers + 50)%Q.

(** A model of the built-ins on what the laws cover: numbers are integers
    or [NaN], and strings that are not one or two decimal digits read as
    [NaN]. *)
Definition digit_value (c : ascii) : option Z :=
  let n := nat_of_ascii c in
  if ((48 <=? n) && (n <=? 57))%nat then Some (Z.of_nat n - 48) else None.

Definition read_digits (s : string) : option Z :=
  match s with
  | String a EmptyString => digit_value a
  | String a (String b EmptyString) =>
      match digit_value a, digit_value b with
      | Some x, Some y => Some (10 * x + y)
      | _, _ => None
      end
  | _ => None
  end.

Definition lift2 (f : Z -> Z -> Z) (a b : option Z) : option Z :=
  match a, b with
  | Some x, Some y => Some (f x y)
  | _, _ => None
  end.

#[local] Instance small_numbers : JsNumbers := {|
  number := option Z;
  num := Some;
  NaN := None;
  parseInt := read_digits;
  Number := read_digits;
  toString := fun x => match x with Some z => pretty z | None => "NaN" end;
  minus := lift2 Z.sub;
  plus := lift2 Z.add;
  lt := fun a b => match a, b with Some x, Some y => x <? y | _, _ => false end
|}.

(** The longest string an expression can match, [None] if it matches none. *)
Fixpoint max_len (r : regex) : option nat :=
  match r with
  | re_never => None
  | re_empty => Some 0%nat
  | re_class _ => Some 1%nat
  | re_seq r1 r2 =>
      match max_len r1, max_len r2 with
      | Some a, Some b => Some (a + b)%nat
      | _, _ => None
      end
  | re_alt r1 r2 =>
      match max_len r1, max_len r2 with
      | Some a, Some b => Some (Nat.max a b)
      | Some a, None => Some a
      | None, Some b => Some b
      | None, None => None
      end
  end.

(** Two characters, neither of them a colon. *)
Definition two_plain (s : string) : bool :=
  match s with
  | String a (String b EmptyString) =>
      negb (Ascii.eqb a ":"%char) && negb (Ascii.eqb b ":"%char)
  | _ => false
  end.

(** A clock time as the database prints it, with or without seconds. *)
Definition clock (h m : Z) : string := two_digits h +:+ ":" +:+ two_digits m.

Definition sample_row : TrainData :=
  mkTrainData "T1" "Night Mail" "12951" "Mumbai" "Delhi" "22:30:00" "06:15:00" "2025-05-01"
    2 2 (Some [mkFare "F2" "T1" "Sleeper" 320; mkFare "F1" "T1" "AC First Class" 800]).

(** ** Sample data *)

Definition quiet : env :=
  mkEnv (fun _ => None) (fun n => "K" +:+ pretty n) (fun _ => 0%Q).

(** The second request of a call started at request 0 fails. *)
Definition second_fails : env :=
  mkEnv (fun n => if Nat.eqb n 1 then Some (mkError "connection lost") else None)
        (fun n => "K" +:+ pretty n) (fun _ => 0%Q).

Definition first_fails : env :=
  mkEnv (fun n => if Nat.eqb n 0 then Some (mkError "connection lost") else None)
        (fun n => "K" +:+ pretty n) (fun _ => 0%Q).

Definition sample_db : db :=
  mkDb {[ "T1" := mkTrain 2 2 ]} [mkFare "F1" "T1" "AC 2 Tier" 800] [] [] [] [] [].

Definition sample_booking (p s : string) : booking :=
  mkBooking p "P" "T1" "F1" "AC 2 Tier" "A10" s.

(** One confirmed booking B1 on T1, paid 1000. *)
Definition booked_db : db :=
  mkDb {[ "T1" := mkTrain 2 1 ]} [mkFare "F1" "T1" "AC 2 Tier" 800] []
       [sample_booking "B1" "Confirmed"]
       [mkPayment "B1" 1000 "UPI" "Successful"] []
       [mkAdmin "admin" "admin123" (Some 1000%Q)].




Definition sample_bd : bookingData :=
  mkBookingData [mkDetails "A" 30 "F" "a@x"; mkDetails "B" 31 "M" "b@x"]
    "T1" "AC 2 Tier" "UPI" 1600.

(** The state [createBooking sample_bd] leaves from [sample_db]. *)
Definition sample_after : state :=
  Eval vm_compute in snd (createBooking sample_bd quiet (mkState sample_db 0 [])).

(** The payment row step 4 of [createBooking] writes for PNR [p]. *)
Definition payment_of (bd : bookingData) (p : string) : payment :=
  mkPayment p (totalAmount bd) (paymentMethod bd) "Successful".

(** The train table after [n] bookings were inserted as Confirmed on the
    train [id], from what the trigger does: one seat off per row if the
    train exists, nothing otherwise. *)
Definition seats_taken (id : string) (n : nat) (trains : gmap string train)
  : gmap string train :=
  match trains !! id with
  | Some t => <[id := set_available (available_seats t - Z.of_nat n) t]> trains
  | None => trains
  end.

(** One more train with one seat left. *)
Definition tight_db : db :=
  mkDb {[ "T1" := mkTrain 2 1 ]} [mkFare "F1" "T1" "AC 2 Tier" 800] [] [] [] [] [].

Definition tight_after : state :=
  Eval vm_compute in snd (createBooking sample_bd quiet (mkState tight_db 0 [])).

(** The passenger insert of the second passenger fails. *)
Definition orphaned_after : state :=
  Eval vm_compute in snd (createBooking sample_bd second_fails (mkState sample_db 0 [])).

Definition empty_bd : bookingData := mkBookingData [] "T1" "AC 2 Tier" "UPI" 1600.

Definition empty_after : state :=
  Eval vm_compute in snd (createBooking empty_bd quiet (mkState sample_db 0 [])).

(** * Theorems *)

(** ** Helper lemmas on [integer] and on single-row updates *)

Ltac int4_lia :=
  unfold Int4.in_range, Int4.min, Int4.max in *;
  change (2 ^ 31) with 2147483648 in *; lia.

Lemma check_in_range (z : Z) : Int4.in_range z -> Int4.check z = PgOk z.
Proof.
  unfold Int4.in_range, Int4.check, Int4.in_rangeb. intros [Hlo Hhi].
  apply Z.leb_le in Hlo. apply Z.leb_le in Hhi. rewrite Hlo, Hhi. reflexivity.
Qed.

Lemma check_out_of_range (z : Z) :
  ~ Int4.in_range z -> Int4.check z = PgError "integer out of range".
Proof.
  unfold Int4.in_range, Int4.check, Int4.in_rangeb. intros Hout.
  destruct (Z.leb_spec Int4.min z), (Z.leb_spec z Int4.max); simpl; try reflexivity.
  exfalso. apply Hout. split; assumption.
Qed.

Lemma set_available_same (t : train) : set_available (available_seats t) t = t.
Proof. destruct t. reflexivity. Qed.

Lemma set_available_twice (v w : Z) (t : train) :
  set_available v (set_available w t) = set_available v t.
Proof. reflexivity. Qed.

Lemma same_available (id : string) (x y : Z) (t : train) (trains : gmap string train) :
  x = y ->
  @PgOk (gmap string train) (<[id := set_available x t]> trains)
  = PgOk (<[id := set_available y t]> trains).
Proof. intros ->. reflexivity. Qed.

Lemma shift_available_found (id : string) (d : Z) (trains : gmap string train) (t : train) :
  trains !! id = Some t ->
  Int4.in_range (available_seats t + d) ->
  shift_available id d trains = PgOk (<[id := set_available (available_seats t + d) t]> trains).
Proof.
  intros Hlook Hrange. unfold shift_available, Int4.add. rewrite Hlook.
  rewrite (check_in_range _ Hrange). reflexivity.
Qed.

Lemma decrement_keeps_bounds (row_id id : string) (n : Z)
    (trains trains' : gmap string train) (r : Z) (t' : train) :
  0 <= n ->
  (forall i t, trains !! i = Some t -> seats_within_bounds t) ->
  decrement row_id n trains = PgOk (trains', r) ->
  trains' !! id = Some t' -> seats_within_bounds t'.
Proof.
  intros Hn Hinv. unfold decrement.
  destruct (trains !! row_id) as [t|] eqn:Hlook; cbn.
  - pose proof (Hinv _ _ Hlook) as [Hlo Hhi].
    destruct (Z.geb_spec (available_seats t) n) as [Hge|Hlt].
    + unfold Int4.sub, Int4.check.
      destruct (Int4.in_rangeb (available_seats t - n)); cbn; [|discriminate].
      intros [= <- <-]. rewrite lookup_insert. case_decide.
      * intros [= <-]. unfold seats_within_bounds. cbn. lia.
      * apply Hinv.
    + intros [= <- <-]. rewrite lookup_insert. case_decide.
      * intros [= <-]. unfold seats_within_bounds. cbn. lia.
      * apply Hinv.
  - intros [= <- <-]. apply Hinv.
Qed.

Lemma increment_keeps_bounds (row_id id : string) (n : Z)
    (trains trains' : gmap string train) (r : option Z) (t' : train) :
  0 <= n ->
  (forall i t, trains !! i = Some t -> seats_within_bounds t) ->
  increment row_id n trains = PgOk (trains', r) ->
  trains' !! id = Some t' -> seats_within_bounds t'.
Proof.
  intros Hn Hinv. unfold increment.
  destruct (trains !! row_id) as [t|] eqn:Hlook; cbn.
  - pose proof (Hinv _ _ Hlook) as [Hlo Hhi].
    unfold Int4.add, Int4.check.
    destruct (Int4.in_rangeb (available_seats t + n)); cbn; [|discriminate].
    destruct (Z.leb_spec (available_seats t + n) (total_seats t)) as [Hle|Hgt].
    + intros [= <- <-]. rewrite lookup_insert. case_decide.
      * intros [= <-]. unfold seats_within_bounds. cbn. lia.
      * apply Hinv.
    + intros [= <- <-]. rewrite lookup_insert. case_decide.
      * intros [= <-]. unfold seats_within_bounds. cbn. lia.
      * apply Hinv.
  - intros [= <- <-]. apply Hinv.
Qed.

(** ** C7: [decrement] *)

(** C7. For a train row whose [available_seats] is a valid [integer] and
    every [n >= 0], [decrement] raises no error: when [available_seats >= n]
    it stores and returns [available_seats - n], otherwise it stores and
    returns 0. *)
Theorem decrement_subtracts_or_clamps
    (row_id : string) (n : Z) (trains : gmap string train) (t : train) :
  trains !! row_id = Some t ->
  Int4.in_range (available_seats t) ->
  0 <= n ->
  decrement row_id n trains =
    PgOk (if decide (n <= available_seats t)
          then (<[row_id := set_available (available_seats t - n) t]> trains,
                available_seats t - n)
          else (<[row_id := set_available 0 t]> trains, 0)).
Proof.
  intros Hlook [Hlo Hhi] Hn. unfold decrement. rewrite Hlook. cbn.
  destruct (Z.geb_spec (available_seats t) n) as [Hge|Hlt].
  - rewrite decide_True by lia.
    unfold Int4.sub. rewrite check_in_range by int4_lia. reflexivity.
  - rewrite decide_False by lia. reflexivity.
Qed.

Lemma decrement_subtracts_or_clamps_witness :
  ({[ "T1" := mkTrain 5 2 ]} : gmap string train) !! "T1" = Some (mkTrain 5 2) /\
  Int4.in_range 2 /\ 0 <= 3 /\
  decrement "T1" 3 {[ "T1" := mkTrain 5 2 ]} =
    PgOk (<["T1" := mkTrain 5 0]> {[ "T1" := mkTrain 5 2 ]}, 0).
Proof.
  split; [reflexivity|]. split; [int4_lia|].
  split; [lia|].
  apply (decrement_subtracts_or_clamps "T1" 3 {[ "T1" := mkTrain 5 2 ]} (mkTrain 5 2)).
  - reflexivity.
  - cbn. int4_lia.
  - lia.
Defined.

(** ** C3: the seat effect of a booking row's history *)

Lemma update_same_status_no_effect (OLD NEW : booking) (trains : gmap string train) :
  booking_status OLD = booking_status NEW ->
  update_train_seats (TG_UPDATE OLD NEW) trains = PgOk trains.
Proof.
  intros Heq. cbn. rewrite Heq. unfold is_Confirmed, is_Cancelled.
  repeat case_bool_decide; cbn; try reflexivity; congruence.
Qed.

Lemma update_edge_effect (OLD NEW : booking) (trains : gmap string train) (t : train) :
  trains !! train_id NEW = Some t ->
  Int4.in_range (available_seats t - 1) ->
  Int4.in_range (available_seats t + 1) ->
  update_train_seats (TG_UPDATE OLD NEW) trains =
    PgOk (<[train_id NEW :=
             set_available
               (available_seats t
                - ((if edge_into_Confirmed (Some (booking_status OLD)) (booking_status NEW)
                    then 1 else 0)
                   - (if edge_Confirmed_to_Cancelled (Some (booking_status OLD)) (booking_status NEW)
                      then 1 else 0))) t]> trains).
Proof.
  intros Hlook Hdown Hup. cbn.
  destruct (is_Confirmed (booking_status OLD)) eqn:Hold;
    destruct (is_Confirmed (booking_status NEW)) eqn:Hnew; cbn.
  - destruct (is_Cancelled (booking_status NEW)) eqn:Hcan.
    + exfalso. unfold is_Confirmed, is_Cancelled in *.
      repeat case_bool_decide; congruence.
    + replace (available_seats t - (0 - 0)) with (available_seats t) by lia.
      rewrite set_available_same, insert_id by assumption. reflexivity.
  - destruct (is_Cancelled (booking_status NEW)) eqn:Hcan.
    + replace (available_seats t - (0 - 1)) with (available_seats t + 1) by lia.
      apply shift_available_found; assumption.
    + replace (available_seats t - (0 - 0)) with (available_seats t) by lia.
      rewrite set_available_same, insert_id by assumption. reflexivity.
  - replace (available_seats t - (1 - 0)) with (available_seats t + -1) by lia.
    apply shift_available_found; [assumption|].
    replace (available_seats t + -1) with (available_seats t - 1) by lia. assumption.
  - replace (available_seats t - (0 - 0)) with (available_seats t) by lia.
    rewrite set_available_same, insert_id by assumption. reflexivity.
Qed.

Lemma row_updates_effect (tid : string) (images : list booking) :
  forall (OLD : booking) (trains : gmap string train) (t : train),
  Forall (fun b => train_id b = tid) images ->
  trains !! tid = Some t ->
  Int4.min + Z.of_nat (length images) <= available_seats t
    <= Int4.max - Z.of_nat (length images) ->
  fire_booking_writes (row_updates OLD images) trains =
    PgOk (<[tid :=
             set_available
               (available_seats t
                - (count_edges edge_into_Confirmed (Some (booking_status OLD))
                     (map booking_status images)
                   - count_edges edge_Confirmed_to_Cancelled (Some (booking_status OLD))
                       (map booking_status images))) t]> trains).
Proof.
  induction images as [|NEW rest IH]; intros OLD trains t Hall Hlook Hrange.
  - cbn. replace (available_seats t - (0 - 0)) with (available_seats t) by lia.
    rewrite set_available_same, insert_id by assumption. reflexivity.
  - apply Forall_cons in Hall as [Htid Hall].
    cbn [length] in Hrange. rewrite Nat2Z.inj_succ in Hrange.
    cbn [row_updates fire_booking_writes map count_edges].
    rewrite (update_edge_effect OLD NEW trains t);
      [| rewrite Htid; assumption | int4_lia | int4_lia ].
    cbn [pg_bind]. rewrite Htid.
    set (e := if edge_into_Confirmed (Some (booking_status OLD)) (booking_status NEW)
              then 1 else 0).
    set (c := if edge_Confirmed_to_Cancelled (Some (booking_status OLD)) (booking_status NEW)
              then 1 else 0).
    assert (He : 0 <= e <= 1) by (subst e; destruct (edge_into_Confirmed _ _); lia).
    assert (Hc : 0 <= c <= 1) by (subst c; destruct (edge_Confirmed_to_Cancelled _ _); lia).
    rewrite (IH NEW _ (set_available (available_seats t - (e - c)) t) Hall).
    + rewrite insert_insert_eq, set_available_twice.
      apply same_available. cbn [available_seats set_available]. lia.
    + apply lookup_insert_eq.
    + cbn [available_seats set_available]. int4_lia.
Qed.

(** C3. Over the writes of one booking row on a train (its INSERT and any
    sequence of later UPDATEs, with enough room in [integer] for one step
    per write), the seats taken from the train's [available_seats] are
    the number of edges into Confirmed minus the number of edges from
    Confirmed to Cancelled, each counted once; and an UPDATE that leaves
    [booking_status] as it was changes no train. *)
Theorem seat_effect_counts_edges
    (tid : string) (inserted : booking) (images : list booking)
    (trains : gmap string train) (t : train) :
  Forall (fun b => train_id b = tid) (inserted :: images) ->
  trains !! tid = Some t ->
  Int4.min + Z.of_nat (S (length images)) <= available_seats t
    <= Int4.max - Z.of_nat (S (length images)) ->
  fire_booking_writes (row_history inserted images) trains =
    PgOk (<[tid :=
             set_available
               (available_seats t
                - (confirmed_entries inserted images
                   - cancelled_after_confirmed inserted images)) t]> trains)
  /\ (forall OLD NEW tr,
        booking_status OLD = booking_status NEW ->
        update_train_seats (TG_UPDATE OLD NEW) tr = PgOk tr).
Proof.
  intros Hall Hlook Hrange. split; [|intros; apply update_same_status_no_effect; assumption].
  apply Forall_cons in Hall as [Htid Hall].
  rewrite Nat2Z.inj_succ in Hrange.
  unfold row_history, confirmed_entries, cancelled_after_confirmed.
  cbn [fire_booking_writes map count_edges edge_into_Confirmed edge_Confirmed_to_Cancelled
       update_train_seats].
  destruct (is_Confirmed (booking_status inserted)) eqn:Hconf.
  - rewrite Htid.
    rewrite (shift_available_found tid (-1) trains t Hlook) by int4_lia.
    cbn [pg_bind].
    rewrite (row_updates_effect tid images inserted _
               (set_available (available_seats t + -1) t) Hall).
    + rewrite insert_insert_eq, set_available_twice.
      apply same_available. cbn [available_seats set_available]. lia.
    + apply lookup_insert_eq.
    + cbn [available_seats set_available]. int4_lia.
  - cbn [pg_bind].
    rewrite (row_updates_effect tid images inserted trains t Hall Hlook) by int4_lia.
    apply same_available. lia.
Qed.

Lemma seat_effect_counts_edges_witness :
  fire_booking_writes
    (row_history (sample_booking "B1" "Confirmed")
       [sample_booking "B1" "Confirmed"; sample_booking "B1" "Pending";
        sample_booking "B1" "Confirmed"; sample_booking "B1" "Cancelled";
        sample_booking "B1" "Cancelled"])
    {[ "T1" := mkTrain 2 2 ]}
  = PgOk (<["T1" := mkTrain 2 1]> {[ "T1" := mkTrain 2 2 ]}).
Proof.
  apply (seat_effect_counts_edges "T1" (sample_booking "B1" "Confirmed")
           [sample_booking "B1" "Confirmed"; sample_booking "B1" "Pending";
            sample_booking "B1" "Confirmed"; sample_booking "B1" "Cancelled";
            sample_booking "B1" "Cancelled"]
           {[ "T1" := mkTrain 2 2 ]} (mkTrain 2 2)).
  - repeat constructor.
  - reflexivity.
  - cbn. int4_lia.
Defined.

(** ** C1: the bounds of [available_seats] *)

(** C1, evaluated on the scenario of the specification: a train with
    [total_seats = 2] and [available_seats = 2] receives three bookings
    inserted as Confirmed.  The first two leave 1 and 0; the third leaves
    -1, outside [0 <= available_seats <= total_seats]. *)
Theorem third_confirmation_leaves_minus_one :
  (let? d1 := insert_booking (sample_booking "B1" "Confirmed") sample_db in
   let? d2 := insert_booking (sample_booking "B2" "Confirmed") d1 in
   let? d3 := insert_booking (sample_booking "B3" "Confirmed") d2 in
   PgOk (available_seats <$> train_tbl d1 !! "T1",
         available_seats <$> train_tbl d2 !! "T1",
         train_tbl d3 !! "T1"))
  = PgOk (Some 1, Some 0, Some (mkTrain 2 (-1)))
  /\ ~ seats_within_bounds (mkTrain 2 (-1)).
Proof.
  split; [vm_compute; reflexivity|].
  unfold seats_within_bounds. cbn. lia.
Qed.

(** ** C4: the revenue balance *)

Lemma accrue_keeps_nonneg (a : Q) (r : admin) :
  (0 <= a)%Q -> balance_nonneg r -> balance_nonneg (accrue_revenue a r).
Proof.
  unfold balance_nonneg, accrue_revenue. destruct (total_revenue r) as [v|]; cbn; [|tauto].
  intros Ha Hv. lra.
Qed.

Lemma reverse_keeps_nonneg (a : Q) (r : admin) :
  balance_nonneg r -> balance_nonneg (reverse_revenue a r).
Proof.
  unfold balance_nonneg, reverse_revenue.
  destruct (total_revenue r) as [v|] eqn:Hrev; [|rewrite Hrev; tauto].
  destruct (Qle_bool a v) eqn:Hle; cbn; [|rewrite Hrev; tauto].
  apply Qle_bool_iff in Hle. intros _. lra.
Qed.

Lemma reverse_above_balance (a : Q) (r : admin) :
  balance_below a r -> reverse_revenue a r = r.
Proof.
  unfold balance_below, reverse_revenue.
  destruct (total_revenue r) as [v|]; [|reflexivity].
  intros Hlt. destruct (Qle_bool a v) eqn:Hle; [|reflexivity].
  apply Qle_bool_iff in Hle. lra.
Qed.

Lemma map_reverse_above_balance (a : Q) (admins : list admin) :
  Forall (balance_below a) admins -> map (reverse_revenue a) admins = admins.
Proof.
  induction 1 as [|r rest Hr _ IH]; cbn; [reflexivity|].
  rewrite (reverse_above_balance a r Hr), IH. reflexivity.
Qed.

Lemma accrual_keeps_nonneg (a : Q) (admins : list admin) :
  (0 <= a)%Q ->
  Forall balance_nonneg admins ->
  Forall balance_nonneg
    match admins with
    | _ :: _ => map (accrue_revenue a) admins
    | [] => [mkAdmin "admin" "admin123" (Some a)]
    end.
Proof.
  intros Ha Hall. destruct admins as [|r rest].
  - repeat constructor. exact Ha.
  - apply Forall_fmap. eapply Forall_impl; [exact Hall|].
    intros x Hx. apply accrue_keeps_nonneg; assumption.
Qed.

Lemma reversal_keeps_nonneg (a : Q) (admins : list admin) :
  Forall balance_nonneg admins ->
  Forall balance_nonneg (map (reverse_revenue a) admins).
Proof.
  intros Hall. apply Forall_fmap. eapply Forall_impl; [exact Hall|].
  intros x Hx. apply reverse_keeps_nonneg; assumption.
Qed.

Lemma fire_revenue_write_keeps_nonneg (w : revenue_write) (admins : list admin) :
  write_amounts_nonneg w ->
  Forall balance_nonneg admins ->
  Forall balance_nonneg (fire_revenue_write admins w).
Proof.
  intros Hw Hall. destruct w as [[NEW|OLD NEW]|[NEW|OLD NEW]]; cbn in *.
  - destruct (is_Successful (status NEW)); [|assumption].
    apply accrual_keeps_nonneg; assumption.
  - destruct Hw as [Hold Hnew].
    destruct (is_Successful (status NEW)), (is_Successful (status OLD)); cbn;
      try assumption.
    + apply accrual_keeps_nonneg; assumption.
    + apply reversal_keeps_nonneg; assumption.
  - destruct (is_Processed (cancellation_status NEW)); [|assumption].
    apply reversal_keeps_nonneg; assumption.
  - assumption.
Qed.

(** The revenue scenario of the specification: payments of 1000 and 500
    create the row and reach 1500, reversing the first leaves 500, and a
    refund of 900 is then above the balance and changes nothing. *)
Example revenue_scenario :
  map total_revenue
    (fire_revenue_writes
       [PaymentWrite (TG_INSERT (mkPayment "B1" 1000 "UPI" "Successful"));
        PaymentWrite (TG_INSERT (mkPayment "B2" 500 "UPI" "Successful"));
        PaymentWrite (TG_UPDATE (mkPayment "B1" 1000 "UPI" "Successful")
                                (mkPayment "B1" 1000 "UPI" "Refunded"));
        CancellationWrite (TG_INSERT (mkCancellation "B2" 900 "Processed"))]
       [])
  = [Some (1000 + 500 - 1000)%Q].
Proof. reflexivity. Qed.

(** C4. From a balance that is not negative, no sequence of payment and
    cancellation writes with non-negative amounts makes [total_revenue]
    negative; and a reversal (a payment updated out of Successful, a
    cancellation inserted as Processed) of more than the balance leaves
    the admin table as it was. *)
Theorem revenue_never_negative (ws : list revenue_write) (admins : list admin) :
  Forall balance_nonneg admins ->
  Forall write_amounts_nonneg ws ->
  Forall balance_nonneg (fire_revenue_writes ws admins)
  /\ (forall OLD NEW,
        is_Successful (status OLD) = true ->
        is_Successful (status NEW) = false ->
        Forall (balance_below (amount OLD)) admins ->
        update_revenue_on_payment (TG_UPDATE OLD NEW) admins = admins)
  /\ (forall NEW,
        is_Processed (cancellation_status NEW) = true ->
        Forall (balance_below (refund_amount NEW)) admins ->
        update_revenue_on_refund (TG_INSERT NEW) admins = admins).
Proof.
  intros Hinv Hws. split; [|split].
  - unfold fire_revenue_writes. revert admins Hinv.
    induction Hws as [|w rest Hw _ IH]; intros admins Hinv; cbn; [assumption|].
    apply IH. apply fire_revenue_write_keeps_nonneg; assumption.
  - intros OLD NEW Hold Hnew Hbelow. cbn. rewrite Hold, Hnew. cbn.
    apply map_reverse_above_balance; assumption.
  - intros NEW Hproc Hbelow. cbn. rewrite Hproc.
    apply map_reverse_above_balance; assumption.
Qed.

Lemma revenue_never_negative_witness :
  Forall balance_nonneg
    (fire_revenue_writes
       [PaymentWrite (TG_INSERT (mkPayment "B1" 1000 "UPI" "Successful"));
        PaymentWrite (TG_INSERT (mkPayment "B2" 500 "UPI" "Successful"));
        PaymentWrite (TG_UPDATE (mkPayment "B1" 1000 "UPI" "Successful")
                                (mkPayment "B1" 1000 "UPI" "Refunded"));
        CancellationWrite (TG_INSERT (mkCancellation "B2" 900 "Processed"))]
       []).
Proof.
  apply (revenue_never_negative
           [PaymentWrite (TG_INSERT (mkPayment "B1" 1000 "UPI" "Successful"));
            PaymentWrite (TG_INSERT (mkPayment "B2" 500 "UPI" "Successful"));
            PaymentWrite (TG_UPDATE (mkPayment "B1" 1000 "UPI" "Successful")
                                    (mkPayment "B1" 1000 "UPI" "Refunded"));
            CancellationWrite (TG_INSERT (mkCancellation "B2" 900 "Processed"))]
           []).
  - constructor.
  - repeat constructor; cbn; discriminate.
Defined.

(** ** Running [cancelBooking] *)

Lemma cancelBooking_run (p : string) (amt : Q) (rho : env) (st : state) :
  cancelBooking p amt rho st =
    let n := requests st in
    match fault_at rho n with
    | Some e => cancel_failed e (store st) (S n) (toasts st)
    | None =>
        match update_booking_status p "Cancelled" (store st) with
        | PgError msg => cancel_failed (mkError msg) (store st) (S n) (toasts st)
        | PgOk d =>
            match fault_at rho (S n) with
            | Some e => cancel_failed e d (S (S n)) (toasts st)
            | None =>
                (Resolved tt,
                 mkState
                   (mkDb (train_tbl d) (fare_tbl d) (passenger_tbl d) (booking_tbl d)
                      (payment_tbl d)
                      (cancellation_tbl d
                       ++ [mkCancellation p (Binary64.times amt (9 # 10)) "Processed"])
                      (update_revenue_on_refund
                         (TG_INSERT
                            (mkCancellation p (Binary64.times amt (9 # 10)) "Processed"))
                         (admin_tbl d)))
                   (S (S n))
                   (toasts st ++ [toast_refund (Binary64.times amt (9 # 10))]))
            end
        end
    end.
Proof.
  unfold cancelBooking, try_catch, bind, request, writing, cancel_failed.
  cbn. destruct (fault_at rho (requests st)) as [e|]; [reflexivity|].
  destruct (update_booking_status p "Cancelled" (store st)) as [d|msg]; cbn; [|reflexivity].
  destruct (fault_at rho (S (requests st))) as [e|]; reflexivity.
Qed.

(** ** The status update, row by row *)

Lemma update_status_rows_rows (p s : string) (rows : list booking) :
  forall (trains : gmap string train) out,
  update_status_rows p s rows trains = PgOk out ->
  fst out = map (restatus p s) rows.
Proof.
  induction rows as [|OLD rest IH]; intros trains out; cbn [update_status_rows map].
  - intros [= <-]. reflexivity.
  - unfold restatus at 1. case_bool_decide.
    + destruct (update_train_seats (TG_UPDATE OLD (set_status s OLD)) trains)
        as [trains'|]; cbn [pg_bind]; [|discriminate].
      destruct (update_status_rows p s rest trains') as [out'|] eqn:Hrest;
        cbn [pg_bind]; [|discriminate].
      intros [= <-]. cbn [fst]. f_equal. eapply IH, Hrest.
    + destruct (update_status_rows p s rest trains) as [out'|] eqn:Hrest;
        cbn [pg_bind]; [|discriminate].
      intros [= <-]. cbn [fst]. f_equal. eapply IH, Hrest.
Qed.

Lemma update_status_rows_no_match (p s : string) (rows : list booking)
    (trains : gmap string train) :
  Forall (fun b => pnr b <> p) rows ->
  update_status_rows p s rows trains = PgOk (rows, trains).
Proof.
  induction 1 as [|b rest Hb _ IH]; cbn; [reflexivity|].
  rewrite bool_decide_eq_false_2 by assumption. rewrite IH. reflexivity.
Qed.



Lemma restatus_sets (p s : string) (rows : list booking) :
  Forall (fun b => pnr b = p -> booking_status b = s) (map (restatus p s) rows).
Proof.
  induction rows as [|b rest IH]; cbn [map]; constructor; [|exact IH].
  unfold restatus. case_bool_decide; cbn; [reflexivity | congruence].
Qed.

Lemma restatus_keeps_pnr (p s : string) (rows : list booking) :
  map pnr (map (restatus p s) rows) = map pnr rows.
Proof.
  rewrite map_map. apply map_ext. intros b. unfold restatus.
  case_bool_decide; reflexivity.
Qed.

Lemma update_booking_status_tables (p s : string) (d d' : db) :
  update_booking_status p s d = PgOk d' ->
  booking_tbl d' = map (restatus p s) (booking_tbl d)
  /\ cancellation_tbl d' = cancellation_tbl d
  /\ admin_tbl d' = admin_tbl d
  /\ payment_tbl d' = payment_tbl d.
Proof.
  unfold update_booking_status.
  destruct (update_status_rows p s (booking_tbl d) (train_tbl d)) as [out|] eqn:Hrows;
    cbn; [|discriminate].
  intros [= <-]. cbn. repeat split.
  eapply update_status_rows_rows, Hrows.
Qed.



(** ** C2: the refund of a cancellation *)

(** C2, amended. For every PNR and paid amount A: when both writes of
    [cancelBooking] succeed, the call resolves and leaves exactly one more
    cancellation row, with status Processed and, as its refund, the
    product [A * 0.9] as JavaScript computes it (the binary64 product),
    not rounded to an integer; when a write fails the call rejects and
    leaves no cancellation row. *)
Theorem cancelBooking_records_unrounded_refund
    (p : string) (A : Q) (rho : env) (st : state) :
  exists o st',
    cancelBooking p A rho st = (o, st')
    /\ ((both_writes_succeed p rho st
         /\ o = Resolved tt
         /\ cancellation_tbl (store st')
            = (cancellation_tbl (store st)
               ++ [mkCancellation p (Binary64.times A (9 # 10)) "Processed"])%list)
        \/ (~ both_writes_succeed p rho st
            /\ (exists e, o = Rejected e)
            /\ cancellation_tbl (store st') = cancellation_tbl (store st))).
Proof.
  rewrite cancelBooking_run. unfold both_writes_succeed, cancel_failed. cbn zeta.
  destruct (fault_at rho (requests st)) as [e|] eqn:Hf1.
  { eexists _, _. split; [reflexivity|]. right. cbn. split; [|eauto].
    intros [? _]; discriminate. }
  destruct (update_booking_status p "Cancelled" (store st)) as [d|msg] eqn:Hupd.
  2:{ eexists _, _. split; [reflexivity|]. right. cbn. split; [|eauto].
      intros (_ & [d Hd] & _); discriminate. }
  apply update_booking_status_tables in Hupd as (_ & Hcan & _).
  destruct (fault_at rho (S (requests st))) as [e|] eqn:Hf2.
  { eexists _, _. split; [reflexivity|]. right. cbn. split; [|eauto].
    intros (_ & _ & ?); discriminate. }
  eexists _, _. split; [reflexivity|]. left. cbn. rewrite Hcan. eauto 6.
Qed.

(** C2 as stated fails: cancelling B1 with a paid amount of 5 records a
    refund of 9/2, which no rounding to an integer yields; and when the
    first write fails no row is recorded at all, although the refund of a
    paid amount of 10 is the integer 9. *)
Lemma cancelBooking_refund_is_not_rounded :
  ~ records_rounded_refund "B1" 5 quiet (mkState booked_db 0 [])
  /\ ~ records_rounded_refund "B1" 10 first_fails (mkState booked_db 0 []).
Proof.
  split; intros (r & Htbl & Hstatus & Hrefund).
  - vm_compute in Htbl. injection Htbl as <-. vm_compute in Hrefund. discriminate.
  - vm_compute in Htbl. discriminate.
Qed.

(** ** C5: the cancellation insert fails after the status update *)

(** C5. When the status update of [cancelBooking] succeeds and the
    cancellation insert fails with error [e], the call rejects with that
    very error, whose message is also shown in a toast; the database is
    left as the first write made it (every booking with the PNR is
    Cancelled, the cancellation table is as before, so it holds no record
    for the PNR if it held none); and exactly two requests were issued, so
    nothing was retried or rolled back. *)
Theorem cancelBooking_surfaces_failed_insert
    (p : string) (A : Q) (rho : env) (st : state) (d : db) (e : js_error) :
  fault_at rho (requests st) = None ->
  update_booking_status p "Cancelled" (store st) = PgOk d ->
  fault_at rho (S (requests st)) = Some e ->
  cancelBooking p A rho st =
    (Rejected e,
     mkState d (S (S (requests st)))
       (toasts st ++ [toast_error ("Failed to cancel booking: " +:+ message e)]))
  /\ Forall (fun b => pnr b = p -> booking_status b = "Cancelled") (booking_tbl d)
  /\ map pnr (booking_tbl d) = map pnr (booking_tbl (store st))
  /\ cancellation_tbl d = cancellation_tbl (store st)
  /\ (Forall (fun c => cancellation_pnr c <> p) (cancellation_tbl (store st)) ->
      Forall (fun c => cancellation_pnr c <> p) (cancellation_tbl d)).
Proof.
  intros Hf1 Hupd Hf2. rewrite cancelBooking_run. cbn zeta.
  rewrite Hf1, Hupd, Hf2. split; [reflexivity|].
  apply update_booking_status_tables in Hupd as (Hrows & Hcan & _).
  rewrite Hrows, Hcan. split; [apply restatus_sets|].
  split; [apply restatus_keeps_pnr|]. split; [reflexivity|]. tauto.
Qed.

Lemma cancelBooking_surfaces_failed_insert_witness :
  cancelBooking "B1" 1000 second_fails (mkState booked_db 0 []) =
    (Rejected (mkError "connection lost"),
     mkState
       (mkDb (<["T1" := mkTrain 2 2]> {[ "T1" := mkTrain 2 1 ]})
          [mkFare "F1" "T1" "AC 2 Tier" 800] []
          [sample_booking "B1" "Cancelled"]
          [mkPayment "B1" 1000 "UPI" "Successful"] []
          [mkAdmin "admin" "admin123" (Some 1000%Q)])
       2 [toast_error "Failed to cancel booking: connection lost"]).
Proof.
  apply (cancelBooking_surfaces_failed_insert "B1" 1000 second_fails
           (mkState booked_db 0 [])
           (mkDb (<["T1" := mkTrain 2 2]> {[ "T1" := mkTrain 2 1 ]})
              [mkFare "F1" "T1" "AC 2 Tier" 800] []
              [sample_booking "B1" "Cancelled"]
              [mkPayment "B1" 1000 "UPI" "Successful"] []
              [mkAdmin "admin" "admin123" (Some 1000%Q)])
           (mkError "connection lost")).
  - reflexivity.
  - reflexivity.
  - reflexivity.
Defined.

(** ** C8: a PNR that matches no booking *)



(** ** C9: cancelling twice *)



(** ** C10: [getAdminData] *)

(** The admin row appears with the first successful payment. *)
Lemma first_successful_payment_creates_admin_row (r : payment) (d d' : db) :
  admin_tbl d = [] ->
  status r = "Successful" ->
  insert_payment r d = PgOk d' ->
  admin_tbl d' = [mkAdmin "admin" "admin123" (Some (amount r))].
Proof.
  intros Hempty Hstatus [= <-]. cbn. rewrite Hempty, Hstatus. reflexivity.
Qed.

(** C10. With no admin row [getAdminData] rejects, with a message that
    starts "Failed to fetch admin data: ", whatever the request met; it
    does not resolve to a zero revenue.  With exactly one admin row whose
    [total_revenue] is NULL, and a request that is not failed from
    outside, it resolves to a revenue of 0. *)
Theorem getAdminData_rejects_without_admin_row (rho : env) (st : state) :
  (admin_tbl (store st) = [] ->
   exists cause,
     getAdminData rho st =
       (Rejected (mkError ("Failed to fetch admin data: " +:+ cause)),
        mkState (store st) (S (requests st)) (toasts st)))
  /\ (forall r,
        admin_tbl (store st) = [r] ->
        total_revenue r = None ->
        fault_at rho (requests st) = None ->
        getAdminData rho st =
          (Resolved (mkAdminData 0),
           mkState (store st) (S (requests st)) (toasts st))).
Proof.
  unfold getAdminData, bind, request, reading, select_total_revenue.
  split.
  - intros Hempty. rewrite Hempty. cbn.
    destruct (fault_at rho (requests st)) as [e|]; cbn; eexists; reflexivity.
  - intros r Hone Hnull Hfault. rewrite Hone, Hfault. cbn. rewrite Hnull. reflexivity.
Qed.

Lemma getAdminData_rejects_without_admin_row_witness :
  (exists cause,
     getAdminData quiet (mkState sample_db 0 []) =
       (Rejected (mkError ("Failed to fetch admin data: " +:+ cause)),
        mkState sample_db 1 []))
  /\ getAdminData quiet
       (mkState (mkDb ∅ [] [] [] [] [] [mkAdmin "admin" "admin123" None]) 0 [])
     = (Resolved (mkAdminData 0),
        mkState (mkDb ∅ [] [] [] [] [] [mkAdmin "admin" "admin123" None]) 1 []).
Proof.
  split.
  - apply (proj1 (getAdminData_rejects_without_admin_row quiet (mkState sample_db 0 []))).
    reflexivity.
  - apply (proj2 (getAdminData_rejects_without_admin_row quiet
                    (mkState (mkDb ∅ [] [] [] [] [] [mkAdmin "admin" "admin123" None]) 0 []))
             (mkAdmin "admin" "admin123" None)); reflexivity.
Defined.

(** ** Running [createBooking] *)

Lemma bind_Resolved {A B} (m : M A) (k : A -> M B) (rho : env) (st st' : state) (b : B) :
  bind m k rho st = (Resolved b, st') ->
  exists a st1, m rho st = (Resolved a, st1) /\ k a rho st1 = (Resolved b, st').
Proof.
  unfold bind. destruct (m rho st) as [[a|e] st1]; [eauto | discriminate].
Qed.

Lemma request_inv {A} (stmt : string -> db -> pg_result (db * A))
    (rho : env) (st st' : state) (o : outcome (response A)) :
  request stmt rho st = (o, st') ->
  requests st' = S (requests st) /\ toasts st' = toasts st
  /\ exists r, o = Resolved r
     /\ match r with
        | Data a => stmt (key_at rho (requests st)) (store st) = PgOk (store st', a)
        | Error _ => store st' = store st
        end.
Proof.
  unfold request. destruct (fault_at rho (requests st)) as [e|].
  - intros [= <- <-]. cbn. repeat split. eexists. split; reflexivity.
  - destruct (stmt (key_at rho (requests st)) (store st)) as [[d a]|msg] eqn:Hstmt.
    + intros [= <- <-]. cbn. repeat split. eexists. split; reflexivity.
    + intros [= <- <-]. cbn. repeat split. eexists. split; reflexivity.
Qed.

Lemma insert_passengers_Resolved (ps : list passenger_details) :
  forall (ids : list string) (rho : env) (st st' : state) (ids' : list string),
  insert_passengers ps ids rho st = (Resolved ids', st') ->
  exists rows,
    map details_of rows = ps
    /\ ids' = (ids ++ map p_passenger_id rows)%list
    /\ store st' = with_passengers (store st) rows.
Proof.
  induction ps as [|p rest IH]; intros ids rho st st' ids'; cbn [insert_passengers].
  - intros [= <- <-]. exists []. cbn. rewrite !app_nil_r.
    repeat split. destruct (store st). unfold with_passengers. cbn.
    rewrite app_nil_r. reflexivity.
  - intros Hrun. apply bind_Resolved in Hrun as (resp & st1 & Hreq & Hrest).
    apply request_inv in Hreq as (_ & _ & r & [= <-] & Hstmt).
    destruct resp as [id|e]; [|discriminate].
    unfold returning_key, insert_passenger in Hstmt. cbn in Hstmt.
    injection Hstmt as Hstore Hid.
    apply IH in Hrest as (rows & Hdet & Hids & Hst').
    exists (mkPassenger id (d_name p) (d_age p) (d_gender p) (d_contact p) :: rows).
    cbn [map]. split; [|split].
    + unfold details_of at 1. cbn. rewrite Hdet. destruct p. reflexivity.
    + rewrite Hids. cbn. rewrite <- app_assoc. reflexivity.
    + rewrite Hst', <- Hstore. unfold with_passengers. cbn.
      rewrite Hid, <- app_assoc. reflexivity.
Qed.

Lemma single_elem {A B} (f : A -> B) (l : list A) (y : B) :
  single (map f l) = PgOk y -> exists x, x ∈ l /\ f x = y.
Proof.
  destruct l as [|x [|x' l]]; cbn; try discriminate.
  intros [= <-]. exists x. split; [left|reflexivity].
Qed.

Lemma single_first_elem {A B} (f : A -> B) (l : list A) (y : B) :
  single (map f (take 1 l)) = PgOk y -> exists x, x ∈ l /\ f x = y.
Proof.
  destruct l as [|x l]; cbn; [discriminate|].
  intros [= <-]. exists x. split; [left|reflexivity].
Qed.

Lemma resolve_fare_Resolved (bd : bookingData) (rho : env) (st st' : state) (f : string) :
  resolve_fare bd rho st = (Resolved f, st') ->
  store st' = store st
  /\ exists row, row ∈ fare_tbl (store st)
       /\ f_fare_id row = f /\ f_train_id row = trainId bd.
Proof.
  unfold resolve_fare. intros Hrun.
  apply bind_Resolved in Hrun as (resp & st1 & Hreq & Hrest).
  apply request_inv in Hreq as (_ & _ & r & [= <-] & Hstmt).
  destruct resp as [id|e].
  - injection Hrest as <- <-. unfold reading in Hstmt.
    destruct (select_fare_of_class (trainId bd) (fareClass bd) (store st))
      as [id'|] eqn:Hsel; cbn in Hstmt; [|discriminate].
    injection Hstmt as Hstore <-. split; [congruence|].
    apply single_elem in Hsel as (row & Hin & Hid).
    apply list_elem_of_filter in Hin as [[Htrain _] Hin]. eauto.
  - apply bind_Resolved in Hrest as (resp' & st2 & Hreq' & Hrest').
    apply request_inv in Hreq' as (_ & _ & r' & [= <-] & Hstmt').
    destruct resp' as [id|e']; [|discriminate].
    injection Hrest' as <- <-. unfold reading in Hstmt'. rewrite Hstmt in Hstmt'.
    destruct (select_any_fare (trainId bd) (store st)) as [id'|] eqn:Hsel;
      cbn in Hstmt'; [|discriminate].
    injection Hstmt' as Hstore <-. split; [congruence|].
    apply single_first_elem in Hsel as (row & Hin & Hid).
    apply list_elem_of_filter in Hin as [Htrain Hin]. eauto.
Qed.

Lemma insert_bookings_Resolved (bd : bookingData) (fareId : string) (ids : list string) :
  forall (i : nat) (acc : list string * string) (rho : env) (st st' : state)
         (out : list string * string),
  insert_bookings bd fareId ids i acc rho st = (Resolved out, st') ->
  exists rows trains,
    map passenger_id rows = ids
    /\ Forall (booked_for bd fareId) rows
    /\ fst out = (fst acc ++ map pnr rows)%list
    /\ snd out = match i, rows with
                 | O, b :: _ => pnr b
                 | _, _ => snd acc
                 end
    /\ store st' = with_bookings (store st) trains rows.
Proof.
  induction ids as [|id rest IH]; intros i acc rho st st' out; cbn [insert_bookings].
  - intros [= <- <-]. exists [], (train_tbl (store st)). cbn. rewrite app_nil_r.
    repeat split; [constructor | destruct i; reflexivity |].
    destruct (store st). unfold with_bookings. cbn. rewrite app_nil_r. reflexivity.
  - intros Hrun. apply bind_Resolved in Hrun as (rnd & st0 & Hrnd & Hrun).
    injection Hrnd as _ <-.
    apply bind_Resolved in Hrun as (resp & st1 & Hreq & Hrest).
    apply request_inv in Hreq as (_ & _ & r & [= <-] & Hstmt).
    destruct resp as [p|e]; [|discriminate].
    unfold returning_key, insert_booking in Hstmt.
    destruct (update_train_seats _ (train_tbl (store st))) as [trains1|] eqn:Htrig;
      cbn in Hstmt; [|discriminate].
    injection Hstmt as Hstore Hp.
    apply IH in Hrest as (rows & trains & Hids & Hall & Hfst & Hsnd & Hst').
    exists (mkBooking p id (trainId bd) fareId (fareClass bd)
              (seat_label (fareClass bd) rnd) "Confirmed" :: rows), trains.
    cbn [map passenger_id pnr fst snd] in *.
    split; [rewrite Hids; reflexivity|].
    split; [constructor; [repeat split|exact Hall]|].
    split; [rewrite Hfst, <- app_assoc; reflexivity|].
    split.
    + rewrite Hsnd. destruct i; cbn; congruence.
    + rewrite Hst', <- Hstore. unfold with_bookings. cbn.
      rewrite Hp, <- app_assoc. reflexivity.
Qed.

(** ** C6: what a successful [createBooking] leaves behind *)

(** C6. When [createBooking] resolves for n >= 1 passengers, it has
    created n passenger rows (one per passenger, in order) and n booking
    rows (one per created passenger, in order, all Confirmed, all on the
    requested train), every booking row carries the one fare id that was
    resolved among the fares of that train, exactly one payment row was
    created, for the first booking's PNR, the full total amount and
    status Successful, and the PNR returned is that of the first booking
    row created. *)
Theorem createBooking_creates_rows
    (bd : bookingData) (rho : env) (st st' : state) (result : string) :
  passengerData bd <> [] ->
  createBooking bd rho st = (Resolved result, st') ->
  exists (ps : list passenger) (bs : list booking) (fareId : string),
    passenger_tbl (store st') = (passenger_tbl (store st) ++ ps)%list
    /\ length ps = length (passengerData bd)
    /\ map details_of ps = passengerData bd
    /\ booking_tbl (store st') = (booking_tbl (store st) ++ bs)%list
    /\ length bs = length (passengerData bd)
    /\ map passenger_id bs = map p_passenger_id ps
    /\ Forall (booked_for bd fareId) bs
    /\ (exists row, row ∈ fare_tbl (store st)
          /\ f_fare_id row = fareId /\ f_train_id row = trainId bd)
    /\ payment_tbl (store st')
       = (payment_tbl (store st)
          ++ [mkPayment result (totalAmount bd) (paymentMethod bd) "Successful"])%list
    /\ head (map pnr bs) = Some result.
Proof.
  intros Hne Hrun. unfold createBooking, try_catch in Hrun.
  match type of Hrun with
  | (match ?m with _ => _ end) = _ => destruct m as [[res|err] st2] eqn:Hbody
  end.
  2:{ unfold bind, show_toast, throw in Hrun. discriminate. }
  injection Hrun as -> ->.
  apply bind_Resolved in Hbody as (ids & s1 & Hpass & Hbody).
  apply bind_Resolved in Hbody as (fareId & s2 & Hfare & Hbody).
  apply bind_Resolved in Hbody as (out & s3 & Hbook & Hbody).
  apply bind_Resolved in Hbody as (resp & s4 & Hpay & Hret).
  apply insert_passengers_Resolved in Hpass as (ps & Hdet & Hids & Hs1).
  apply resolve_fare_Resolved in Hfare as (Hs2 & Hrow).
  apply insert_bookings_Resolved in Hbook as (bs & trains & Hbids & Hall & _ & Hsnd & Hs3).
  apply request_inv in Hpay as (_ & _ & r & [= <-] & Hstmt).
  destruct resp as [[]|e]; [|discriminate].
  injection Hret as <- <-.
  unfold writing, insert_payment in Hstmt. cbn in Hstmt. injection Hstmt as Hs4.
  cbn in Hids. subst ids.
  assert (Hlen : length ps = length (passengerData bd))
    by (rewrite <- Hdet; rewrite length_map; reflexivity).
  assert (Hblen : length bs = length ps).
  { apply (f_equal (@length _)) in Hbids. rewrite !length_map in Hbids. exact Hbids. }
  exists ps, bs, fareId.
  rewrite <- Hs4, Hs3, Hs2, Hs1. unfold with_bookings, with_passengers. cbn.
  repeat split; try assumption; try congruence.
  - rewrite Hs1 in Hrow. exact Hrow.
  - destruct bs as [|b bs]; cbn.
    + destruct ps; [|discriminate].
      exfalso. apply Hne. rewrite <- Hdet. reflexivity.
    + f_equal. symmetry. exact Hsnd.
Qed.

Lemma createBooking_creates_rows_witness :
  createBooking sample_bd quiet (mkState sample_db 0 []) = (Resolved "K3", sample_after)
  /\ exists (ps : list passenger) (bs : list booking) (fareId : string),
    passenger_tbl (store sample_after) = (passenger_tbl sample_db ++ ps)%list
    /\ length ps = 2%nat
    /\ map details_of ps = passengerData sample_bd
    /\ booking_tbl (store sample_after) = (booking_tbl sample_db ++ bs)%list
    /\ length bs = 2%nat
    /\ map passenger_id bs = map p_passenger_id ps
    /\ Forall (booked_for sample_bd fareId) bs
    /\ (exists row, row ∈ fare_tbl sample_db
          /\ f_fare_id row = fareId /\ f_train_id row = "T1")
    /\ payment_tbl (store sample_after)
       = (payment_tbl sample_db ++ [mkPayment "K3" 1600 "UPI" "Successful"])%list
    /\ head (map pnr bs) = Some "K3".
Proof.
  split; [vm_compute; reflexivity|].
  apply (createBooking_creates_rows sample_bd quiet (mkState sample_db 0 [])
           sample_after "K3").
  - discriminate.
  - vm_compute. reflexivity.
Defined.

(** * Further properties of the ledgers and of the service *)

(** ** [increment] and [decrement] beyond the seat bounds *)

Lemma decrement_found (row_id : string) (n : Z) (trains : gmap string train) (t : train) :
  trains !! row_id = Some t ->
  Int4.in_range (available_seats t) ->
  0 <= n ->
  decrement row_id n trains =
    PgOk (if decide (n <= available_seats t)
          then (<[row_id := set_available (available_seats t - n) t]> trains,
                available_seats t - n)
          else (<[row_id := set_available 0 t]> trains, 0)).
Proof.
  intros Hlook Hrange Hn. unfold decrement. rewrite Hlook. cbn zeta.
  destruct (Z.geb_spec (available_seats t) n) as [Hge|Hlt].
  - rewrite decide_True by lia.
    unfold Int4.sub. rewrite check_in_range by int4_lia. reflexivity.
  - rewrite decide_False by lia. reflexivity.
Qed.

Lemma increment_found (row_id : string) (n : Z) (trains : gmap string train) (t : train) :
  trains !! row_id = Some t ->
  Int4.in_range (available_seats t + n) ->
  increment row_id n trains =
    PgOk (if decide (available_seats t + n <= total_seats t)
          then (<[row_id := set_available (available_seats t + n) t]> trains,
                Some (available_seats t + n))
          else (<[row_id := set_available (total_seats t) t]> trains,
                Some (total_seats t))).
Proof.
  intros Hlook Hrange. unfold increment. rewrite Hlook. cbn zeta.
  unfold Int4.add. rewrite (check_in_range _ Hrange). cbn [pg_bind].
  destruct (Z.leb_spec (available_seats t + n) (total_seats t)) as [Hle|Hgt].
  - rewrite decide_True by lia. reflexivity.
  - rewrite decide_False by lia. reflexivity.
Qed.

(** X1. For a train row and a value whose sum with [available_seats] is a
    valid [integer], [increment] raises no error: it stores and returns
    the sum when that does not exceed [total_seats], and otherwise stores
    and returns [total_seats]. *)
Theorem increment_adds_or_clamps
    (row_id : string) (n : Z) (trains : gmap string train) (t : train) :
  trains !! row_id = Some t ->
  Int4.in_range (available_seats t + n) ->
  increment row_id n trains =
    PgOk (if decide (available_seats t + n <= total_seats t)
          then (<[row_id := set_available (available_seats t + n) t]> trains,
                Some (available_seats t + n))
          else (<[row_id := set_available (total_seats t) t]> trains,
                Some (total_seats t))).
Proof.
  intros Hlook Hrange. unfold increment. rewrite Hlook. cbn zeta.
  unfold Int4.add. rewrite (check_in_range _ Hrange). cbn [pg_bind].
  destruct (Z.leb_spec (available_seats t + n) (total_seats t)) as [Hle|Hgt].
  - rewrite decide_True by lia. reflexivity.
  - rewrite decide_False by lia. reflexivity.
Qed.

Lemma increment_adds_or_clamps_witness :
  increment "T1" 3 {[ "T1" := mkTrain 5 4 ]}
  = PgOk (<["T1" := mkTrain 5 5]> {[ "T1" := mkTrain 5 4 ]}, Some 5).
Proof.
  apply (increment_adds_or_clamps "T1" 3 {[ "T1" := mkTrain 5 4 ]} (mkTrain 5 4)).
  - reflexivity.
  - cbn. int4_lia.
Defined.

(** X2. Unlike [decrement], [increment] can fail: its test adds before it
    compares, so a value that takes [available_seats] past the largest
    [integer] raises "integer out of range" where a clamp to [total_seats]
    was due, and the table keeps its rows. *)
Theorem increment_overflow_raises
    (row_id : string) (n : Z) (trains : gmap string train) (t : train) :
  trains !! row_id = Some t ->
  Int4.max < available_seats t + n ->
  increment row_id n trains = PgError "integer out of range".
Proof.
  intros Hlook Hover. unfold increment. rewrite Hlook. cbn zeta.
  unfold Int4.add. rewrite check_out_of_range; [reflexivity|].
  unfold Int4.in_range. lia.
Qed.

Lemma increment_overflow_raises_witness :
  increment "T1" Int4.max {[ "T1" := mkTrain 5 5 ]} = PgError "integer out of range".
Proof.
  apply (increment_overflow_raises "T1" Int4.max {[ "T1" := mkTrain 5 5 ]} (mkTrain 5 5)).
  - reflexivity.
  - cbn. lia.
Defined.

(** X3. [decrement] guards the lower bound only: a negative value passes its
    test and is subtracted as it is, so a train within its bounds ends
    above [total_seats] as soon as the value exceeds the seats taken. *)
Theorem decrement_negative_value_overshoots
    (row_id : string) (n : Z) (trains trains' : gmap string train) (t : train) (r : Z) :
  trains !! row_id = Some t ->
  seats_within_bounds t ->
  n < 0 ->
  total_seats t - available_seats t < - n ->
  decrement row_id n trains = PgOk (trains', r) ->
  r = available_seats t - n
  /\ trains' !! row_id = Some (set_available (available_seats t - n) t)
  /\ ~ seats_within_bounds (set_available (available_seats t - n) t).
Proof.
  intros Hlook [Hlo Hhi] Hneg Hover. unfold decrement. rewrite Hlook. cbn zeta.
  destruct (Z.geb_spec (available_seats t) n) as [Hge|Hlt]; [|lia].
  unfold Int4.sub, Int4.check.
  destruct (Int4.in_rangeb (available_seats t - n)); cbn [pg_bind]; [|discriminate].
  intros [= <- <-]. split; [reflexivity|]. split; [apply lookup_insert_eq|].
  unfold seats_within_bounds. cbn. lia.
Qed.

Lemma decrement_negative_value_overshoots_witness :
  3 = 2 - -1
  /\ (<["T1" := mkTrain 2 3]> {[ "T1" := mkTrain 2 2 ]} : gmap string train) !! "T1"
     = Some (mkTrain 2 3)
  /\ ~ seats_within_bounds (mkTrain 2 3).
Proof.
  apply (decrement_negative_value_overshoots "T1" (-1) {[ "T1" := mkTrain 2 2 ]}
           (<["T1" := mkTrain 2 3]> {[ "T1" := mkTrain 2 2 ]}) (mkTrain 2 2) 3).
  - reflexivity.
  - unfold seats_within_bounds. cbn. lia.
  - lia.
  - cbn. lia.
  - reflexivity.
Defined.

(** X4. Taking [n] seats with [decrement] and giving them back with
    [increment] restores the train table, whenever the train is within
    its bounds and has the [n] seats. *)
Theorem decrement_then_increment_restores
    (row_id : string) (n : Z) (trains : gmap string train) (t : train) :
  trains !! row_id = Some t ->
  seats_within_bounds t ->
  Int4.in_range (total_seats t) ->
  0 <= n <= available_seats t ->
  (let? out := decrement row_id n trains in increment row_id n (fst out))
  = PgOk (trains, Some (available_seats t)).
Proof.
  intros Hlook [Hlo Hhi] Htot [Hn Hle].
  rewrite (decrement_found row_id n trains t Hlook) by (int4_lia || lia).
  rewrite decide_True by lia. cbn [pg_bind fst].
  rewrite (increment_found row_id n _ (set_available (available_seats t - n) t)).
  - cbn [available_seats total_seats set_available].
    rewrite decide_True by lia. rewrite insert_insert_eq.
    replace (available_seats t - n + n) with (available_seats t) by lia.
    rewrite set_available_twice, set_available_same, insert_id by assumption.
    reflexivity.
  - apply lookup_insert_eq.
  - cbn [available_seats set_available]. int4_lia.
Qed.

Lemma decrement_then_increment_restores_witness :
  (let? out := decrement "T1" 2 {[ "T1" := mkTrain 5 3 ]} in increment "T1" 2 (fst out))
  = PgOk ({[ "T1" := mkTrain 5 3 ]}, Some 3).
Proof.
  apply (decrement_then_increment_restores "T1" 2 {[ "T1" := mkTrain 5 3 ]} (mkTrain 5 3)).
  - reflexivity.
  - unfold seats_within_bounds. cbn. lia.
  - cbn. int4_lia.
  - cbn. lia.
Defined.

(** X5. The other order loses seats: giving [n] seats to a train within
    its bounds that has no room for all of them clamps at [total_seats],
    and taking [n] back then leaves [max 0 (total_seats - n)] seats.  That
    is fewer than the train started with whenever [n <= total_seats] or
    the train had a seat to start with; a train that started with no seat
    and is given more than [total_seats] ends with none again. *)
Theorem increment_then_decrement_loses_clamped_seats
    (row_id : string) (n : Z) (trains : gmap string train) (t : train) :
  trains !! row_id = Some t ->
  seats_within_bounds t ->
  Int4.in_range (available_seats t + n) ->
  total_seats t < available_seats t + n ->
  (let? out := increment row_id n trains in decrement row_id n (fst out))
  = PgOk (<[row_id := set_available (Z.max 0 (total_seats t - n)) t]> trains,
          Z.max 0 (total_seats t - n))
  /\ (n <= total_seats t \/ 0 < available_seats t ->
      Z.max 0 (total_seats t - n) < available_seats t)
  /\ (total_seats t < n -> available_seats t = 0 ->
      Z.max 0 (total_seats t - n) = available_seats t).
Proof.
  intros Hlook [Hlo Hhi] Hrange Hover. split; [|lia].
  rewrite (increment_found row_id n trains t Hlook Hrange).
  rewrite decide_False by lia. cbn [pg_bind fst].
  rewrite (decrement_found row_id n _ (set_available (total_seats t) t)).
  - cbn [available_seats total_seats set_available].
    destruct (decide (n <= total_seats t)) as [Hn|Hn].
    + rewrite Z.max_r by lia. rewrite insert_insert_eq. reflexivity.
    + rewrite Z.max_l by lia. rewrite insert_insert_eq. reflexivity.
  - apply lookup_insert_eq.
  - cbn [available_seats set_available]. int4_lia.
  - lia.
Qed.

Lemma increment_then_decrement_loses_clamped_seats_witness :
  ((let? out := increment "T1" 2 {[ "T1" := mkTrain 5 4 ]} in decrement "T1" 2 (fst out))
   = PgOk (<["T1" := mkTrain 5 3]> {[ "T1" := mkTrain 5 4 ]}, 3)
   /\ 3 < 4)
  /\ ((let? out := increment "T1" 7 {[ "T1" := mkTrain 5 0 ]} in decrement "T1" 7 (fst out))
      = PgOk (<["T1" := mkTrain 5 0]> {[ "T1" := mkTrain 5 0 ]}, 0)
      /\ Z.max 0 (5 - 7) = 0).
Proof.
  split.
  - destruct (increment_then_decrement_loses_clamped_seats "T1" 2
                {[ "T1" := mkTrain 5 4 ]} (mkTrain 5 4)) as (Hrun & Hless & _).
    + reflexivity.
    + unfold seats_within_bounds. cbn. lia.
    + cbn. int4_lia.
    + cbn. lia.
    + split; [exact Hrun|]. apply Hless. left. cbn. lia.
  - destruct (increment_then_decrement_loses_clamped_seats "T1" 7
                {[ "T1" := mkTrain 5 0 ]} (mkTrain 5 0)) as (Hrun & _ & Hsame).
    + reflexivity.
    + unfold seats_within_bounds. cbn. lia.
    + cbn. int4_lia.
    + cbn. lia.
    + split; [exact Hrun|]. apply Hsame; cbn; lia.
Defined.

(** ** What the inventory functions and the booking trigger leave alone *)

Lemma only_available_same_capacity (id : string) (trains trains' : gmap string train) :
  only_available_of id trains trains' -> same_capacity trains trains'.
Proof.
  intros [->|(t & v & Hlook & ->)] i; [reflexivity|].
  rewrite lookup_insert. case_decide as Hi; [|reflexivity].
  subst i. rewrite Hlook. reflexivity.
Qed.

Lemma only_available_elsewhere (id i : string) (trains trains' : gmap string train) :
  only_available_of id trains trains' -> i <> id -> trains' !! i = trains !! i.
Proof.
  intros [->|(t & v & Hlook & ->)] Hne; [reflexivity|].
  apply lookup_insert_ne. congruence.
Qed.

Lemma same_capacity_trans (a b c : gmap string train) :
  same_capacity a b -> same_capacity b c -> same_capacity a c.
Proof. intros Hab Hbc id. rewrite Hbc, Hab. reflexivity. Qed.

Lemma shift_available_only (id : string) (d : Z) (trains trains' : gmap string train) :
  shift_available id d trains = PgOk trains' -> only_available_of id trains trains'.
Proof.
  unfold shift_available. destruct (trains !! id) as [t|] eqn:Hlook.
  - destruct (Int4.add (available_seats t) d) as [v|]; cbn [pg_bind]; [|discriminate].
    intros [= <-]. right. eauto.
  - intros [= <-]. left. reflexivity.
Qed.

Lemma decrement_only (row_id : string) (n : Z) (trains trains' : gmap string train) (r : Z) :
  decrement row_id n trains = PgOk (trains', r) -> only_available_of row_id trains trains'.
Proof.
  unfold decrement. destruct (trains !! row_id) as [t|] eqn:Hlook.
  - cbn zeta. destruct (available_seats t >=? n).
    + destruct (Int4.sub (available_seats t) n) as [v|]; cbn [pg_bind]; [|discriminate].
      intros [= <- <-]. right. eauto.
    + intros [= <- <-]. right. eauto.
  - intros [= <- <-]. left. reflexivity.
Qed.

Lemma increment_only (row_id : string) (n : Z) (trains trains' : gmap string train)
    (r : option Z) :
  increment row_id n trains = PgOk (trains', r) -> only_available_of row_id trains trains'.
Proof.
  unfold increment. destruct (trains !! row_id) as [t|] eqn:Hlook.
  - cbn zeta. destruct (Int4.add (available_seats t) n) as [v|]; cbn [pg_bind]; [|discriminate].
    destruct (v <=? total_seats t).
    + intros [= <- <-]. right. eauto.
    + intros [= <- <-]. right. eauto.
  - intros [= <- <-]. left. reflexivity.
Qed.

Lemma update_train_seats_only (op : tg booking) (trains trains' : gmap string train) :
  update_train_seats op trains = PgOk trains' ->
  only_available_of (train_id (tg_new op)) trains trains'.
Proof.
  destruct op as [NEW|OLD NEW]; cbn [update_train_seats tg_new].
  - destruct (is_Confirmed (booking_status NEW)).
    + apply shift_available_only.
    + intros [= <-]. left. reflexivity.
  - destruct (negb (is_Confirmed (booking_status OLD)) && is_Confirmed (booking_status NEW)).
    + apply shift_available_only.
    + destruct (is_Confirmed (booking_status OLD) && is_Cancelled (booking_status NEW)).
      * apply shift_available_only.
      * intros [= <-]. left. reflexivity.
Qed.

(** X6. Whatever booking writes the trigger sees, it creates and deletes no
    train, never changes a [total_seats], and leaves every train alone
    that is not the [train_id] of the new image of one of the writes. *)
Theorem booking_writes_keep_capacity
    (ops : list (tg booking)) (trains trains' : gmap string train) :
  fire_booking_writes ops trains = PgOk trains' ->
  same_capacity trains trains'
  /\ (forall id, Forall (fun op => train_id (tg_new op) <> id) ops ->
        trains' !! id = trains !! id).
Proof.
  revert trains. induction ops as [|op rest IH]; intros trains; cbn [fire_booking_writes].
  - intros [= <-]. split; [intros id; reflexivity | reflexivity].
  - destruct (update_train_seats op trains) as [trains1|] eqn:Hop; cbn [pg_bind];
      [|discriminate].
    intros Hrest. apply update_train_seats_only in Hop.
    apply IH in Hrest as [Hcap Hframe]. split.
    + eapply same_capacity_trans; [|exact Hcap].
      eapply only_available_same_capacity, Hop.
    + intros id Hall. apply Forall_cons in Hall as [Hne Hall].
      rewrite (Hframe id Hall).
      eapply only_available_elsewhere; [exact Hop | congruence].
Qed.

Lemma booking_writes_keep_capacity_witness :
  same_capacity
    ({[ "T1" := mkTrain 2 2 ]} : gmap string train)
    (<["T1" := mkTrain 2 1]> {[ "T1" := mkTrain 2 2 ]}).
Proof.
  apply (booking_writes_keep_capacity
           (row_history (sample_booking "B1" "Confirmed")
              [sample_booking "B1" "Confirmed"; sample_booking "B1" "Pending";
               sample_booking "B1" "Confirmed"; sample_booking "B1" "Cancelled";
               sample_booking "B1" "Cancelled"])
           {[ "T1" := mkTrain 2 2 ]}).
  reflexivity.
Defined.

Lemma call_ledger_only (c : ledger_call) (trains trains' : gmap string train) :
  call_ledger c trains = PgOk trains' ->
  exists id, only_available_of id trains trains'.
Proof.
  destruct c as [id n|id n]; cbn [call_ledger].
  - destruct (decrement id n trains) as [[tr r]|] eqn:Hdec; cbn [pg_bind]; [|discriminate].
    intros [= <-]. exists id. eapply decrement_only, Hdec.
  - destruct (increment id n trains) as [[tr r]|] eqn:Hinc; cbn [pg_bind]; [|discriminate].
    intros [= <-]. exists id. eapply increment_only, Hinc.
Qed.

Lemma call_ledger_keeps_bounds (c : ledger_call) (trains trains' : gmap string train) :
  0 <= call_value c ->
  map_Forall (fun _ t => seats_within_bounds t) trains ->
  call_ledger c trains = PgOk trains' ->
  map_Forall (fun _ t => seats_within_bounds t) trains'.
Proof.
  intros Hn Hinv. destruct c as [id n|id n]; cbn [call_ledger call_value] in *.
  - destruct (decrement id n trains) as [[tr r]|] eqn:Hdec; cbn [pg_bind]; [|discriminate].
    intros [= <-] i t' Hi. eapply (decrement_keeps_bounds id i n trains); eauto.
  - destruct (increment id n trains) as [[tr r]|] eqn:Hinc; cbn [pg_bind]; [|discriminate].
    intros [= <-] i t' Hi. eapply (increment_keeps_bounds id i n trains); eauto.
Qed.

(** X7. Any sequence of [decrement] and [increment] calls with non-negative
    values that runs through keeps every train within
    [0 <= available_seats <= total_seats], and changes no [total_seats]
    and no set of train ids. *)
Theorem ledger_calls_keep_bounds
    (cs : list ledger_call) (trains trains' : gmap string train) :
  Forall (fun c => 0 <= call_value c) cs ->
  map_Forall (fun _ t => seats_within_bounds t) trains ->
  call_ledger_all cs trains = PgOk trains' ->
  map_Forall (fun _ t => seats_within_bounds t) trains'
  /\ same_capacity trains trains'.
Proof.
  intros Hcs. revert trains.
  induction Hcs as [|c rest Hc _ IH]; intros trains Hinv; cbn [call_ledger_all].
  - intros [= <-]. split; [assumption | intros id; reflexivity].
  - destruct (call_ledger c trains) as [trains1|] eqn:Hcall; cbn [pg_bind]; [|discriminate].
    intros Hrest.
    pose proof (call_ledger_keeps_bounds c trains trains1 Hc Hinv Hcall) as Hinv1.
    apply call_ledger_only in Hcall as [id Honly].
    destruct (IH trains1 Hinv1 Hrest) as [Hb Hcap]. split; [assumption|].
    eapply same_capacity_trans; [|exact Hcap].
    eapply only_available_same_capacity, Honly.
Qed.

Lemma ledger_calls_keep_bounds_witness :
  map_Forall (fun _ t => seats_within_bounds t)
    (<["T1" := mkTrain 2 1]> (<["T1" := mkTrain 2 2]> (<["T1" := mkTrain 2 0]>
       ({[ "T1" := mkTrain 2 1 ]} : gmap string train))))
  /\ same_capacity
       ({[ "T1" := mkTrain 2 1 ]} : gmap string train)
       (<["T1" := mkTrain 2 1]> (<["T1" := mkTrain 2 2]> (<["T1" := mkTrain 2 0]>
          {[ "T1" := mkTrain 2 1 ]}))).
Proof.
  apply (ledger_calls_keep_bounds
           [Decrement "T1" 5; Increment "T1" 7; Decrement "T1" 1; Increment "NOPE" 1]
           {[ "T1" := mkTrain 2 1 ]}).
  - repeat constructor; cbn; lia.
  - apply map_Forall_singleton. unfold seats_within_bounds. cbn. lia.
  - reflexivity.
Defined.

(** ** The revenue ledger over histories of writes *)

Lemma accrue_one_balance (a v : Q) (admins : list admin) :
  one_balance admins v ->
  one_balance
    match admins with
    | _ :: _ => map (accrue_revenue a) admins
    | [] => [mkAdmin "admin" "admin123" (Some a)]
    end (v + a).
Proof.
  intros (r & w & -> & Hrev & Hw). cbn.
  exists (accrue_revenue a r), (w + a)%Q. split; [reflexivity|].
  unfold accrue_revenue. cbn. rewrite Hrev. cbn. split; [reflexivity|].
  rewrite Hw. reflexivity.
Qed.

Lemma reverse_one_balance (a v : Q) (admins : list admin) :
  (a <= v)%Q ->
  one_balance admins v ->
  one_balance (map (reverse_revenue a) admins) (v - a).
Proof.
  intros Hle (r & w & -> & Hrev & Hw). cbn.
  unfold reverse_revenue. rewrite Hrev.
  assert (Hguard : Qle_bool a w = true) by (apply Qle_bool_iff; rewrite Hw; exact Hle).
  rewrite Hguard. eexists _, (w - a)%Q. split; [reflexivity|]. cbn.
  split; [reflexivity|]. rewrite Hw. reflexivity.
Qed.

Lemma one_balance_eq (admins : list admin) (v v' : Q) :
  (v == v')%Q -> one_balance admins v -> one_balance admins v'.
Proof.
  intros Heq (r & w & -> & Hrev & Hw). exists r, w. repeat split; try assumption.
  rewrite Hw. exact Heq.
Qed.

Lemma last_after_cons {A} (x d : A) (l : list A) :
  List.last (x :: l) d = List.last l x.
Proof.
  revert x d. induction l as [|y l IH]; intros x d; [reflexivity|].
  change (List.last (x :: y :: l) d) with (List.last (y :: l) d).
  rewrite !IH. reflexivity.
Qed.

Lemma payment_updates_count_once (a v : Q) (images : list payment) :
  (0 <= a)%Q -> (0 <= v)%Q ->
  Forall (fun p => amount p = a) images ->
  forall (OLD : payment) (admins : list admin),
  amount OLD = a ->
  one_balance admins (v + counted a OLD) ->
  one_balance
    (fire_revenue_writes (map PaymentWrite (updates_of OLD images)) admins)
    (v + counted a (List.last images OLD)).
Proof.
  intros Ha Hv Hall. induction Hall as [|NEW rest Hnew _ IH]; intros OLD admins Hold Hbal.
  - exact Hbal.
  - cbn [updates_of map fire_revenue_writes fold_left fire_revenue_write].
    change (fold_left fire_revenue_write (map PaymentWrite (updates_of NEW rest)) ?x)
      with (fire_revenue_writes (map PaymentWrite (updates_of NEW rest)) x).
    rewrite last_after_cons.
    apply (IH NEW); [exact Hnew|].
    unfold update_revenue_on_payment, counted in *. rewrite Hold, Hnew.
    destruct (is_Successful (status NEW)), (is_Successful (status OLD)); cbn [andb negb].
    + exact Hbal.
    + eapply one_balance_eq; [|apply (accrue_one_balance a), Hbal]. lra.
    + eapply one_balance_eq; [|apply (reverse_one_balance a); [|exact Hbal]]; lra.
    + exact Hbal.
Qed.

(** X8. No revenue is counted twice.  Over the history of one payment row of
    constant amount [a >= 0], however often its status is rewritten, a
    single admin row that started at [v >= 0] ends at [v + a] when the
    payment ends Successful and back at [v] when it does not. *)
Theorem payment_counted_once
    (a v : Q) (inserted : payment) (images : list payment) (admins : list admin) :
  (0 <= a)%Q -> (0 <= v)%Q ->
  Forall (fun p => amount p = a) (inserted :: images) ->
  one_balance admins v ->
  one_balance
    (fire_revenue_writes (map PaymentWrite (history_of inserted images)) admins)
    (v + counted a (List.last images inserted)).
Proof.
  intros Ha Hv Hall Hbal. apply Forall_cons in Hall as [Hins Hall].
  unfold history_of. cbn [map fire_revenue_writes fold_left fire_revenue_write].
  change (fold_left fire_revenue_write (map PaymentWrite (updates_of inserted images)) ?x)
    with (fire_revenue_writes (map PaymentWrite (updates_of inserted images)) x).
  apply (payment_updates_count_once a v images Ha Hv Hall inserted); [exact Hins|].
  unfold update_revenue_on_payment, counted. rewrite Hins.
  destruct (is_Successful (status inserted)).
  - apply accrue_one_balance, Hbal.
  - eapply one_balance_eq; [|exact Hbal]. lra.
Qed.

Lemma payment_counted_once_witness :
  one_balance
    (fire_revenue_writes
       (map PaymentWrite
          (history_of (mkPayment "B1" 700 "UPI" "Pending")
             [mkPayment "B1" 700 "UPI" "Successful"; mkPayment "B1" 700 "Card" "Successful";
              mkPayment "B1" 700 "Card" "Failed"; mkPayment "B1" 700 "Card" "Successful"]))
       [mkAdmin "admin" "admin123" (Some 1000%Q)])
    (1000 + 700).
Proof.
  apply (payment_counted_once 700 1000 (mkPayment "B1" 700 "UPI" "Pending")
           [mkPayment "B1" 700 "UPI" "Successful"; mkPayment "B1" 700 "Card" "Successful";
            mkPayment "B1" 700 "Card" "Failed"; mkPayment "B1" 700 "Card" "Successful"]
           [mkAdmin "admin" "admin123" (Some 1000%Q)]).
  - discriminate.
  - discriminate.
  - repeat constructor.
  - exists (mkAdmin "admin" "admin123" (Some 1000%Q)), 1000%Q.
    repeat split; reflexivity.
Defined.

Lemma accrue_null (a : Q) (r : admin) : total_revenue r = None -> accrue_revenue a r = r.
Proof. destruct r as [u p tr]. cbn. intros ->. reflexivity. Qed.

Lemma reverse_null (a : Q) (r : admin) : total_revenue r = None -> reverse_revenue a r = r.
Proof. unfold reverse_revenue. intros ->. reflexivity. Qed.

Lemma map_id_on {A} (f : A -> A) (P : A -> Prop) (l : list A) :
  (forall x, P x -> f x = x) -> Forall P l -> map f l = l.
Proof.
  intros Hf. induction 1 as [|x rest Hx _ IH]; cbn; [reflexivity|].
  rewrite (Hf x Hx), IH. reflexivity.
Qed.

Lemma fire_revenue_write_null (w : revenue_write) (admins : list admin) :
  admins <> [] ->
  Forall (fun r => total_revenue r = None) admins ->
  fire_revenue_write admins w = admins.
Proof.
  intros Hne Hnull.
  assert (Hacc : forall a, match admins with
                           | _ :: _ => map (accrue_revenue a) admins
                           | [] => [mkAdmin "admin" "admin123" (Some a)]
                           end = admins).
  { intros a. destruct admins as [|r rest]; [congruence|].
    apply (map_id_on _ _ _ (accrue_null a) Hnull). }
  assert (Hrev : forall a, map (reverse_revenue a) admins = admins)
    by (intros a; apply (map_id_on _ _ _ (reverse_null a) Hnull)).
  destruct w as [[NEW|OLD NEW]|[NEW|OLD NEW]]; cbn.
  - destruct (is_Successful (status NEW)); [apply Hacc | reflexivity].
  - destruct (is_Successful (status NEW)), (is_Successful (status OLD)); cbn;
      try reflexivity; [apply Hacc | apply Hrev].
  - destruct (is_Processed (cancellation_status NEW)); [apply Hrev | reflexivity].
  - reflexivity.
Qed.

(** X9. A NULL balance is never repaired: when the admin rows all hold a NULL
    [total_revenue], every payment and cancellation write leaves the
    admin table exactly as it is, whatever is paid. *)
Theorem null_revenue_absorbs_every_write (ws : list revenue_write) (admins : list admin) :
  admins <> [] ->
  Forall (fun r => total_revenue r = None) admins ->
  fire_revenue_writes ws admins = admins.
Proof.
  intros Hne Hnull. unfold fire_revenue_writes.
  induction ws as [|w rest IH]; cbn [fold_left]; [reflexivity|].
  rewrite (fire_revenue_write_null w admins Hne Hnull). exact IH.
Qed.

Lemma null_revenue_absorbs_every_write_witness :
  fire_revenue_writes
    [PaymentWrite (TG_INSERT (mkPayment "B1" 1000 "UPI" "Successful"));
     CancellationWrite (TG_INSERT (mkCancellation "B1" 900 "Processed"))]
    [mkAdmin "root" "pw" None]
  = [mkAdmin "root" "pw" None].
Proof.
  apply (null_revenue_absorbs_every_write
           [PaymentWrite (TG_INSERT (mkPayment "B1" 1000 "UPI" "Successful"));
            CancellationWrite (TG_INSERT (mkCancellation "B1" 900 "Processed"))]
           [mkAdmin "root" "pw" None]).
  - discriminate.
  - repeat constructor.
Defined.

Lemma fire_revenue_write_accounts (w : revenue_write) (admins : list admin) :
  admins <> [] ->
  map username (fire_revenue_write admins w) = map username admins
  /\ map password (fire_revenue_write admins w) = map password admins.
Proof.
  intros Hne.
  assert (Hacc : forall a,
            map username (map (accrue_revenue a) admins) = map username admins
            /\ map password (map (accrue_revenue a) admins) = map password admins)
    by (intros a; rewrite !map_map; split; apply map_ext; reflexivity).
  assert (Hrev : forall a,
            map username (map (reverse_revenue a) admins) = map username admins
            /\ map password (map (reverse_revenue a) admins) = map password admins).
  { intros a; rewrite !map_map; split; apply map_ext; intros r;
      unfold reverse_revenue; destruct (total_revenue r) as [v|]; try reflexivity;
      destruct (Qle_bool a v); reflexivity. }
  destruct admins as [|r0 rest]; [congruence|].
  destruct w as [[NEW|OLD NEW]|[NEW|OLD NEW]]; cbn [fire_revenue_write
    update_revenue_on_payment update_revenue_on_refund].
  - destruct (is_Successful (status NEW)); [apply Hacc | split; reflexivity].
  - destruct (is_Successful (status NEW)), (is_Successful (status OLD)); cbn [andb negb];
      try (split; reflexivity); [apply Hacc | apply Hrev].
  - destruct (is_Processed (cancellation_status NEW)); [apply Hrev | split; reflexivity].
  - split; reflexivity.
Qed.

(** X10. The revenue triggers create an admin row only when there is none, and
    then exactly one: an admin table with rows keeps its accounts (same
    usernames and passwords, row for row), and an empty one holds at most
    one row afterwards.  So [.single()] in [getAdminData] never starts to
    fail because of a write. *)
Theorem revenue_writes_keep_admin_rows (ws : list revenue_write) (admins : list admin) :
  (admins <> [] ->
   map username (fire_revenue_writes ws admins) = map username admins
   /\ map password (fire_revenue_writes ws admins) = map password admins)
  /\ (admins = [] -> (length (fire_revenue_writes ws admins) <= 1)%nat).
Proof.
  assert (Hkeep : forall ws admins, admins <> [] ->
            map username (fire_revenue_writes ws admins) = map username admins
            /\ map password (fire_revenue_writes ws admins) = map password admins).
  { clear. intros ws. unfold fire_revenue_writes.
    induction ws as [|w rest IH]; intros admins Hne; cbn [fold_left];
      [split; reflexivity|].
    destruct (fire_revenue_write_accounts w admins Hne) as [Hu Hp].
    assert (Hne' : fire_revenue_write admins w <> []).
    { intros Hnil. rewrite Hnil in Hu. destruct admins; [congruence | discriminate]. }
    destruct (IH _ Hne') as [Hu' Hp']. rewrite Hu', Hp'. split; assumption. }
  split; [apply Hkeep|].
  intros ->. unfold fire_revenue_writes.
  induction ws as [|w rest IH]; cbn [fold_left]; [cbn; lia|].
  destruct (fire_revenue_write [] w) as [|r l] eqn:Hw; [exact IH|].
  assert (Hl : l = []).
  { destruct w as [[NEW|OLD NEW]|[NEW|OLD NEW]]; cbn in Hw.
    - destruct (is_Successful (status NEW)); [|discriminate]. congruence.
    - destruct (is_Successful (status NEW)), (is_Successful (status OLD)); cbn in Hw;
        try discriminate. congruence.
    - destruct (is_Processed (cancellation_status NEW)); discriminate.
    - discriminate. }
  subst l.
  destruct (Hkeep rest [r]) as [Hu _]; [discriminate|].
  apply (f_equal (@length _)) in Hu. rewrite !length_map in Hu.
  change (fold_left fire_revenue_write rest [r]) with (fire_revenue_writes rest [r]).
  rewrite Hu. cbn. lia.
Qed.

Lemma revenue_writes_keep_admin_rows_witness :
  (length
     (fire_revenue_writes
        [PaymentWrite (TG_INSERT (mkPayment "B1" 1000 "UPI" "Successful"));
         PaymentWrite (TG_INSERT (mkPayment "B2" 500 "UPI" "Successful"))] []) <= 1)%nat.
Proof.
  apply (proj2 (revenue_writes_keep_admin_rows
                  [PaymentWrite (TG_INSERT (mkPayment "B1" 1000 "UPI" "Successful"));
                   PaymentWrite (TG_INSERT (mkPayment "B2" 500 "UPI" "Successful"))] [])).
  reflexivity.
Defined.

(** X11. The order of a refund and a payment matters.  A refund larger than
    the balance is dropped for good if it is written first, but taken off
    if the payment that covers it is written first. *)
Theorem refund_before_payment_is_dropped (v a b : Q) (r : admin) (p q : string) :
  total_revenue r = Some v ->
  (v < a)%Q -> (a <= v + b)%Q ->
  map total_revenue
    (fire_revenue_writes
       [CancellationWrite (TG_INSERT (mkCancellation p a "Processed"));
        PaymentWrite (TG_INSERT (mkPayment q b "UPI" "Successful"))] [r])
  = [Some (v + b)%Q]
  /\ map total_revenue
       (fire_revenue_writes
          [PaymentWrite (TG_INSERT (mkPayment q b "UPI" "Successful"));
           CancellationWrite (TG_INSERT (mkCancellation p a "Processed"))] [r])
     = [Some (v + b - a)%Q].
Proof.
  intros Hrev Hlt Hle.
  assert (H1 : Qle_bool a v = false).
  { destruct (Qle_bool a v) eqn:Hg; [|reflexivity]. apply Qle_bool_iff in Hg. lra. }
  assert (H2 : Qle_bool a (v + b) = true) by (apply Qle_bool_iff; exact Hle).
  unfold fire_revenue_writes.
  cbn [fold_left fire_revenue_write update_revenue_on_refund update_revenue_on_payment
       cancellation_status refund_amount status amount].
  change (is_Processed "Processed") with true.
  change (is_Successful "Successful") with true.
  cbn [map]. unfold reverse_revenue, accrue_revenue.
  cbn [total_revenue username password option_map].
  rewrite Hrev. cbn [option_map]. rewrite H1, H2. cbn [total_revenue].
  rewrite Hrev. split; reflexivity.
Qed.

Lemma refund_before_payment_is_dropped_witness :
  map total_revenue
    (fire_revenue_writes
       [CancellationWrite (TG_INSERT (mkCancellation "B1" 900 "Processed"));
        PaymentWrite (TG_INSERT (mkPayment "B1" 1000 "UPI" "Successful"))]
       [mkAdmin "admin" "admin123" (Some 0%Q)])
  = [Some (0 + 1000)%Q]
  /\ map total_revenue
       (fire_revenue_writes
          [PaymentWrite (TG_INSERT (mkPayment "B1" 1000 "UPI" "Successful"));
           CancellationWrite (TG_INSERT (mkCancellation "B1" 900 "Processed"))]
          [mkAdmin "admin" "admin123" (Some 0%Q)])
     = [Some (0 + 1000 - 900)%Q].
Proof.
  apply (refund_before_payment_is_dropped 0 900 1000
           (mkAdmin "admin" "admin123" (Some 0%Q)) "B1" "B1").
  - reflexivity.
  - reflexivity.
  - discriminate.
Defined.

(** ** [createBooking]: every way it can end *)

Lemma bind_inv {A B} (m : M A) (k : A -> M B) (rho : env) (st st' : state) (o : outcome B) :
  bind m k rho st = (o, st') ->
  (exists a st1, m rho st = (Resolved a, st1) /\ k a rho st1 = (o, st'))
  \/ (exists e, m rho st = (Rejected e, st') /\ o = Rejected e).
Proof.
  unfold bind. destruct (m rho st) as [[a|e] st1].
  - intros Hk. left. eauto.
  - intros [= <- <-]. right. eauto.
Qed.

Lemma request_resolves {A} (stmt : string -> db -> pg_result (db * A))
    (rho : env) (st st' : state) (e : js_error) :
  request stmt rho st <> (Rejected e, st').
Proof.
  unfold request. destruct (fault_at rho (requests st)); [discriminate|].
  destruct (stmt (key_at rho (requests st)) (store st)) as [[d a]|msg]; discriminate.
Qed.

Lemma with_passengers_nil (d : db) : with_passengers d [] = d.
Proof. destruct d. unfold with_passengers. cbn. rewrite app_nil_r. reflexivity. Qed.

Lemma with_bookings_nil (d : db) : with_bookings d (train_tbl d) [] = d.
Proof. destruct d. unfold with_bookings. cbn. rewrite app_nil_r. reflexivity. Qed.

Lemma insert_passengers_any (ps : list passenger_details) :
  forall (ids : list string) (rho : env) (st st' : state) (o : outcome (list string)),
  insert_passengers ps ids rho st = (o, st') ->
  exists rows,
    store st' = with_passengers (store st) rows
    /\ toasts st' = toasts st
    /\ match o with
       | Resolved ids' =>
           map details_of rows = ps /\ ids' = (ids ++ map p_passenger_id rows)%list
       | Rejected _ =>
           (length rows < length ps)%nat
           /\ map details_of rows = take (length rows) ps
       end.
Proof.
  induction ps as [|p rest IH]; intros ids rho st st' o; cbn [insert_passengers].
  - intros [= <- <-]. exists []. rewrite with_passengers_nil. cbn.
    rewrite app_nil_r. repeat split.
  - intros Hrun. apply bind_inv in Hrun as [(resp & st1 & Hreq & Hrest)|(e & Hreq & _)];
      [|exfalso; exact (request_resolves _ _ _ _ _ Hreq)].
    apply request_inv in Hreq as (_ & Htoast & r & [= <-] & Hstmt).
    destruct resp as [id|e].
    + unfold returning_key, insert_passenger in Hstmt. cbn in Hstmt.
      injection Hstmt as Hstore Hid.
      apply IH in Hrest as (rows & Hst' & Htoast' & Ho).
      exists (mkPassenger id (d_name p) (d_age p) (d_gender p) (d_contact p) :: rows).
      split; [|split; [congruence|]].
      * rewrite Hst', <- Hstore. unfold with_passengers. cbn.
        rewrite Hid, <- app_assoc. reflexivity.
      * destruct o as [ids'|e].
        -- destruct Ho as [Hdet Hids]. split.
           ++ cbn [map]. unfold details_of at 1. cbn. rewrite Hdet. destruct p. reflexivity.
           ++ rewrite Hids. cbn. rewrite <- app_assoc. reflexivity.
        -- destruct Ho as [Hlen Hdet]. split; [cbn; lia|].
           cbn [map length take]. unfold details_of at 1. cbn. rewrite Hdet.
           destruct p. reflexivity.
    + injection Hrest as <- <-. exists []. rewrite with_passengers_nil.
      split; [exact Hstmt|]. split; [exact Htoast|]. cbn. split; [lia|reflexivity].
Qed.

Lemma resolve_fare_any (bd : bookingData) (rho : env) (st st' : state) (o : outcome string) :
  resolve_fare bd rho st = (o, st') ->
  store st' = store st /\ toasts st' = toasts st.
Proof.
  unfold resolve_fare. intros Hrun.
  apply bind_inv in Hrun as [(resp & st1 & Hreq & Hrest)|(e & Hreq & _)];
    [|exfalso; exact (request_resolves _ _ _ _ _ Hreq)].
  apply request_inv in Hreq as (_ & Htoast & r & [= <-] & Hstmt).
  destruct resp as [id|e].
  - injection Hrest as <- <-. unfold reading in Hstmt.
    destruct (select_fare_of_class (trainId bd) (fareClass bd) (store st));
      cbn in Hstmt; [|discriminate].
    injection Hstmt as Hstore _. split; congruence.
  - apply bind_inv in Hrest as [(resp' & st2 & Hreq' & Hrest')|(e' & Hreq' & _)];
      [|exfalso; exact (request_resolves _ _ _ _ _ Hreq')].
    apply request_inv in Hreq' as (_ & Htoast' & r' & [= <-] & Hstmt').
    destruct resp' as [id|e'].
    + injection Hrest' as <- <-. unfold reading in Hstmt'.
      destruct (select_any_fare (trainId bd) (store st1)); cbn in Hstmt'; [|discriminate].
      injection Hstmt' as Hstore _. split; congruence.
    + injection Hrest' as <- <-. split; congruence.
Qed.

Lemma insert_bookings_any (bd : bookingData) (fareId : string) (ids : list string) :
  forall (i : nat) (acc : list string * string) (rho : env) (st st' : state)
         (o : outcome (list string * string)),
  insert_bookings bd fareId ids i acc rho st = (o, st') ->
  exists rows,
    store st' = with_bookings (store st) (train_tbl (store st')) rows
    /\ toasts st' = toasts st
    /\ Forall (booked_for bd fareId) rows
    /\ fire_booking_writes (map TG_INSERT rows) (train_tbl (store st))
       = PgOk (train_tbl (store st'))
    /\ match o with
       | Resolved out =>
           map passenger_id rows = ids
           /\ snd out = match i, rows with
                        | O, b :: _ => pnr b
                        | _, _ => snd acc
                        end
       | Rejected _ =>
           (length rows < length ids)%nat
           /\ map passenger_id rows = take (length rows) ids
       end.
Proof.
  induction ids as [|id rest IH]; intros i acc rho st st' o; cbn [insert_bookings].
  - intros [= <- <-]. exists []. rewrite with_bookings_nil. cbn.
    repeat split; [constructor | destruct i; reflexivity].
  - intros Hrun.
    apply bind_inv in Hrun as [(rnd & st0 & Hrnd & Hrun)|(e & Hrnd & _)];
      [|discriminate].
    injection Hrnd as _ <-.
    apply bind_inv in Hrun as [(resp & st1 & Hreq & Hrest)|(e & Hreq & _)];
      [|exfalso; exact (request_resolves _ _ _ _ _ Hreq)].
    apply request_inv in Hreq as (_ & Htoast & r & [= <-] & Hstmt).
    destruct resp as [p|e].
    + unfold returning_key, insert_booking in Hstmt.
      destruct (update_train_seats
                  (TG_INSERT (mkBooking (key_at rho (requests st)) id (trainId bd) fareId
                                (fareClass bd) (seat_label (fareClass bd) rnd) "Confirmed"))
                  (train_tbl (store st))) as [trains1|] eqn:Htrig;
        cbn in Hstmt; [|discriminate].
      injection Hstmt as Hstore Hp.
      apply IH in Hrest as (rows & Hst' & Htoast' & Hall & Hfire & Ho).
      exists (mkBooking p id (trainId bd) fareId (fareClass bd)
                (seat_label (fareClass bd) rnd) "Confirmed" :: rows).
      split; [|split; [congruence|split; [|split]]].
      * rewrite Hst', <- Hstore. unfold with_bookings. cbn.
        rewrite Hp, <- app_assoc. reflexivity.
      * constructor; [repeat split | exact Hall].
      * cbn [map fire_booking_writes]. rewrite <- Hp, Htrig. cbn [pg_bind].
        rewrite <- Hfire, <- Hstore. reflexivity.
      * destruct o as [out|e].
        -- destruct Ho as [Hids Hsnd]. cbn [map passenger_id pnr]. split; [congruence|].
           rewrite Hsnd. destruct i; cbn; reflexivity.
        -- destruct Ho as [Hlen Hids]. split; [cbn; lia|].
           cbn [map length take passenger_id]. rewrite Hids. reflexivity.
    + injection Hrest as <- <-. exists []. rewrite Hstmt, with_bookings_nil.
      split; [reflexivity|]. split; [exact Htoast|].
      split; [constructor|]. split; [reflexivity|].
      cbn. split; [lia|reflexivity].
Qed.

Lemma check_ok_eq (z v : Z) : Int4.check z = PgOk v -> v = z.
Proof. unfold Int4.check. destruct (Int4.in_rangeb z); congruence. Qed.

Lemma seats_taken_zero (id : string) (trains : gmap string train) :
  seats_taken id 0 trains = trains.
Proof.
  unfold seats_taken. destruct (trains !! id) as [t|] eqn:Hlook; [|reflexivity].
  change (Z.of_nat 0) with 0.
  replace (available_seats t - 0) with (available_seats t) by lia.
  rewrite set_available_same, insert_id by assumption. reflexivity.
Qed.

Lemma confirmed_inserts_take_seats (bd : bookingData) (fareId : string) (rows : list booking) :
  Forall (booked_for bd fareId) rows ->
  forall trains trains' : gmap string train,
  fire_booking_writes (map TG_INSERT rows) trains = PgOk trains' ->
  trains' = seats_taken (trainId bd) (length rows) trains.
Proof.
  induction 1 as [|b rest Hb _ IH]; intros trains trains'; cbn [map fire_booking_writes length].
  - intros [= <-]. rewrite seats_taken_zero. reflexivity.
  - unfold seats_taken in *. destruct Hb as (_ & Htrain & _ & Hstatus).
    cbn [update_train_seats]. rewrite Hstatus, Htrain.
    change (is_Confirmed "Confirmed") with true. cbn iota.
    unfold shift_available. destruct (trains !! trainId bd) as [t|] eqn:Hlook.
    + unfold Int4.add.
      destruct (Int4.check (available_seats t + -1)) as [v|] eqn:Hcheck;
        cbn [pg_bind]; [|discriminate].
      apply check_ok_eq in Hcheck. subst v. intros Hrest.
      apply IH in Hrest. rewrite lookup_insert_eq in Hrest. rewrite Hrest.
      rewrite insert_insert_eq, set_available_twice. cbn [available_seats set_available].
      rewrite Nat2Z.inj_succ.
      replace (available_seats t + -1 - Z.of_nat (length rest))
        with (available_seats t - Z.succ (Z.of_nat (length rest))) by lia.
      reflexivity.
    + cbn [pg_bind]. intros Hrest. apply IH in Hrest. rewrite Hlook in Hrest. exact Hrest.
Qed.

Lemma createBooking_inv (bd : bookingData) (rho : env) (st st' : state) (o : outcome string) :
  createBooking bd rho st = (o, st') ->
  exists (ps : list passenger) (bs : list booking) (fareId : string),
    passenger_tbl (store st') = (passenger_tbl (store st) ++ ps)%list
    /\ booking_tbl (store st') = (booking_tbl (store st) ++ bs)%list
    /\ Forall (booked_for bd fareId) bs
    /\ train_tbl (store st') = seats_taken (trainId bd) (length bs) (train_tbl (store st))
    /\ fare_tbl (store st') = fare_tbl (store st)
    /\ cancellation_tbl (store st') = cancellation_tbl (store st)
    /\ match o with
       | Resolved result =>
           map details_of ps = passengerData bd
           /\ map passenger_id bs = map p_passenger_id ps
           /\ result = hd "" (map pnr bs)
           /\ payment_tbl (store st') = (payment_tbl (store st) ++ [payment_of bd result])%list
           /\ admin_tbl (store st')
              = update_revenue_on_payment (TG_INSERT (payment_of bd result))
                  (admin_tbl (store st))
           /\ toasts st' = toasts st
       | Rejected e =>
           map details_of ps = take (length ps) (passengerData bd)
           /\ (length ps <= length (passengerData bd))%nat
           /\ (length bs <= length ps)%nat
           /\ (bs <> [] -> length ps = length (passengerData bd))
           /\ payment_tbl (store st') = payment_tbl (store st)
           /\ admin_tbl (store st') = admin_tbl (store st)
           /\ toasts st'
              = (toasts st ++ [toast_error ("Failed to create booking: " +:+ message e)])%list
       end.
Proof.
  unfold createBooking, try_catch. intros Hrun.
  match type of Hrun with
  | (match ?m with _ => _ end) = _ => destruct m as [o0 s5] eqn:Hbody
  end.
  assert (Hinner : exists (ps : list passenger) (bs : list booking) (fareId : string),
    passenger_tbl (store s5) = (passenger_tbl (store st) ++ ps)%list
    /\ booking_tbl (store s5) = (booking_tbl (store st) ++ bs)%list
    /\ Forall (booked_for bd fareId) bs
    /\ train_tbl (store s5) = seats_taken (trainId bd) (length bs) (train_tbl (store st))
    /\ fare_tbl (store s5) = fare_tbl (store st)
    /\ cancellation_tbl (store s5) = cancellation_tbl (store st)
    /\ toasts s5 = toasts st
    /\ match o0 with
       | Resolved result =>
           map details_of ps = passengerData bd
           /\ map passenger_id bs = map p_passenger_id ps
           /\ result = hd "" (map pnr bs)
           /\ payment_tbl (store s5) = (payment_tbl (store st) ++ [payment_of bd result])%list
           /\ admin_tbl (store s5)
              = update_revenue_on_payment (TG_INSERT (payment_of bd result))
                  (admin_tbl (store st))
       | Rejected e =>
           map details_of ps = take (length ps) (passengerData bd)
           /\ (length ps <= length (passengerData bd))%nat
           /\ (length bs <= length ps)%nat
           /\ (bs <> [] -> length ps = length (passengerData bd))
           /\ payment_tbl (store s5) = payment_tbl (store st)
           /\ admin_tbl (store s5) = admin_tbl (store st)
       end).
  { clear Hrun.
    apply bind_inv in Hbody as [(ids & s1 & Hpass & Hbody)|(e & Hpass & ->)].
    2:{ apply insert_passengers_any in Hpass as (ps & Hs1 & Ht1 & Hlen & Hdet).
        exists ps, [], "". rewrite Hs1. cbn [length]. rewrite seats_taken_zero.
        unfold with_passengers. cbn. rewrite app_nil_r.
        repeat split; try assumption; try constructor; try lia; congruence. }
    apply insert_passengers_any in Hpass as (ps & Hs1 & Ht1 & Hdet & Hids).
    cbn in Hids. subst ids.
    assert (Hpslen : length ps = length (passengerData bd))
      by (rewrite <- Hdet, length_map; reflexivity).
    assert (Htake : take (length ps) (passengerData bd) = passengerData bd)
      by (apply take_ge; lia).
    apply bind_inv in Hbody as [(fareId & s2 & Hfare & Hbody)|(e & Hfare & ->)].
    2:{ apply resolve_fare_any in Hfare as (Hs2 & Ht2).
        exists ps, [], "". rewrite Hs2, Hs1. cbn [length]. rewrite seats_taken_zero.
        unfold with_passengers. cbn. rewrite app_nil_r, Htake.
        repeat split; try constructor; try lia; congruence. }
    apply resolve_fare_any in Hfare as (Hs2 & Ht2).
    apply bind_inv in Hbody as [(out & s3 & Hbook & Hbody)|(e & Hbook & ->)].
    2:{ apply insert_bookings_any in Hbook as (bs & Hs3 & Ht3 & Hall & Hfire & Hlen & Hbids).
        apply (confirmed_inserts_take_seats bd fareId bs Hall) in Hfire.
        exists ps, bs, fareId. rewrite Hs3, Hs2, Hs1 in *.
        unfold with_bookings, with_passengers in *. cbn in *.
        rewrite length_map in Hlen. rewrite Htake.
        repeat split; try assumption; try lia; congruence. }
    apply insert_bookings_any in Hbook as (bs & Hs3 & Ht3 & Hall & Hfire & Hbids & Hsnd).
    apply (confirmed_inserts_take_seats bd fareId bs Hall) in Hfire.
    assert (Hfirst : snd out = hd "" (map pnr bs)) by (rewrite Hsnd; destruct bs; reflexivity).
    apply bind_inv in Hbody as [(resp & s4 & Hpay & Hret)|(e & Hpay & _)];
      [|exfalso; exact (request_resolves _ _ _ _ _ Hpay)].
    apply request_inv in Hpay as (_ & Ht4 & r & [= <-] & Hstmt).
    assert (Hblen : length bs = length ps).
    { apply (f_equal (@length _)) in Hbids. rewrite !length_map in Hbids. exact Hbids. }
    exists ps, bs, fareId. destruct resp as [[]|e].
    - injection Hret as <- <-.
      unfold writing, insert_payment in Hstmt. cbn in Hstmt. injection Hstmt as Hs4.
      rewrite <- Hs4, Hs3, Hs2, Hs1 in *. unfold with_bookings, with_passengers in *.
      cbn in *. unfold payment_of. rewrite <- Hfirst.
      repeat split; try assumption; congruence.
    - injection Hret as <- <-.
      rewrite Hstmt, Hs3, Hs2, Hs1 in *. unfold with_bookings, with_passengers in *.
      cbn in *. rewrite Htake.
      repeat split; try assumption; try lia; congruence. }
  destruct Hinner as (ps & bs & fareId & H1 & H2 & H3 & H4 & H5 & H6 & H7 & H8).
  exists ps, bs, fareId. destruct o0 as [result|e].
  - injection Hrun as <- <-. repeat split; try tauto.
  - unfold bind, show_toast, throw in Hrun. injection Hrun as <- <-. cbn.
    rewrite H7. repeat split; try tauto.
Qed.

Lemma createBooking_takes_seats_unchecked_aux
    (bd : bookingData) (rho : env) (st st' : state) (result : string) :
  createBooking bd rho st = (Resolved result, st') ->
  admin_tbl (store st')
  = match admin_tbl (store st) with
    | _ :: _ => map (accrue_revenue (totalAmount bd)) (admin_tbl (store st))
    | [] => [mkAdmin "admin" "admin123" (Some (totalAmount bd))]
    end.
Proof.
  intros Hrun.
  apply createBooking_inv in Hrun
    as (ps & bs & fareId & _ & _ & _ & _ & _ & _ & _ & _ & _ & _ & Hadmin & _).
  exact Hadmin.
Qed.

(** X12. A resolved [createBooking] has taken one seat per passenger from the
    train without looking at [available_seats] (which may end negative),
    has left the train table alone if the train does not exist, and has
    added the full total amount to the revenue, creating the admin row if
    there was none. *)
Theorem createBooking_takes_seats_unchecked
    (bd : bookingData) (rho : env) (st st' : state) (result : string) :
  createBooking bd rho st = (Resolved result, st') ->
  train_tbl (store st')
  = match train_tbl (store st) !! trainId bd with
    | Some t =>
        <[trainId bd :=
            set_available (available_seats t - Z.of_nat (length (passengerData bd))) t]>
          (train_tbl (store st))
    | None => train_tbl (store st)
    end
  /\ admin_tbl (store st')
     = match admin_tbl (store st) with
       | _ :: _ => map (accrue_revenue (totalAmount bd)) (admin_tbl (store st))
       | [] => [mkAdmin "admin" "admin123" (Some (totalAmount bd))]
       end.
Proof.
  intros Hrun.
  apply createBooking_inv in Hrun
    as (ps & bs & fareId & _ & _ & _ & Htrains & _ & _ & Hdet & Hbids & _ & _ & Hadmin & _).
  assert (Hlen : length bs = length (passengerData bd)).
  { rewrite <- Hdet. apply (f_equal (@length _)) in Hbids.
    rewrite !length_map in *. exact Hbids. }
  rewrite Htrains, Hadmin, Hlen. split; reflexivity.
Qed.

Lemma createBooking_takes_seats_unchecked_witness :
  createBooking sample_bd quiet (mkState tight_db 0 []) = (Resolved "K3", tight_after)
  /\ train_tbl (store tight_after) !! "T1" = Some (mkTrain 2 (-1))
  /\ admin_tbl (store tight_after) = [mkAdmin "admin" "admin123" (Some 1600%Q)].
Proof.
  split; [vm_compute; reflexivity|].
  destruct (createBooking_takes_seats_unchecked sample_bd quiet (mkState tight_db 0 [])
              tight_after "K3") as [Htrains Hadmin].
  - vm_compute. reflexivity.
  - rewrite Htrains, Hadmin. split; reflexivity.
Defined.

(** X13. A rejected [createBooking] rolls nothing back and takes no payment:
    the passenger rows written so far (for the first passengers, in
    order) and the booking rows written so far stay, with their seats
    taken from the train, while the payment and admin tables are as
    before; bookings exist only if every passenger was written; and one
    error toast with the message of the failure is shown. *)
Theorem createBooking_rejected_leaves_orphans
    (bd : bookingData) (rho : env) (st st' : state) (e : js_error) :
  createBooking bd rho st = (Rejected e, st') ->
  exists (ps : list passenger) (bs : list booking),
    passenger_tbl (store st') = (passenger_tbl (store st) ++ ps)%list
    /\ map details_of ps = take (length ps) (passengerData bd)
    /\ booking_tbl (store st') = (booking_tbl (store st) ++ bs)%list
    /\ (length bs <= length ps <= length (passengerData bd))%nat
    /\ (bs <> [] -> length ps = length (passengerData bd))
    /\ train_tbl (store st') = seats_taken (trainId bd) (length bs) (train_tbl (store st))
    /\ payment_tbl (store st') = payment_tbl (store st)
    /\ admin_tbl (store st') = admin_tbl (store st)
    /\ toasts st'
       = (toasts st ++ [toast_error ("Failed to create booking: " +:+ message e)])%list.
Proof.
  intros Hrun.
  apply createBooking_inv in Hrun
    as (ps & bs & fareId & Hps & Hbs & _ & Htrains & _ & _
        & Hdet & Hle1 & Hle2 & Hfull & Hpay & Hadmin & Htoast).
  exists ps, bs. repeat split; assumption.
Qed.

Lemma createBooking_rejected_leaves_orphans_witness :
  createBooking sample_bd second_fails (mkState sample_db 0 [])
  = (Rejected (mkError "connection lost"), orphaned_after)
  /\ passenger_tbl (store orphaned_after) = [mkPassenger "K0" "A" 30 "F" "a@x"]
  /\ booking_tbl (store orphaned_after) = []
  /\ payment_tbl (store orphaned_after) = []
  /\ toasts orphaned_after = [toast_error "Failed to create booking: connection lost"]
  /\ exists (ps : list passenger) (bs : list booking),
       passenger_tbl (store orphaned_after) = (passenger_tbl sample_db ++ ps)%list
       /\ map details_of ps = take (length ps) (passengerData sample_bd)
       /\ booking_tbl (store orphaned_after) = (booking_tbl sample_db ++ bs)%list
       /\ (length bs <= length ps <= length (passengerData sample_bd))%nat
       /\ (bs <> [] -> length ps = length (passengerData sample_bd))
       /\ train_tbl (store orphaned_after)
          = seats_taken "T1" (length bs) (train_tbl sample_db)
       /\ payment_tbl (store orphaned_after) = payment_tbl sample_db
       /\ admin_tbl (store orphaned_after) = admin_tbl sample_db
       /\ toasts orphaned_after
          = ([] ++ [toast_error
                      ("Failed to create booking: " +:+ message (mkError "connection lost"))])%list.
Proof.
  split; [vm_compute; reflexivity|]. do 4 (split; [reflexivity|]).
  apply (createBooking_rejected_leaves_orphans sample_bd second_fails
           (mkState sample_db 0 []) orphaned_after (mkError "connection lost")).
  vm_compute. reflexivity.
Defined.

(** X14. An empty passenger list is not refused.  When [createBooking]
    resolves for one, it has written no passenger and no booking and
    taken no seat, it returns the empty PNR, and it has charged the full
    total amount in a payment row whose PNR is the empty string. *)
Theorem createBooking_without_passengers
    (bd : bookingData) (rho : env) (st st' : state) (result : string) :
  passengerData bd = [] ->
  createBooking bd rho st = (Resolved result, st') ->
  result = ""
  /\ passenger_tbl (store st') = passenger_tbl (store st)
  /\ booking_tbl (store st') = booking_tbl (store st)
  /\ train_tbl (store st') = train_tbl (store st)
  /\ payment_tbl (store st')
     = (payment_tbl (store st)
        ++ [mkPayment "" (totalAmount bd) (paymentMethod bd) "Successful"])%list.
Proof.
  intros Hempty Hrun.
  apply createBooking_inv in Hrun
    as (ps & bs & fareId & Hps & Hbs & _ & Htrains & _ & _
        & Hdet & Hbids & Hres & Hpay & _ & _).
  rewrite Hempty in Hdet. destruct ps; [|discriminate].
  destruct bs; [|discriminate]. cbn in Hres. subst result.
  cbn [length] in Htrains. rewrite seats_taken_zero in Htrains.
  rewrite Hps, Hbs, Htrains, Hpay, !app_nil_r. repeat split.
Qed.

Lemma createBooking_without_passengers_witness :
  createBooking empty_bd quiet (mkState sample_db 0 []) = (Resolved "", empty_after)
  /\ "" = ""
  /\ passenger_tbl (store empty_after) = passenger_tbl sample_db
  /\ booking_tbl (store empty_after) = booking_tbl sample_db
  /\ train_tbl (store empty_after) = train_tbl sample_db
  /\ payment_tbl (store empty_after)
     = (payment_tbl sample_db ++ [mkPayment "" 1600 "UPI" "Successful"])%list.
Proof.
  split; [vm_compute; reflexivity|].
  apply (createBooking_without_passengers empty_bd quiet (mkState sample_db 0 [])
           empty_after "").
  - reflexivity.
  - vm_compute. reflexivity.
Defined.

(** ** The fare a booking is made under *)

(** X15. Whatever makes the lookup of the fare of the requested class fail, a
    failure from outside as much as no or several matching rows, the
    booking goes on under the first fare of the train in table order,
    whatever its class, after two requests. *)
Theorem resolve_fare_falls_back_on_any_error
    (bd : bookingData) (rho : env) (st : state) (f : fare) (others : list fare) :
  is_Some (fault_at rho (requests st))
  \/ length (filter (fun x => f_train_id x = trainId bd /\ f_class x = fareClass bd)
               (fare_tbl (store st))) <> 1%nat ->
  fault_at rho (S (requests st)) = None ->
  filter (fun x => f_train_id x = trainId bd) (fare_tbl (store st)) = f :: others ->
  resolve_fare bd rho st
  = (Resolved (f_fare_id f), mkState (store st) (S (S (requests st))) (toasts st)).
Proof.
  intros Hfirst Hsecond Hany.
  unfold resolve_fare, bind, request, reading, select_fare_of_class, select_any_fare.
  destruct (fault_at rho (requests st)) as [e|] eqn:Hf.
  - cbn. rewrite Hsecond. cbn. rewrite Hany. reflexivity.
  - destruct Hfirst as [[e He]|Hlen]; [discriminate|].
    destruct (filter (fun x => f_train_id x = trainId bd /\ f_class x = fareClass bd)
                (fare_tbl (store st))) as [|x [|y l]]; cbn in Hlen; try congruence;
      cbn; rewrite Hsecond; cbn; rewrite Hany; reflexivity.
Qed.

Lemma resolve_fare_falls_back_on_any_error_witness :
  resolve_fare (mkBookingData [] "T1" "Sleeper" "UPI" 0) quiet (mkState sample_db 0 [])
  = (Resolved "F1", mkState sample_db 2 []).
Proof.
  apply (resolve_fare_falls_back_on_any_error
           (mkBookingData [] "T1" "Sleeper" "UPI" 0) quiet (mkState sample_db 0 [])
           (mkFare "F1" "T1" "AC 2 Tier" 800) []).
  - right. cbn. discriminate.
  - reflexivity.
  - reflexivity.
Defined.

(** ** [getAdminData] over the admin table *)

(** X16. [getAdminData] resolves exactly when its request is not failed from
    outside and the admin table has exactly one row. *)
Theorem getAdminData_resolves_iff_one_row (rho : env) (st : state) :
  (exists v st', getAdminData rho st = (Resolved v, st'))
  <-> fault_at rho (requests st) = None /\ length (admin_tbl (store st)) = 1%nat.
Proof.
  unfold getAdminData, bind, request, reading, select_total_revenue. split.
  - intros (v & st' & Hrun).
    destruct (fault_at rho (requests st)) as [e|]; [cbn in Hrun; discriminate|].
    split; [reflexivity|].
    destruct (admin_tbl (store st)) as [|r [|r' l]]; cbn in Hrun;
      [discriminate | reflexivity | discriminate].
  - intros [-> Hlen].
    destruct (admin_tbl (store st)) as [|r [|r' l]]; cbn in Hlen; try discriminate.
    cbn. eauto.
Qed.

(** X17. The first resolved booking creates the revenue row: from an empty
    admin table, [getAdminData] right after a resolved [createBooking]
    resolves to the total amount of that booking. *)
Theorem first_booking_sets_the_revenue
    (bd : bookingData) (rho : env) (st st' : state) (result : string) :
  admin_tbl (store st) = [] ->
  createBooking bd rho st = (Resolved result, st') ->
  fault_at rho (requests st') = None ->
  exists v,
    getAdminData rho st'
    = (Resolved (mkAdminData v), mkState (store st') (S (requests st')) (toasts st'))
    /\ (v == totalAmount bd)%Q.
Proof.
  intros Hempty Hrun Hfault.
  apply createBooking_takes_seats_unchecked_aux in Hrun. rewrite Hempty in Hrun.
  unfold getAdminData, bind, request, reading, select_total_revenue.
  rewrite Hfault, Hrun. cbn. eexists. split; [reflexivity|].
  destruct (Qeq_bool (totalAmount bd) 0) eqn:Hz; [|reflexivity].
  apply Qeq_bool_iff in Hz. rewrite Hz. reflexivity.
Qed.

Lemma first_booking_sets_the_revenue_witness :
  createBooking sample_bd quiet (mkState sample_db 0 []) = (Resolved "K3", sample_after)
  /\ exists v,
       getAdminData quiet sample_after
       = (Resolved (mkAdminData v),
          mkState (store sample_after) (S (requests sample_after)) (toasts sample_after))
       /\ (v == 1600)%Q.
Proof.
  split; [vm_compute; reflexivity|].
  apply (first_booking_sets_the_revenue sample_bd quiet (mkState sample_db 0 [])
           sample_after "K3").
  - reflexivity.
  - vm_compute. reflexivity.
  - reflexivity.
Defined.

Lemma getAdminData_resolves_iff_one_row_witness :
  exists v st', getAdminData quiet (mkState booked_db 0 []) = (Resolved v, st').
Proof.
  apply (proj2 (getAdminData_resolves_iff_one_row quiet (mkState booked_db 0 []))).
  split; reflexivity.
Defined.

(** ** [cancelBooking] on a confirmed booking *)

Lemma update_status_rows_one (p s : string) (b : booking) (l1 l2 : list booking)
    (trains : gmap string train) :
  Forall (fun x => pnr x <> p) l1 ->
  Forall (fun x => pnr x <> p) l2 ->
  pnr b = p ->
  update_status_rows p s (l1 ++ b :: l2) trains
  = let? trains' := update_train_seats (TG_UPDATE b (set_status s b)) trains in
    PgOk ((l1 ++ set_status s b :: l2)%list, trains').
Proof.
  intros Hl1 Hl2 Hb. induction Hl1 as [|x l1 Hx _ IH]; cbn [app update_status_rows].
  - rewrite bool_decide_eq_true_2 by assumption.
    destruct (update_train_seats (TG_UPDATE b (set_status s b)) trains) as [trains'|];
      cbn [pg_bind]; [|reflexivity].
    rewrite update_status_rows_no_match by assumption. reflexivity.
  - rewrite bool_decide_eq_false_2 by assumption. rewrite IH.
    destruct (update_train_seats (TG_UPDATE b (set_status s b)) trains) as [trains'|];
      reflexivity.
Qed.

Lemma cancel_confirmed_row
    (p : string) (A : Q) (rho : env) (st : state)
    (b : booking) (l1 l2 : list booking) (t : train) :
  booking_tbl (store st) = (l1 ++ b :: l2)%list ->
  Forall (fun x => pnr x <> p) l1 ->
  Forall (fun x => pnr x <> p) l2 ->
  pnr b = p ->
  booking_status b = "Confirmed" ->
  train_tbl (store st) !! train_id b = Some t ->
  Int4.in_range (available_seats t + 1) ->
  fault_at rho (requests st) = None ->
  fault_at rho (S (requests st)) = None ->
  let d := store st in
  cancelBooking p A rho st =
    (Resolved tt,
     mkState
       (mkDb (<[train_id b := set_available (available_seats t + 1) t]> (train_tbl d))
          (fare_tbl d) (passenger_tbl d)
          (l1 ++ set_status "Cancelled" b :: l2)
          (payment_tbl d)
          (cancellation_tbl d
           ++ [mkCancellation p (Binary64.times A (9 # 10)) "Processed"])
          (map (reverse_revenue (Binary64.times A (9 # 10))) (admin_tbl d)))
       (S (S (requests st)))
       (toasts st ++ [toast_refund (Binary64.times A (9 # 10))])).
Proof.
  intros Hrows Hl1 Hl2 Hb Hconf Hlook Hrange Hf1 Hf2 d. subst d.
  rewrite cancelBooking_run. cbn zeta. rewrite Hf1.
  unfold update_booking_status. rewrite Hrows.
  rewrite (update_status_rows_one p "Cancelled" b l1 l2 _ Hl1 Hl2 Hb).
  cbn [update_train_seats booking_status set_status train_id]. rewrite Hconf.
  change (is_Confirmed "Confirmed") with true.
  change (is_Confirmed "Cancelled") with false.
  change (is_Cancelled "Cancelled") with true. cbn [negb andb].
  rewrite (shift_available_found _ 1 _ t Hlook Hrange). cbn [pg_bind fst snd].
  rewrite Hf2. reflexivity.
Qed.




(** ** Booking a group and cancelling the PNR that came back *)

Lemma insert_bookings_keys (bd : bookingData) (fareId : string) (ids : list string) :
  forall (i : nat) (acc : list string * string) (rho : env) (st st' : state)
         (out : list string * string),
  insert_bookings bd fareId ids i acc rho st = (Resolved out, st') ->
  exists rows,
    booking_tbl (store st') = (booking_tbl (store st) ++ rows)%list
    /\ map pnr rows = map (key_at rho) (seq (requests st) (length rows)).
Proof.
  induction ids as [|id rest IH]; intros i acc rho st st' out; cbn [insert_bookings].
  - intros [= <- <-]. exists []. rewrite app_nil_r. split; reflexivity.
  - intros Hrun. apply bind_Resolved in Hrun as (rnd & st0 & Hrnd & Hrun).
    injection Hrnd as _ <-.
    apply bind_Resolved in Hrun as (resp & st1 & Hreq & Hrest).
    apply request_inv in Hreq as (Hreqs & _ & r & [= <-] & Hstmt).
    destruct resp as [p|e]; [|discriminate].
    unfold returning_key, insert_booking in Hstmt.
    destruct (update_train_seats
                (TG_INSERT (mkBooking (key_at rho (requests st)) id (trainId bd) fareId
                              (fareClass bd) (seat_label (fareClass bd) rnd) "Confirmed"))
                (train_tbl (store st))) as [trains1|];
      cbn in Hstmt; [|discriminate].
    injection Hstmt as Hstore Hp.
    apply IH in Hrest as (rows & Hrows & Hkeys).
    exists (mkBooking (key_at rho (requests st)) id (trainId bd) fareId (fareClass bd)
              (seat_label (fareClass bd) rnd) "Confirmed" :: rows).
    split.
    + rewrite Hrows, <- Hstore. cbn. rewrite <- app_assoc. reflexivity.
    + cbn [map length seq pnr]. rewrite Hkeys, Hreqs. reflexivity.
Qed.

Lemma confirmed_inserts_in_range (bd : bookingData) (fareId : string) (rows : list booking) :
  Forall (booked_for bd fareId) rows ->
  rows <> [] ->
  forall (trains trains' : gmap string train) (t : train),
  fire_booking_writes (map TG_INSERT rows) trains = PgOk trains' ->
  trains !! trainId bd = Some t ->
  Int4.in_range (available_seats t - Z.of_nat (length rows)).
Proof.
  induction 1 as [|b rest Hb Hrest IH]; intros Hne trains trains' t; [congruence|].
  cbn [map fire_booking_writes length update_train_seats].
  destruct Hb as (_ & Htrain & _ & Hstatus). rewrite Hstatus, Htrain.
  change (is_Confirmed "Confirmed") with true. cbn iota.
  intros Hfire Hlook. unfold shift_available in Hfire. rewrite Hlook in Hfire.
  unfold Int4.add in Hfire.
  destruct (Int4.check (available_seats t + -1)) as [v|] eqn:Hcheck;
    cbn [pg_bind] in Hfire; [|discriminate].
  assert (Hv : Int4.in_range (available_seats t + -1)).
  { unfold Int4.check in Hcheck. unfold Int4.in_range.
    destruct (Int4.in_rangeb (available_seats t + -1)) eqn:Hb; [|discriminate].
    unfold Int4.in_rangeb in Hb. apply andb_prop in Hb as [H1 H2].
    apply Z.leb_le in H1. apply Z.leb_le in H2. split; assumption. }
  apply check_ok_eq in Hcheck. subst v.
  destruct rest as [|b' rest'].
  - cbn [length]. replace (available_seats t - Z.of_nat 1) with (available_seats t + -1) by lia.
    exact Hv.
  - specialize (IH ltac:(discriminate) _ _ (set_available (available_seats t + -1) t) Hfire).
    rewrite lookup_insert_eq in IH. specialize (IH eq_refl).
    cbn [available_seats set_available] in IH.
    rewrite Nat2Z.inj_succ.
    replace (available_seats t - Z.succ (Z.of_nat (length (b' :: rest'))))
      with (available_seats t + -1 - Z.of_nat (length (b' :: rest'))) by lia.
    exact IH.
Qed.

Lemma createBooking_keys (bd : bookingData) (rho : env) (st st' : state) (result : string) :
  createBooking bd rho st = (Resolved result, st') ->
  exists (bs : list booking) (fareId : string) (m : nat),
    booking_tbl (store st') = (booking_tbl (store st) ++ bs)%list
    /\ Forall (booked_for bd fareId) bs
    /\ map pnr bs = map (key_at rho) (seq m (length bs))
    /\ fire_booking_writes (map TG_INSERT bs) (train_tbl (store st))
       = PgOk (train_tbl (store st')).
Proof.
  intros Hrun. unfold createBooking, try_catch in Hrun.
  match type of Hrun with
  | (match ?m with _ => _ end) = _ => destruct m as [[res|err] st2] eqn:Hbody
  end.
  2:{ unfold bind, show_toast, throw in Hrun. discriminate. }
  injection Hrun as -> ->.
  apply bind_Resolved in Hbody as (ids & s1 & Hpass & Hbody).
  apply bind_Resolved in Hbody as (fareId & s2 & Hfare & Hbody).
  apply bind_Resolved in Hbody as (out & s3 & Hbook & Hbody).
  apply bind_Resolved in Hbody as (resp & s4 & Hpay & Hret).
  apply insert_passengers_Resolved in Hpass as (ps & _ & _ & Hs1).
  apply resolve_fare_Resolved in Hfare as (Hs2 & _).
  pose proof (insert_bookings_keys _ _ _ _ _ _ _ _ _ Hbook) as (bs' & Hrows' & Hkeys).
  apply insert_bookings_any in Hbook as (bs & Hs3 & _ & Hall & Hfire & _).
  assert (bs' = bs).
  { rewrite Hs3 in Hrows'. unfold with_bookings in Hrows'. cbn in Hrows'.
    apply app_inv_head in Hrows'. congruence. }
  subst bs'.
  apply request_inv in Hpay as (_ & _ & r & [= <-] & Hstmt).
  destruct resp as [[]|e]; [|discriminate].
  injection Hret as <- <-.
  unfold writing, insert_payment in Hstmt. cbn in Hstmt. injection Hstmt as Hs4.
  exists bs, fareId, (requests s2).
  rewrite <- Hs4. cbn [booking_tbl train_tbl].
  rewrite Hs2, Hs1 in Hs3, Hfire. unfold with_passengers in *. cbn in Hs3, Hfire.
  rewrite Hs3 at 1. unfold with_bookings. cbn [booking_tbl].
  repeat split; assumption.
Qed.

Lemma keys_of_seq_distinct (key : nat -> string) (m len : nat) :
  (forall i j, key i = key j -> i = j) ->
  Forall (fun k => k <> key m) (map key (seq (S m) len)).
Proof.
  intros Hinj. apply Forall_forall. intros k Hin.
  apply list_elem_of_In, in_map_iff in Hin as (j & <- & Hj).
  apply in_seq in Hj. intros Heq. apply Hinj in Heq. lia.
Qed.

(** X19. With server keys that never repeat, cancelling the PNR a resolved
    [createBooking] of [n >= 1] passengers returned, while no older
    booking has that PNR, resolves and cancels the first booking only: one
    seat comes back, so the train is left [n - 1] seats short, and the
    other [n - 1] bookings of the group stay Confirmed. *)
Theorem cancelling_a_group_frees_one_seat
    (bd : bookingData) (A : Q) (rho : env) (st st1 : state) (p : string) (t : train) :
  (forall i j, key_at rho i = key_at rho j -> i = j) ->
  passengerData bd <> [] ->
  Forall (fun b => pnr b <> p) (booking_tbl (store st)) ->
  train_tbl (store st) !! trainId bd = Some t ->
  Int4.in_range (available_seats t) ->
  createBooking bd rho st = (Resolved p, st1) ->
  fault_at rho (requests st1) = None ->
  fault_at rho (S (requests st1)) = None ->
  exists (st2 : state) (b : booking) (siblings : list booking),
    cancelBooking p A rho st1 = (Resolved tt, st2)
    /\ booking_tbl (store st2) = (booking_tbl (store st) ++ b :: siblings)%list
    /\ pnr b = p /\ booking_status b = "Cancelled"
    /\ Forall (fun x => booking_status x = "Confirmed") siblings
    /\ S (length siblings) = length (passengerData bd)
    /\ train_tbl (store st2) !! trainId bd
       = Some (set_available
                 (available_seats t - Z.of_nat (length (passengerData bd)) + 1) t).
Proof.
  intros Hinj Hne Hfresh Hlook Hrange Hrun Hf1 Hf2.
  pose proof (createBooking_keys bd rho st st1 p Hrun)
    as (bs & fareId & m & Hbs & Hall & Hkeys & Hfire).
  apply createBooking_inv in Hrun
    as (ps & bs' & fareId' & _ & Hbs' & _ & _ & _ & _ & Hdet & Hbids & Hres & _).
  assert (bs' = bs) by (rewrite Hbs in Hbs'; apply app_inv_head in Hbs'; congruence).
  subst bs'.
  assert (Hlen : length bs = length (passengerData bd)).
  { rewrite <- Hdet. apply (f_equal (@length _)) in Hbids.
    rewrite !length_map in *. exact Hbids. }
  destruct bs as [|b rest].
  { destruct (passengerData bd); [congruence | discriminate]. }
  cbn in Hres.
  pose proof (confirmed_inserts_in_range bd fareId (b :: rest) Hall ltac:(discriminate)
                _ _ t Hfire Hlook) as Hlow.
  pose proof (confirmed_inserts_take_seats bd fareId (b :: rest) Hall _ _ Hfire) as Htrains.
  unfold seats_taken in Htrains. rewrite Hlook in Htrains.
  apply Forall_cons in Hall as [(_ & Htrain & _ & Hstatus) Hall].
  assert (Hsib : Forall (fun x => pnr x <> p) rest).
  { cbn [map length seq] in Hkeys. injection Hkeys as Hb Hrest.
    pose proof (keys_of_seq_distinct (key_at rho) m (length rest) Hinj) as Hd.
    rewrite <- Hrest in Hd. rewrite Forall_forall in Hd.
    apply Forall_forall. intros x Hx. rewrite Hres, Hb.
    apply Hd. apply (list_elem_of_fmap_2 pnr). exact Hx. }
  rewrite Hlen in *. cbn [length] in Hlen.
  eexists _, (set_status "Cancelled" b), rest. split.
  - refine (cancel_confirmed_row p A rho st1 b (booking_tbl (store st)) rest
              (set_available (available_seats t - Z.of_nat (length (passengerData bd))) t)
              Hbs Hfresh Hsib (eq_sym Hres) Hstatus _ _ Hf1 Hf2).
    + rewrite Htrains, Htrain. apply lookup_insert_eq.
    + cbn [available_seats set_available]. rewrite <- Hlen in *.
      rewrite Nat2Z.inj_succ in *. int4_lia.
  - cbn [store booking_tbl train_tbl pnr booking_status set_status].
    split; [reflexivity|]. split; [congruence|]. split; [reflexivity|].
    split; [eapply Forall_impl; [exact Hall|]; intros x Hx; apply Hx|].
    split; [exact Hlen|].
    rewrite Htrain, lookup_insert_eq. reflexivity.
Qed.

Lemma cancelling_a_group_frees_one_seat_witness :
  createBooking sample_bd quiet (mkState sample_db 0 []) = (Resolved "K3", sample_after)
  /\ exists (st2 : state) (b : booking) (siblings : list booking),
       cancelBooking "K3" 1600 quiet sample_after = (Resolved tt, st2)
       /\ booking_tbl (store st2) = (booking_tbl sample_db ++ b :: siblings)%list
       /\ pnr b = "K3" /\ booking_status b = "Cancelled"
       /\ Forall (fun x => booking_status x = "Confirmed") siblings
       /\ S (length siblings) = 2%nat
       /\ train_tbl (store st2) !! "T1" = Some (mkTrain 2 (2 - 2 + 1)).
Proof.
  split; [vm_compute; reflexivity|].
  refine (cancelling_a_group_frees_one_seat sample_bd 1600 quiet (mkState sample_db 0 [])
            sample_after "K3" (mkTrain 2 2) _ _ _ _ _ _ _ _).
  - intros i j Hk. cbn in Hk. injection Hk as Hk.
    exact (pretty_nat_inj i j Hk).
  - discriminate.
  - constructor.
  - reflexivity.
  - cbn. int4_lia.
  - vm_compute. reflexivity.
  - reflexivity.
  - reflexivity.
Defined.

(** ** What [cancelBooking] never writes *)

Lemma update_status_rows_capacity (p s : string) (rows : list booking) :
  forall (trains : gmap string train) out,
  update_status_rows p s rows trains = PgOk out ->
  same_capacity trains (snd out).
Proof.
  induction rows as [|OLD rest IH]; intros trains out; cbn [update_status_rows].
  - intros [= <-]. intros id. reflexivity.
  - case_bool_decide.
    + destruct (update_train_seats (TG_UPDATE OLD (set_status s OLD)) trains)
        as [trains'|] eqn:Htrig; cbn [pg_bind]; [|discriminate].
      destruct (update_status_rows p s rest trains') as [out'|] eqn:Hrest;
        cbn [pg_bind]; [|discriminate].
      intros [= <-]. cbn [snd]. eapply same_capacity_trans.
      * eapply only_available_same_capacity, update_train_seats_only, Htrig.
      * eapply IH, Hrest.
    + destruct (update_status_rows p s rest trains) as [out'|] eqn:Hrest;
        cbn [pg_bind]; [|discriminate].
      intros [= <-]. cbn [snd]. eapply IH, Hrest.
Qed.

Lemma cancelBooking_store (p : string) (A : Q) (rho : env) (st : state) :
  store (snd (cancelBooking p A rho st)) = store st
  \/ exists d,
       update_booking_status p "Cancelled" (store st) = PgOk d
       /\ (store (snd (cancelBooking p A rho st)) = d
           \/ (fst (cancelBooking p A rho st) = Resolved tt
               /\ store (snd (cancelBooking p A rho st))
                  = mkDb (train_tbl d) (fare_tbl d) (passenger_tbl d) (booking_tbl d)
                      (payment_tbl d)
                      (cancellation_tbl d
                       ++ [mkCancellation p (Binary64.times A (9 # 10)) "Processed"])
                      (map (reverse_revenue (Binary64.times A (9 # 10))) (admin_tbl d)))).
Proof.
  rewrite cancelBooking_run. cbn zeta. unfold cancel_failed.
  destruct (fault_at rho (requests st)); [left; reflexivity|].
  destruct (update_booking_status p "Cancelled" (store st)) as [d|msg] eqn:Hupd;
    [|left; reflexivity].
  right. exists d. split; [reflexivity|].
  destruct (fault_at rho (S (requests st))); [left; reflexivity|].
  right. split; reflexivity.
Qed.

(** X20. However it ends, [cancelBooking] writes no payment, passenger or fare
    row, creates and deletes no booking, and changes no [total_seats]: in
    particular the payment of a cancelled booking stays as it was, so the
    payment trigger never reverses anything for a cancellation. *)
Theorem cancelBooking_leaves_payments (p : string) (A : Q) (rho : env) (st : state) :
  let d' := store (snd (cancelBooking p A rho st)) in
  payment_tbl d' = payment_tbl (store st)
  /\ passenger_tbl d' = passenger_tbl (store st)
  /\ fare_tbl d' = fare_tbl (store st)
  /\ map pnr (booking_tbl d') = map pnr (booking_tbl (store st))
  /\ same_capacity (train_tbl (store st)) (train_tbl d').
Proof.
  cbn zeta.
  destruct (cancelBooking_store p A rho st) as [->|(d & Hupd & Hd)].
  { repeat split; intros; reflexivity. }
  assert (Hd' : payment_tbl d = payment_tbl (store st)
                /\ passenger_tbl d = passenger_tbl (store st)
                /\ fare_tbl d = fare_tbl (store st)
                /\ map pnr (booking_tbl d) = map pnr (booking_tbl (store st))
                /\ same_capacity (train_tbl (store st)) (train_tbl d)).
  { unfold update_booking_status in Hupd.
    destruct (update_status_rows p "Cancelled" (booking_tbl (store st)) (train_tbl (store st)))
      as [out|] eqn:Hrows; cbn [pg_bind] in Hupd; [|discriminate].
    injection Hupd as <-. cbn. repeat split.
    - rewrite (update_status_rows_rows _ _ _ _ _ Hrows). apply restatus_keeps_pnr.
    - eapply update_status_rows_capacity, Hrows. }
  destruct Hd as [->|[_ ->]]; [exact Hd'|]. cbn. exact Hd'.
Qed.




(** ** Time strings of [railBooker.ts] *)

Lemma max_len_derive (c : ascii) (r : regex) (k' : nat) :
  max_len (derive c r) = Some k' ->
  exists k, max_len r = Some k /\ (S k' <= k)%nat.
Proof.
  revert k'. induction r as [| |p|r1 IH1 r2 IH2|r1 IH1 r2 IH2]; intros k'; cbn.
  - discriminate.
  - discriminate.
  - destruct (p c); cbn; [|discriminate]. intros [= <-]. eauto.
  - destruct (max_len (derive c r1)) as [a|] eqn:H1.
    + destruct (IH1 a eq_refl) as (a0 & -> & Ha).
      destruct (max_len r2) as [b|] eqn:H2.
      * destruct (nullable r1).
        -- destruct (max_len (derive c r2)) as [b'|] eqn:H2'.
           ++ destruct (IH2 b' eq_refl) as (b0 & [= <-] & Hb).
              intros [= <-]. eexists. split; [reflexivity|]. lia.
           ++ intros [= <-]. eexists. split; [reflexivity|]. lia.
        -- cbn. intros [= <-]. eexists. split; [reflexivity|]. lia.
      * destruct (nullable r1); [|cbn; discriminate].
        destruct (max_len (derive c r2)) as [b'|] eqn:H2'; [|discriminate].
        destruct (IH2 b' eq_refl) as (b0 & [=] & _).
    + destruct (nullable r1) eqn:Hn.
      * assert (Hsome : forall r, nullable r = true -> exists a, max_len r = Some a).
        { clear. induction r as [| |p|r1 IH1 r2 IH2|r1 IH1 r2 IH2]; cbn; intros Hn;
            try discriminate; eauto.
          - apply andb_prop in Hn as [Hn1 Hn2].
            destruct (IH1 Hn1) as [a ->], (IH2 Hn2) as [b ->]. eauto.
          - destruct (max_len r1), (max_len r2); eauto.
            apply orb_prop in Hn as [Hn|Hn]; [destruct (IH1 Hn) | destruct (IH2 Hn)];
              discriminate. }
        destruct (Hsome r1 Hn) as [a0 ->].
        destruct (max_len r2) as [b|] eqn:H2.
        -- assert (Hd : max_len (re_seq (derive c r1) r2) = None) by (cbn; rewrite H1; reflexivity).
           cbn in Hd. rewrite H1 in Hd.
           destruct (max_len (derive c r2)) as [b'|] eqn:H2'; [|discriminate].
           destruct (IH2 b' eq_refl) as (b0 & [= <-] & Hb).
           intros [= <-]. eexists. split; [reflexivity|]. lia.
        -- destruct (max_len (derive c r2)) as [b'|] eqn:H2'; [|discriminate].
           destruct (IH2 b' eq_refl) as (b0 & [=] & _).
      * cbn. destruct (max_len r2); discriminate.
  - destruct (max_len (derive c r1)) as [a|] eqn:H1,
             (max_len (derive c r2)) as [b|] eqn:H2; try discriminate.
    + destruct (IH1 a eq_refl) as (a0 & -> & Ha), (IH2 b eq_refl) as (b0 & -> & Hb).
      intros [= <-]. eexists. split; [reflexivity|]. lia.
    + destruct (IH1 a eq_refl) as (a0 & -> & Ha). intros [= <-].
      destruct (max_len r2); eexists; (split; [reflexivity|]); lia.
    + destruct (IH2 b eq_refl) as (b0 & -> & Hb). intros [= <-].
      destruct (max_len r1); eexists; (split; [reflexivity|]); lia.
Qed.

Lemma test_length (s : string) :
  forall r, test r s = true -> exists k, max_len r = Some k /\ (String.length s <= k)%nat.
Proof.
  induction s as [|c rest IH]; intros r; cbn [test String.length].
  - clear. induction r as [| |p|r1 IH1 r2 IH2|r1 IH1 r2 IH2]; cbn; intros Hn;
      try discriminate.
    + eexists. split; [reflexivity|]. lia.
    + apply andb_prop in Hn as [Hn1 Hn2].
      destruct (IH1 Hn1) as (a & -> & _), (IH2 Hn2) as (b & -> & _).
      eexists. split; [reflexivity|]. lia.
    + apply orb_prop in Hn as [Hn|Hn].
      * destruct (IH1 Hn) as (a & -> & _). destruct (max_len r2); eexists;
          (split; [reflexivity|]); lia.
      * destruct (IH2 Hn) as (b & -> & _). destruct (max_len r1); eexists;
          (split; [reflexivity|]); lia.
  - intros Hrest. apply IH in Hrest as (k' & Hk' & Hlen).
    apply max_len_derive in Hk' as (k & Hk & Hle). exists k. split; [exact Hk|]. lia.
Qed.

Lemma HH_MM_at_most_five (s : string) :
  test HH_MM s = true -> (String.length s <= 5)%nat.
Proof.
  intros Htest. apply test_length in Htest as (k & Hk & Hlen).
  cbn in Hk. injection Hk as <-. exact Hlen.
Qed.

Lemma two_digits_plain (n : Z) : 0 <= n < 100 -> two_plain (two_digits n) = true.
Proof.
  intros Hn.
  assert (Hall : forallb (fun k => two_plain (two_digits (Z.of_nat k))) (seq 0 100) = true)
    by (vm_compute; reflexivity).
  rewrite forallb_forall in Hall.
  specialize (Hall (Z.to_nat n)). rewrite Z2Nat.id in Hall by lia.
  apply Hall, in_seq. lia.
Qed.

Lemma append_cons (c : ascii) (a b : string) : String c a +:+ b = String c (a +:+ b).
Proof. reflexivity. Qed.

Lemma append_nil (b : string) : "" +:+ b = b.
Proof. reflexivity. Qed.

Lemma split_plain (a rest : string) :
  two_plain a = true ->
  split ":"%char (a +:+ ":" +:+ rest) = a :: split ":"%char rest.
Proof.
  destruct a as [|x [|y [|z a]]]; cbn [two_plain]; try discriminate.
  intros Hp. apply andb_prop in Hp as [Hx Hy].
  apply negb_true_iff in Hx, Hy.
  rewrite !append_cons, !append_nil. cbn [split]. rewrite Hx, Hy.
  change (Ascii.eqb ":"%char ":"%char) with true. cbn iota.
  destruct (split ":"%char rest) as [|w ws] eqn:Hs; [|reflexivity].
  destruct rest; cbn in Hs; [discriminate|].
  destruct (Ascii.eqb a ":"%char); [discriminate|].
  destruct (split ":"%char rest); discriminate.
Qed.

Lemma split_plain_end (a : string) :
  two_plain a = true -> split ":"%char a = [a].
Proof.
  destruct a as [|x [|y [|z a]]]; cbn [two_plain]; try discriminate.
  intros Hp. apply andb_prop in Hp as [Hx Hy].
  apply negb_true_iff in Hx, Hy. cbn [split]. rewrite Hx, Hy. reflexivity.
Qed.

Lemma two_plain_length (a : string) : two_plain a = true -> String.length a = 2%nat.
Proof. destruct a as [|x [|y [|z a]]]; cbn; try discriminate. reflexivity. Qed.

Lemma length_app_string (a b : string) :
  String.length (a +:+ b) = (String.length a + String.length b)%nat.
Proof.
  induction a as [|c a IH]; [reflexivity|].
  rewrite append_cons. cbn [String.length]. rewrite IH. reflexivity.
Qed.

Lemma app_string_assoc (a b c : string) : (a +:+ b) +:+ c = a +:+ (b +:+ c).
Proof.
  induction a as [|x a IH]; [reflexivity|].
  rewrite !append_cons, IH. reflexivity.
Qed.

Lemma eqb_clock_nonempty (a rest : string) :
  two_plain a = true -> String.eqb (a +:+ rest) "" = false.
Proof. destruct a; [discriminate | reflexivity]. Qed.

Section TimeStrings.

Context {J : JsNumbers} (L : JsNumbersLaws J).

Lemma format_parts (h m : Z) (more : list string) (timeStr : string) :
  0 <= h < 100 -> 0 <= m < 100 ->
  String.eqb timeStr "" = false ->
  test HH_MM timeStr = false ->
  split ":"%char timeStr = two_digits h :: two_digits m :: more ->
  formatTimeString timeStr = clock h m.
Proof.
  intros Hh Hm Hne Htest Hsplit. unfold formatTimeString.
  rewrite Hne, Htest, Hsplit. cbn zeta.
  rewrite (parseInt_two_digits J L h Hh), (parseInt_two_digits J L m Hm).
  rewrite (toString_small J L h Hh), (toString_small J L m Hm). reflexivity.
Qed.

Lemma format_clock (h m : Z) :
  0 <= h < 100 -> 0 <= m < 100 -> formatTimeString (clock h m) = clock h m.
Proof.
  intros Hh Hm.
  pose proof (two_digits_plain h Hh) as Hph. pose proof (two_digits_plain m Hm) as Hpm.
  destruct (test HH_MM (clock h m)) eqn:Htest.
  - unfold formatTimeString. unfold clock at 1.
    rewrite (eqb_clock_nonempty _ _ Hph). rewrite Htest. reflexivity.
  - apply (format_parts h m []); try assumption.
    + apply eqb_clock_nonempty, Hph.
    + unfold clock. rewrite (split_plain _ _ Hph), (split_plain_end _ Hpm). reflexivity.
Qed.

Lemma format_clock_seconds (h m : Z) (seconds : string) :
  0 <= h < 100 -> 0 <= m < 100 ->
  formatTimeString (clock h m +:+ ":" +:+ seconds) = clock h m.
Proof.
  intros Hh Hm.
  pose proof (two_digits_plain h Hh) as Hph. pose proof (two_digits_plain m Hm) as Hpm.
  apply (format_parts h m (split ":"%char seconds)); try assumption.
  - unfold clock. rewrite app_string_assoc. apply eqb_clock_nonempty, Hph.
  - destruct (test HH_MM (clock h m +:+ ":" +:+ seconds)) eqn:Htest; [|reflexivity].
    apply HH_MM_at_most_five in Htest. unfold clock in Htest.
    rewrite !length_app_string in Htest.
    rewrite (two_plain_length _ Hph), (two_plain_length _ Hpm) in Htest.
    cbn in Htest. lia.
  - unfold clock. rewrite !app_string_assoc.
    rewrite (split_plain _ _ Hph), (split_plain _ _ Hpm). reflexivity.
Qed.

Lemma duration_of_clocks (h1 m1 h2 m2 : Z) :
  0 <= h1 < 24 -> 0 <= m1 < 60 -> 0 <= h2 < 24 -> 0 <= m2 < 60 ->
  exists H M,
    calculateDuration (clock h1 m1) (clock h2 m2) = pretty H +:+ "h " +:+ pretty M +:+ "m"
    /\ 0 <= H < 24 /\ 0 <= M < 60
    /\ 60 * H + M = ((60 * h2 + m2) - (60 * h1 + m1)) mod 1440.
Proof.
  intros Hh1 Hm1 Hh2 Hm2.
  assert (Hp : forall n, 0 <= n < 100 -> two_plain (two_digits n) = true)
    by apply two_digits_plain.
  unfold calculateDuration, clock.
  rewrite (split_plain _ _ (Hp h1 ltac:(lia))), (split_plain_end _ (Hp m1 ltac:(lia))).
  rewrite (split_plain _ _ (Hp h2 ltac:(lia))), (split_plain_end _ (Hp m2 ltac:(lia))).
  cbn [map lookup list_lookup to_number].
  rewrite !(Number_two_digits J L) by lia.
  assert (Hsmall : 2 ^ 31 = 2147483648) by reflexivity.
  repeat (rewrite ?(minus_exact J L), ?(lt_exact J L) by lia).
  destruct (Z.ltb_spec (m2 - m1) 0) as [Hneg|Hpos].
  - repeat (rewrite ?(minus_exact J L), ?(plus_exact J L), ?(lt_exact J L) by lia).
    destruct (Z.ltb_spec (h2 - h1 - 1) 0) as [Hhneg|Hhpos].
    + repeat (rewrite ?(plus_exact J L) by lia).
      rewrite !(toString_small J L) by lia.
      exists (h2 - h1 - 1 + 24), (m2 - m1 + 60).
      split; [reflexivity|]. split; [lia|]. split; [lia|].
      apply (Z.mod_unique _ _ (-1)); lia.
    + rewrite !(toString_small J L) by lia.
      exists (h2 - h1 - 1), (m2 - m1 + 60).
      split; [reflexivity|]. split; [lia|]. split; [lia|].
      apply (Z.mod_unique _ _ 0); lia.
  - repeat (rewrite ?(lt_exact J L) by lia).
    destruct (Z.ltb_spec (h2 - h1) 0) as [Hhneg|Hhpos].
    + repeat (rewrite ?(plus_exact J L) by lia).
      rewrite !(toString_small J L) by lia.
      exists (h2 - h1 + 24), (m2 - m1).
      split; [reflexivity|]. split; [lia|]. split; [lia|].
      apply (Z.mod_unique _ _ (-1)); lia.
    + rewrite !(toString_small J L) by lia.
      exists (h2 - h1), (m2 - m1).
      split; [reflexivity|]. split; [lia|]. split; [lia|].
      apply (Z.mod_unique _ _ 0); lia.
Qed.

End TimeStrings.

Lemma small_numbers_laws : JsNumbersLaws small_numbers.
Proof.
  assert (Hread : forall n, 0 <= n < 100 -> read_digits (two_digits n) = Some n).
  { intros n Hn.
    assert (Hall : forallb
                     (fun k => match read_digits (two_digits (Z.of_nat k)) with
                               | Some z => z =? Z.of_nat k
                               | None => false
                               end) (seq 0 100) = true)
      by (vm_compute; reflexivity).
    rewrite forallb_forall in Hall.
    specialize (Hall (Z.to_nat n)). rewrite Z2Nat.id in Hall by lia.
    destruct (read_digits (two_digits n)) as [z|].
    - f_equal. apply Z.eqb_eq, Hall, in_seq. lia.
    - discriminate Hall. apply in_seq. lia. }
  split; cbn; intros; auto.
Qed.

(** X22. A time the database prints as [HH:MM] or [HH:MM:SS...] (two digits
    each, any hour and minute below 100) is shown as [HH:MM]: the seconds
    and anything after them are dropped, the hour and minute are not
    checked against 24 and 60, and formatting a formatted time changes
    nothing. *)
Theorem formatTimeString_keeps_hours_and_minutes
    (J : JsNumbers) (L : JsNumbersLaws J) (h m : Z) (seconds : string) :
  0 <= h < 100 -> 0 <= m < 100 ->
  formatTimeString (clock h m) = clock h m
  /\ formatTimeString (clock h m +:+ ":" +:+ seconds) = clock h m
  /\ formatTimeString (formatTimeString (clock h m +:+ ":" +:+ seconds))
     = formatTimeString (clock h m +:+ ":" +:+ seconds).
Proof.
  intros Hh Hm.
  rewrite (format_clock_seconds L h m seconds Hh Hm), (format_clock L h m Hh Hm).
  repeat split.
Qed.

Lemma formatTimeString_keeps_hours_and_minutes_witness :
  formatTimeString (clock 8 5) = "08:05"
  /\ formatTimeString (clock 8 5 +:+ ":" +:+ "00.123+05:30") = "08:05"
  /\ formatTimeString (formatTimeString (clock 8 5 +:+ ":" +:+ "00.123+05:30"))
     = formatTimeString (clock 8 5 +:+ ":" +:+ "00.123+05:30").
Proof.
  apply (formatTimeString_keeps_hours_and_minutes small_numbers small_numbers_laws
           8 5 "00.123+05:30"); lia.
Defined.

(** X23. For two clock times [calculateDuration] prints the time from the
    first to the next occurrence of the second, less than a day: hours
    in 0..23 and minutes in 0..59 that add up to the difference modulo 24
    hours.  An arrival before the departure counts as next day, and equal
    times give "0h 0m", never a full day. *)
Theorem calculateDuration_wraps_at_midnight
    (J : JsNumbers) (L : JsNumbersLaws J) (h1 m1 h2 m2 : Z) :
  0 <= h1 < 24 -> 0 <= m1 < 60 -> 0 <= h2 < 24 -> 0 <= m2 < 60 ->
  exists H M,
    calculateDuration (clock h1 m1) (clock h2 m2) = pretty H +:+ "h " +:+ pretty M +:+ "m"
    /\ 0 <= H < 24 /\ 0 <= M < 60
    /\ 60 * H + M = ((60 * h2 + m2) - (60 * h1 + m1)) mod 1440.
Proof. exact (duration_of_clocks L h1 m1 h2 m2). Qed.

Lemma calculateDuration_wraps_at_midnight_witness :
  exists H M,
    calculateDuration (clock 22 30) (clock 6 15) = pretty H +:+ "h " +:+ pretty M +:+ "m"
    /\ 0 <= H < 24 /\ 0 <= M < 60
    /\ 60 * H + M = ((60 * 6 + 15) - (60 * 22 + 30)) mod 1440.
Proof.
  apply (calculateDuration_wraps_at_midnight small_numbers small_numbers_laws 22 30 6 15);
    lia.
Defined.

(** X24. A train row whose time columns are clock times with seconds is mapped
    to a frontend train that shows both times as [HH:MM] and the duration
    between them modulo 24 hours, and that copies the identity, route,
    date and seat columns unchanged. *)
Theorem mapTrainDataToTrain_shows_clock_times
    (J : JsNumbers) (L : JsNumbersLaws J) (row : TrainData)
    (h1 m1 h2 m2 : Z) (s1 s2 : string) :
  0 <= h1 < 24 -> 0 <= m1 < 60 -> 0 <= h2 < 24 -> 0 <= m2 < 60 ->
  td_departure_time row = clock h1 m1 +:+ ":" +:+ s1 ->
  td_arrival_time row = clock h2 m2 +:+ ":" +:+ s2 ->
  let train := mapTrainDataToTrain row in
  t_departureTime train = clock h1 m1
  /\ t_arrivalTime train = clock h2 m2
  /\ (exists H M,
        t_duration train = Some (pretty H +:+ "h " +:+ pretty M +:+ "m")
        /\ 0 <= H < 24 /\ 0 <= M < 60
        /\ 60 * H + M = ((60 * h2 + m2) - (60 * h1 + m1)) mod 1440)
  /\ t_id train = td_train_id row
  /\ t_origin train = td_source row /\ t_destination train = td_destination row
  /\ t_date train = td_schedule row
  /\ t_availableSeats train = td_available_seats row
  /\ t_totalSeats train = td_total_seats row.
Proof.
  intros Hh1 Hm1 Hh2 Hm2 Hdep Harr train. subst train.
  destruct (duration_of_clocks L h1 m1 h2 m2 Hh1 Hm1 Hh2 Hm2) as (H & M & Hdur & HH & HM & Hsum).
  assert (Hfd : formatTimeString (td_departure_time row) = clock h1 m1)
    by (rewrite Hdep; apply (format_clock_seconds L); lia).
  assert (Hfa : formatTimeString (td_arrival_time row) = clock h2 m2)
    by (rewrite Harr; apply (format_clock_seconds L); lia).
  unfold mapTrainDataToTrain. rewrite Hfd, Hfa, Hdur.
  destruct (td_fares row) as [[|f fs]|]; cbn;
    (repeat split; try reflexivity; exists H, M; repeat split; assumption || lia).
Qed.

Lemma mapTrainDataToTrain_shows_clock_times_witness :
  t_departureTime (mapTrainDataToTrain sample_row) = "22:30"
  /\ t_arrivalTime (mapTrainDataToTrain sample_row) = "06:15"
  /\ (exists H M,
        t_duration (mapTrainDataToTrain sample_row)
        = Some (pretty H +:+ "h " +:+ pretty M +:+ "m")
        /\ 0 <= H < 24 /\ 0 <= M < 60
        /\ 60 * H + M = ((60 * 6 + 15) - (60 * 22 + 30)) mod 1440)
  /\ t_id (mapTrainDataToTrain sample_row) = "T1"
  /\ t_origin (mapTrainDataToTrain sample_row) = "Mumbai"
  /\ t_destination (mapTrainDataToTrain sample_row) = "Delhi"
  /\ t_date (mapTrainDataToTrain sample_row) = "2025-05-01"
  /\ t_availableSeats (mapTrainDataToTrain sample_row) = 2
  /\ t_totalSeats (mapTrainDataToTrain sample_row) = 2.
Proof.
  refine (mapTrainDataToTrain_shows_clock_times small_numbers small_numbers_laws sample_row
            22 30 6 15 "00" "00" _ _ _ _ _ _); try lia; reflexivity.
Defined.

(** X25. The price of a mapped train is the amount of the first fare of class
    "AC First Class" among its fares, and 1500 when the fares are
    missing, empty or hold no such class; the fares are listed, in order
    and with their ids, classes and amounts, exactly when there is at
    least one. *)
Theorem mapTrainDataToTrain_price_defaults (J : JsNumbers) (row : TrainData) :
  t_price (mapTrainDataToTrain row)
  = match List.find (fun x => String.eqb (f_class x) "AC First Class")
            (default [] (td_fares row)) with
    | Some x => fare_amount x
    | None => 1500%Q
    end
  /\ match t_fares (mapTrainDataToTrain row) with
     | Some listed =>
         default [] (td_fares row) <> []
         /\ map tf_id listed = map f_fare_id (default [] (td_fares row))
         /\ map tf_class listed = map f_class (default [] (td_fares row))
         /\ map tf_amount listed = map fare_amount (default [] (td_fares row))
     | None => default [] (td_fares row) = []
     end.
Proof.
  unfold mapTrainDataToTrain. destruct (td_fares row) as [[|f fs]|]; cbn [default].
  - split; reflexivity.
  - cbn [t_price t_fares]. split; [reflexivity|].
    split; [discriminate|]. rewrite !map_map. repeat split.
  - split; reflexivity.
Qed.

(** ** The amount the booking form charges and the fare that is booked *)

Lemma find_of_filter (c : string) (l : list fare) (f : fare) (rest : list fare) :
  filter (fun x => f_class x = c) l = f :: rest ->
  List.find (fun x => String.eqb (f_class x) c) l = Some f.
Proof.
  induction l as [|x l IH]; [discriminate|].
  rewrite filter_cons. cbn [List.find]. destruct (decide (f_class x = c)) as [Heq|Hne].
  - intros [= <- _]. rewrite Heq, String.eqb_refl. reflexivity.
  - apply String.eqb_neq in Hne. rewrite Hne. exact IH.
Qed.

Lemma find_of_filter_nil (c : string) (l : list fare) :
  filter (fun x => f_class x = c) l = [] ->
  List.find (fun x => String.eqb (f_class x) c) l = None.
Proof.
  induction l as [|x l IH]; [reflexivity|].
  rewrite filter_cons. cbn [List.find]. destruct (decide (f_class x = c)) as [Heq|Hne].
  - discriminate.
  - apply String.eqb_neq in Hne. rewrite Hne. exact IH.
Qed.

Lemma find_listed (c : string) (l : list fare) :
  List.find (fun fare => String.eqb (tf_class fare) c)
    (map (fun x => mkTrainFare (f_fare_id x) (f_class x) (fare_amount x)) l)
  = option_map (fun x => mkTrainFare (f_fare_id x) (f_class x) (fare_amount x))
      (List.find (fun x => String.eqb (f_class x) c) l).
Proof.
  induction l as [|x l IH]; [reflexivity|]. cbn [map List.find tf_class].
  destruct (String.eqb (f_class x) c); [reflexivity | exact IH].
Qed.

Lemma calculateFare_of_row (J : JsNumbers) (row : TrainData) (c : string) :
  calculateFare (mapTrainDataToTrain row) c
  = match List.find (fun x => String.eqb (f_class x) c) (default [] (td_fares row)) with
    | Some x => fare_amount x
    | None =>
        inject_Z (Math_round (t_price (mapTrainDataToTrain row) * getFareMultiplier c))
    end.
Proof.
  unfold calculateFare.
  set (listed := fun x => mkTrainFare (f_fare_id x) (f_class x) (fare_amount x)).
  destruct (td_fares row) as [[|f fs]|] eqn:Hf.
  - assert (Ht : t_fares (mapTrainDataToTrain row) = None)
      by (unfold mapTrainDataToTrain; rewrite Hf; reflexivity).
    rewrite Ht. reflexivity.
  - assert (Ht : t_fares (mapTrainDataToTrain row) = Some (listed f :: map listed fs))
      by (unfold mapTrainDataToTrain; rewrite Hf; reflexivity).
    rewrite Ht. change (default [] (Some (f :: fs))) with (f :: fs).
    change (listed f :: map listed fs) with (map listed (f :: fs)).
    subst listed. rewrite find_listed.
    destruct (List.find (fun x => String.eqb (f_class x) c) (f :: fs)); reflexivity.
  - assert (Ht : t_fares (mapTrainDataToTrain row) = None)
      by (unfold mapTrainDataToTrain; rewrite Hf; reflexivity).
    rewrite Ht. reflexivity.
Qed.

(** X26. When the fares of a train hold exactly one row of the selected class,
    the fare the form charges per passenger for the train as mapped from
    its row with its fares is the amount of that row, and the lookup of
    [createBooking] resolves to that same row: what is charged is what is
    booked, plus the service fee of 50 on the total. *)
Theorem form_charges_the_booked_fare
    (J : JsNumbers) (row : TrainData) (d : db) (c : string) (f : fare) (n : Q) :
  td_fares row = Some (filter (fun x => f_train_id x = td_train_id row) (fare_tbl d)) ->
  filter (fun x => f_train_id x = td_train_id row /\ f_class x = c) (fare_tbl d) = [f] ->
  calculateFare (mapTrainDataToTrain row) c = fare_amount f
  /\ calculateTotalAmount (mapTrainDataToTrain row) c n = (fare_amount f * n + 50)%Q
  /\ select_fare_of_class (td_train_id row) c d = PgOk (f_fare_id f).
Proof.
  intros Hfares Hone.
  assert (Hfare : calculateFare (mapTrainDataToTrain row) c = fare_amount f).
  { rewrite calculateFare_of_row, Hfares. cbn [default].
    rewrite (find_of_filter c _ f []); [reflexivity|].
    unfold id. rewrite list_filter_filter.
    erewrite list_filter_iff; [exact Hone|]. intros x. cbn. tauto. }
  split; [exact Hfare|]. split.
  - unfold calculateTotalAmount. rewrite Hfare. reflexivity.
  - unfold select_fare_of_class. rewrite Hone. reflexivity.
Qed.

Lemma form_charges_the_booked_fare_witness :
  calculateFare
    (mapTrainDataToTrain
       (mkTrainData "T1" "Night Mail" "12951" "Mumbai" "Delhi" "22:30:00" "06:15:00"
          "2025-05-01" 2 2 (Some [mkFare "F1" "T1" "AC 2 Tier" 800]))) "AC 2 Tier"
  = 800%Q
  /\ calculateTotalAmount
       (mapTrainDataToTrain
          (mkTrainData "T1" "Night Mail" "12951" "Mumbai" "Delhi" "22:30:00" "06:15:00"
             "2025-05-01" 2 2 (Some [mkFare "F1" "T1" "AC 2 Tier" 800]))) "AC 2 Tier" 2
     = (800 * 2 + 50)%Q
  /\ select_fare_of_class "T1" "AC 2 Tier" sample_db = PgOk "F1".
Proof.
  refine (form_charges_the_booked_fare small_numbers
            (mkTrainData "T1" "Night Mail" "12951" "Mumbai" "Delhi" "22:30:00" "06:15:00"
               "2025-05-01" 2 2 (Some [mkFare "F1" "T1" "AC 2 Tier" 800]))
            sample_db "AC 2 Tier" (mkFare "F1" "T1" "AC 2 Tier" 800) 2 _ _); reflexivity.
Defined.

(** X27. When the train has fares but none of the selected class, the form
    charges the rounded share of the train's price (the fixed multiplier
    of the class times the first "AC First Class" amount, or times 1500),
    while the fallback of [createBooking] books every passenger under the
    first fare of the train, whatever that fare amounts to. *)
Theorem form_and_booking_part_ways_without_the_class
    (J : JsNumbers) (row : TrainData) (d : db) (c : string) (g : fare) (others : list fare) :
  td_fares row = Some (filter (fun x => f_train_id x = td_train_id row) (fare_tbl d)) ->
  filter (fun x => f_train_id x = td_train_id row /\ f_class x = c) (fare_tbl d) = [] ->
  filter (fun x => f_train_id x = td_train_id row) (fare_tbl d) = g :: others ->
  calculateFare (mapTrainDataToTrain row) c
  = inject_Z
      (Math_round
         (match List.find (fun x => String.eqb (f_class x) "AC First Class") (g :: others) with
          | Some x => fare_amount x
          | None => 1500%Q
          end * getFareMultiplier c))
  /\ select_fare_of_class (td_train_id row) c d = PgError single_row_error
  /\ select_any_fare (td_train_id row) d = PgOk (f_fare_id g).
Proof.
  intros Hfares Hnone Hany. split; [|split].
  - rewrite calculateFare_of_row, Hfares. cbn [default].
    rewrite find_of_filter_nil.
    + unfold mapTrainDataToTrain. rewrite Hfares, Hany. reflexivity.
    + unfold id. rewrite list_filter_filter.
      erewrite list_filter_iff; [exact Hnone|]. intros x. cbn. tauto.
  - unfold select_fare_of_class. rewrite Hnone. reflexivity.
  - unfold select_any_fare. rewrite Hany. reflexivity.
Qed.

Lemma form_and_booking_part_ways_without_the_class_witness :
  calculateFare
    (mapTrainDataToTrain
       (mkTrainData "T1" "Night Mail" "12951" "Mumbai" "Delhi" "22:30:00" "06:15:00"
          "2025-05-01" 2 2 (Some [mkFare "F1" "T1" "AC 2 Tier" 800]))) "Sleeper"
  = inject_Z (Math_round (1500 * getFareMultiplier "Sleeper"))
  /\ select_fare_of_class "T1" "Sleeper" sample_db = PgError single_row_error
  /\ select_any_fare "T1" sample_db = PgOk "F1".
Proof.
  refine (form_and_booking_part_ways_without_the_class small_numbers
            (mkTrainData "T1" "Night Mail" "12951" "Mumbai" "Delhi" "22:30:00" "06:15:00"
               "2025-05-01" 2 2 (Some [mkFare "F1" "T1" "AC 2 Tier" 800]))
            sample_db "Sleeper" (mkFare "F1" "T1" "AC 2 Tier" 800) [] _ _ _); reflexivity.
Defined.
